(** * BCA AuthKit: the session and token lifecycle, embedded in Rocq

    The development follows the TypeScript sources of the package:

    - [types.ts]      the records [User], [AuthTokens], [LoginCredentials], [AuthConfig];
    - [storage.ts]    the class [AuthStorage] over expo-secure-store and AsyncStorage;
    - [api.ts]        the class [AuthAPI] (the remote authentication gateway);
    - [biometric.ts]  the class [BiometricAuth] over expo-local-authentication;
    - [context.tsx]   the component [AuthProvider] (the session controller).

    Asynchronous functions become computations of a state-and-exception monad
    [Async] over a [World] that holds the two key-value stores, the static
    configuration of the gateway, the React state of the provider and the
    outcomes of the calls that leave the program (storage faults, HTTP
    replies, biometric prompts, OAuth prompts).

    - Timestamps are integers, in milliseconds, as [Date.now()] gives them.
    - The calls gathered by one [Promise.all] all run; they are taken in the
      order of the array.
    - A function of the provider is a closure of one render: it reads [user]
      and [tokens] as that render got them, and the setters change the state
      the next render will get.
    - [AuthAPI.hashPassword] has no caller in the package and is left out. *)

From Stdlib Require Import ZArith String Ascii List Bool Lia DecimalString DecimalPos.
From stdpp Require Import base option gmap strings.

Local Open Scope Z_scope.
Local Open Scope string_scope.

(** ** JavaScript values the code relies on *)

(** Truthiness of a string ([if (s)], [s || d], [!s]): only the empty string
    is falsy. *)
Definition truthy (s : string) : bool :=
  match s with EmptyString => false | String _ _ => true end.

(** Truthiness of an optional string: [undefined] and [null] are falsy. *)
Definition truthy_opt (o : option string) : bool :=
  match o with Some s => truthy s | None => false end.

(** Truthiness of an object that may be [null]. *)
Definition present {A} (o : option A) : bool :=
  match o with Some _ => true | None => false end.

(** [a || d] on an optional string with a string default. *)
Definition or_else (o : option string) (d : string) : string :=
  match o with
  | Some s => if truthy s then s else d
  | None => d
  end.

(** Thrown values: [new Error(message)], and the [TypeError] the engine raises
    when a property of [undefined] is read. *)
Inductive JsError :=
| Error (message : string)
| TypeError (message : string).

Definition message (e : JsError) : string :=
  match e with Error m => m | TypeError m => m end.

(** ** types.ts *)

Record User := {
  id : string;
  email : string;
  name : string;
  avatar : option string;
  role : option string;
  permissions : option (list string)
}.

Record AuthTokens := {
  accessToken : string;
  refreshToken : option string;
  idToken : option string;
  expiresAt : Z
}.

Record LoginCredentials := {
  login_email : string;
  password : string
}.

(** The argument of [storeBiometricCredentials] and of [loginWithHash]. *)
Record BiometricCredentials := {
  credential_email : string;
  hashedPassword : string
}.

Record GoogleOAuthConfig := {
  google_clientId : string;
  google_scopes : option (list string)
}.

Record MicrosoftOAuthConfig := {
  microsoft_clientId : string;
  tenantId : option string;
  microsoft_scopes : option (list string)
}.

Record OAuthConfig := {
  google : option GoogleOAuthConfig;
  microsoft : option MicrosoftOAuthConfig
}.

Record AuthConfig := {
  apiBaseUrl : string;
  sessionTimeout : Z;
  enableBiometrics : bool;
  biometricPrompt : option string;
  enableAutoRefresh : bool;
  oauth : option OAuthConfig
}.

Record BiometricCapabilities := {
  isAvailable : bool;
  hasHardware : bool;
  isEnrolled : bool;
  supportedTypes : list string
}.

(** [tokens.refreshToken = refreshToken] in [getTokens]. *)
Definition with_refreshToken (t : AuthTokens) (r : string) : AuthTokens :=
  {| accessToken := accessToken t;
     refreshToken := Some r;
     idToken := idToken t;
     expiresAt := expiresAt t |}.

(** ** JSON.stringify and JSON.parse

    The two builtins are taken through an interface: a value written by
    [stringify] is read back by [parse], and the text of an object is never
    the empty string.  A text that does not decode makes [JSON.parse] throw,
    which is [None] here.  Reference instances are given further down. *)
Class Json (A : Type) := {
  stringify : A -> string;
  parse : string -> option A;
  parse_stringify : forall a, parse (stringify a) = Some a;
  stringify_truthy : forall a, truthy (stringify a) = true
}.

(** ** The world outside the program *)

(** The body of a 2xx reply of the login endpoints and of the refresh
    endpoint ([user] is optional in the latter only). *)
Record SessionData := {
  data_user : User;
  data_accessToken : string;
  data_refreshToken : option string;
  data_expiresIn : Z
}.

Record RefreshData := {
  refresh_user : option User;
  refresh_accessToken : string;
  refresh_refreshToken : option string;
  refresh_expiresIn : Z
}.

(** What one [fetch] does: it rejects, or resolves with [ok] false and a body
    [{message?}], or resolves with [ok] true and a body. *)
Inductive Reply (A : Type) :=
| NetworkDown (e : JsError)
| NotOk (msg : option string)
| Ok2xx (body : A).
Arguments NetworkDown {A} e.
Arguments NotOk {A} msg.
Arguments Ok2xx {A} body.

(** The remote service: the replies it will give, per family of endpoints. *)
Record Server := {
  session_replies : list (Reply SessionData);
  refresh_replies : list (Reply RefreshData);
  logout_replies : list (Reply unit);
  profile_replies : list (Reply User)
}.

Inductive RequestBody :=
| NoBody
| BodyLogin (c : LoginCredentials)
| BodyHash (c : BiometricCredentials)
| BodyOAuth (code redirectUri : string) (tenant : option string)
| BodyRefresh (refreshToken : string).

Record Request := {
  url : string;
  method : string;
  bearer : option string;
  body : RequestBody
}.

(** [LocalAuthentication]: one capability probe (the three calls of
    [checkCapabilities] together) and one [authenticateAsync]. *)
Inductive Probe :=
| ProbeRejects
| ProbeResult (hardware enrolled : bool) (types : list Z).

Inductive PromptOutcome :=
| AuthRejects (e : JsError)
| AuthResult (success : bool) (error : string).

(** [AuthSession]: the result of [request.promptAsync]. *)
Inductive OAuthOutcome :=
| OAuthRejects (e : JsError)
| OAuthResult (type code : string).

(** The React state of [AuthProvider]. *)
Record SessionState := {
  user : option User;
  tokens : option AuthTokens;
  isLoading : bool;
  error : option string
}.

(** What the provider does that an observer can see: the state setters it
    calls and the requests it sends. *)
Inductive Event :=
| SetUser (u : option User)
| SetTokens (t : option AuthTokens)
| SetIsLoading (b : bool)
| SetError (e : option string)
| Fetch (r : Request).

Record World := {
  secureStore : gmap string string;     (* expo-secure-store *)
  asyncStorage : gmap string string;    (* AsyncStorage *)
  storeFaults : list bool;              (* does the next store call reject? *)
  apiConfig : option AuthConfig;        (* AuthAPI.config *)
  server : Server;
  probes : list Probe;
  biometricPrompts : list PromptOutcome;
  oauthPrompts : list OAuthOutcome;
  now : Z;                              (* Date.now() *)
  state : SessionState;
  events : list Event
}.

Definition with_secureStore (f : gmap string string -> gmap string string) (w : World) : World :=
  {| secureStore := f (secureStore w); asyncStorage := asyncStorage w;
     storeFaults := storeFaults w; apiConfig := apiConfig w; server := server w;
     probes := probes w; biometricPrompts := biometricPrompts w;
     oauthPrompts := oauthPrompts w; now := now w; state := state w;
     events := events w |}.

Definition with_asyncStorage (f : gmap string string -> gmap string string) (w : World) : World :=
  {| secureStore := secureStore w; asyncStorage := f (asyncStorage w);
     storeFaults := storeFaults w; apiConfig := apiConfig w; server := server w;
     probes := probes w; biometricPrompts := biometricPrompts w;
     oauthPrompts := oauthPrompts w; now := now w; state := state w;
     events := events w |}.

Definition with_storeFaults (fs : list bool) (w : World) : World :=
  {| secureStore := secureStore w; asyncStorage := asyncStorage w;
     storeFaults := fs; apiConfig := apiConfig w; server := server w;
     probes := probes w; biometricPrompts := biometricPrompts w;
     oauthPrompts := oauthPrompts w; now := now w; state := state w;
     events := events w |}.

Definition with_apiConfig (c : option AuthConfig) (w : World) : World :=
  {| secureStore := secureStore w; asyncStorage := asyncStorage w;
     storeFaults := storeFaults w; apiConfig := c; server := server w;
     probes := probes w; biometricPrompts := biometricPrompts w;
     oauthPrompts := oauthPrompts w; now := now w; state := state w;
     events := events w |}.

Definition with_server (s : Server) (w : World) : World :=
  {| secureStore := secureStore w; asyncStorage := asyncStorage w;
     storeFaults := storeFaults w; apiConfig := apiConfig w; server := s;
     probes := probes w; biometricPrompts := biometricPrompts w;
     oauthPrompts := oauthPrompts w; now := now w; state := state w;
     events := events w |}.

Definition with_probes (ps : list Probe) (w : World) : World :=
  {| secureStore := secureStore w; asyncStorage := asyncStorage w;
     storeFaults := storeFaults w; apiConfig := apiConfig w; server := server w;
     probes := ps; biometricPrompts := biometricPrompts w;
     oauthPrompts := oauthPrompts w; now := now w; state := state w;
     events := events w |}.

Definition with_biometricPrompts (ps : list PromptOutcome) (w : World) : World :=
  {| secureStore := secureStore w; asyncStorage := asyncStorage w;
     storeFaults := storeFaults w; apiConfig := apiConfig w; server := server w;
     probes := probes w; biometricPrompts := ps;
     oauthPrompts := oauthPrompts w; now := now w; state := state w;
     events := events w |}.

Definition with_oauthPrompts (ps : list OAuthOutcome) (w : World) : World :=
  {| secureStore := secureStore w; asyncStorage := asyncStorage w;
     storeFaults := storeFaults w; apiConfig := apiConfig w; server := server w;
     probes := probes w; biometricPrompts := biometricPrompts w;
     oauthPrompts := ps; now := now w; state := state w;
     events := events w |}.

Definition with_state (f : SessionState -> SessionState) (w : World) : World :=
  {| secureStore := secureStore w; asyncStorage := asyncStorage w;
     storeFaults := storeFaults w; apiConfig := apiConfig w; server := server w;
     probes := probes w; biometricPrompts := biometricPrompts w;
     oauthPrompts := oauthPrompts w; now := now w; state := f (state w);
     events := events w |}.

Definition with_event (e : Event) (w : World) : World :=
  {| secureStore := secureStore w; asyncStorage := asyncStorage w;
     storeFaults := storeFaults w; apiConfig := apiConfig w; server := server w;
     probes := probes w; biometricPrompts := biometricPrompts w;
     oauthPrompts := oauthPrompts w; now := now w; state := state w;
     events := events w ++ [e] |}.

(** ** Asynchronous computations

    An [async] function either returns or throws, and leaves a world behind
    in both cases. *)
Inductive Outcome (A : Type) :=
| Returned (a : A)
| Thrown (e : JsError).
Arguments Returned {A} a.
Arguments Thrown {A} e.

Definition Async (A : Type) : Type := World -> Outcome A * World.

Definition ret {A} (a : A) : Async A := fun w => (Returned a, w).

Definition throw {A} (e : JsError) : Async A := fun w => (Thrown e, w).

Definition bind {A B} (c : Async A) (k : A -> Async B) : Async B :=
  fun w =>
    match c w with
    | (Returned a, w') => k a w'
    | (Thrown e, w') => (Thrown e, w')
    end.

Notation "'let*' x ':=' c 'in' k" := (bind c (fun x => k))
  (at level 10, x name, c at level 100, k at level 200).
Notation "c1 ';;' c2" := (bind c1 (fun _ => c2))
  (at level 100, c2 at level 200, right associativity).

(** [try { c } catch (e) { h e }] *)
Definition try_catch {A} (c : Async A) (h : JsError -> Async A) : Async A :=
  fun w =>
    match c w with
    | (Returned a, w') => (Returned a, w')
    | (Thrown e, w') => h e w'
    end.

(** [try { c } finally { f }]: [f] runs on both exits; when it returns, the
    outcome is the one of [c]. *)
Definition try_finally {A} (c : Async A) (f : Async unit) : Async A :=
  fun w =>
    match c w with
    | (o, w') =>
        match f w' with
        | (Returned _, w'') => (o, w'')
        | (Thrown e, w'') => (Thrown e, w'')
        end
    end.

(** [await Promise.all([a, b])]: both computations are started, so both run
    whatever the other does; the whole rejects when one of them does.  The
    calls of the two are taken one after the other, and when both reject the
    error of the first is the one reported: the interleaving of members that
    await more than once, and the order in which two rejections settle, are
    not modelled.  Members made of a single store call, as in [clearTokens]
    and [clearAll], run exactly in this order. *)
Definition all2 {A B} (a : Async A) (b : Async B) : Async (A * B) :=
  fun w =>
    match a w with
    | (oa, w') =>
        match b w' with
        | (ob, w'') =>
            match oa, ob with
            | Returned x, Returned y => (Returned (x, y), w'')
            | Thrown e, _ => (Thrown e, w'')
            | _, Thrown e => (Thrown e, w'')
            end
        end
    end.

Definition get_world : Async World := fun w => (Returned w, w).

Definition modify (f : World -> World) : Async unit := fun w => (Returned tt, f w).

(** Does the store call that starts now reject?  A world with no fault left
    has a store that works. *)
Definition next_fault : Async bool :=
  fun w =>
    match storeFaults w with
    | [] => (Returned false, w)
    | b :: fs => (Returned b, with_storeFaults fs w)
    end.

(** ** expo-secure-store *)
Module SecureStore.

Definition fault : JsError := Error "SecureStore: the call was rejected".

Definition setItemAsync (key value : string) : Async unit :=
  let* bad := next_fault in
  if bad then throw fault else modify (with_secureStore (insert key value)).

Definition getItemAsync (key : string) : Async (option string) :=
  let* bad := next_fault in
  if bad then throw fault
  else let* w := get_world in ret (secureStore w !! key).

Definition deleteItemAsync (key : string) : Async unit :=
  let* bad := next_fault in
  if bad then throw fault else modify (with_secureStore (delete key)).

End SecureStore.

(** ** @react-native-async-storage/async-storage *)
Module AsyncStorage.

Definition fault : JsError := Error "AsyncStorage: the call was rejected".

Definition setItem (key value : string) : Async unit :=
  let* bad := next_fault in
  if bad then throw fault else modify (with_asyncStorage (insert key value)).

Definition getItem (key : string) : Async (option string) :=
  let* bad := next_fault in
  if bad then throw fault
  else let* w := get_world in ret (asyncStorage w !! key).

Definition removeItem (key : string) : Async unit :=
  let* bad := next_fault in
  if bad then throw fault else modify (with_asyncStorage (delete key)).

End AsyncStorage.

(** ** storage.ts *)

(** Storage keys; the last one is written in full at each use in the source. *)
Definition TOKENS : string := "bca_auth_tokens".
Definition USER : string := "bca_auth_user".
Definition BIOMETRIC_ENABLED : string := "bca_biometric_enabled".
Definition REFRESH_TOKEN : string := "bca_refresh_token".
Definition BIOMETRIC_CREDENTIALS : string := "bca_biometric_credentials".

Module AuthStorage.
Section WithJson.
Context `{!Json AuthTokens, !Json User, !Json BiometricCredentials}.

Definition storeTokens (tokens : AuthTokens) : Async unit :=
  try_catch
    (SecureStore.setItemAsync TOKENS (stringify tokens) ;;
     (* Store refresh token separately for additional security *)
     match refreshToken tokens with
     | Some r =>
         if truthy r then SecureStore.setItemAsync REFRESH_TOKEN r else ret tt
     | None => ret tt
     end)
    (fun _ => throw (Error "Failed to store authentication tokens")).

Definition getTokens : Async (option AuthTokens) :=
  try_catch
    (let* tokensJson := SecureStore.getItemAsync TOKENS in
     if negb (truthy_opt tokensJson) then ret None
     else
       match parse (default EmptyString tokensJson) with
       | None => throw (Error "JSON.parse: the text does not decode")
       | Some tokens =>
           (* Get refresh token separately *)
           let* refreshToken := SecureStore.getItemAsync REFRESH_TOKEN in
           if truthy_opt refreshToken
           then ret (Some (with_refreshToken tokens (default EmptyString refreshToken)))
           else ret (Some tokens)
       end)
    (fun _ => ret None).

Definition clearTokens : Async unit :=
  try_catch
    (all2 (SecureStore.deleteItemAsync TOKENS)
          (SecureStore.deleteItemAsync REFRESH_TOKEN) ;;
     ret tt)
    (fun _ => ret tt).

Definition storeUser (user : User) : Async unit :=
  try_catch
    (AsyncStorage.setItem USER (stringify user))
    (fun _ => throw (Error "Failed to store user information")).

Definition getUser : Async (option User) :=
  try_catch
    (let* userJson := AsyncStorage.getItem USER in
     if truthy_opt userJson then
       match parse (default EmptyString userJson) with
       | None => throw (Error "JSON.parse: the text does not decode")
       | Some u => ret (Some u)
       end
     else ret None)
    (fun _ => ret None).

Definition clearUser : Async unit :=
  try_catch (AsyncStorage.removeItem USER) (fun _ => ret tt).

Definition isBiometricEnabled : Async bool :=
  try_catch
    (let* enabled := AsyncStorage.getItem BIOMETRIC_ENABLED in
     ret (bool_decide (enabled = Some "true")))
    (fun _ => ret false).

Definition setBiometricEnabled (enabled : bool) : Async unit :=
  try_catch
    (AsyncStorage.setItem BIOMETRIC_ENABLED (if enabled then "true" else "false"))
    (fun _ => throw (Error "Failed to update biometric preference")).

Definition storeBiometricCredentials (credentials : BiometricCredentials) : Async unit :=
  try_catch
    (SecureStore.setItemAsync BIOMETRIC_CREDENTIALS (stringify credentials))
    (fun _ => throw (Error "Failed to store biometric credentials")).

Definition getBiometricCredentials : Async (option BiometricCredentials) :=
  try_catch
    (let* credentialsJson := SecureStore.getItemAsync BIOMETRIC_CREDENTIALS in
     if truthy_opt credentialsJson then
       match parse (default EmptyString credentialsJson) with
       | None => throw (Error "JSON.parse: the text does not decode")
       | Some c => ret (Some c)
       end
     else ret None)
    (fun _ => ret None).

Definition clearAll : Async unit :=
  try_catch
    (all2 clearTokens
       (all2 clearUser
          (all2 (AsyncStorage.removeItem BIOMETRIC_ENABLED)
                (SecureStore.deleteItemAsync BIOMETRIC_CREDENTIALS))) ;;
     ret tt)
    (fun _ => ret tt).

Definition isTokenExpired (now : Z) (tokens : AuthTokens) : bool :=
  now >=? expiresAt tokens.

Definition isTokenExpiringSoon (now : Z) (tokens : AuthTokens) : bool :=
  let fiveMinutes := 5 * 60 * 1000 in
  now >=? expiresAt tokens - fiveMinutes.

End WithJson.
End AuthStorage.

(** ** api.ts *)

Record LoginResponse := {
  response_user : User;
  response_tokens : AuthTokens
}.

(** What [AuthAPI.refreshToken] resolves with: [data.user] may be missing. *)
Record RefreshResponse := {
  refreshed_user : option User;
  refreshed_tokens : AuthTokens
}.

(** The next reply of a family of endpoints; a service with no reply left is
    out of reach. *)
Definition unreachable : JsError := TypeError "Network request failed".

Definition pop_reply {A} (l : list (Reply A)) : Reply A * list (Reply A) :=
  match l with
  | [] => (NetworkDown unreachable, [])
  | r :: l' => (r, l')
  end.

Definition with_session_replies (l : list (Reply SessionData)) (s : Server) : Server :=
  {| session_replies := l; refresh_replies := refresh_replies s;
     logout_replies := logout_replies s; profile_replies := profile_replies s |}.

Definition with_refresh_replies (l : list (Reply RefreshData)) (s : Server) : Server :=
  {| session_replies := session_replies s; refresh_replies := l;
     logout_replies := logout_replies s; profile_replies := profile_replies s |}.

Definition with_logout_replies (l : list (Reply unit)) (s : Server) : Server :=
  {| session_replies := session_replies s; refresh_replies := refresh_replies s;
     logout_replies := l; profile_replies := profile_replies s |}.

Definition with_profile_replies (l : list (Reply User)) (s : Server) : Server :=
  {| session_replies := session_replies s; refresh_replies := refresh_replies s;
     logout_replies := logout_replies s; profile_replies := l |}.

(** [await fetch(url, init)] followed by [await response.json()]: the request
    is sent, then the promise rejects, or the response is there with its
    [ok] flag and its decoded body ([inl]: not ok, with the [message] of the
    body; [inr]: ok). *)
Definition fetch {A} (replies : Server -> list (Reply A))
    (rest : list (Reply A) -> Server -> Server) (r : Request) : Async (option string + A) :=
  fun w =>
    let w1 := with_event (Fetch r) w in
    let (reply, l) := pop_reply (replies (server w1)) in
    let w2 := with_server (rest l (server w1)) w1 in
    match reply with
    | NetworkDown e => (Thrown e, w2)
    | NotOk msg => (Returned (inl msg), w2)
    | Ok2xx b => (Returned (inr b), w2)
    end.

(** [AuthSession.makeRedirectUri({ scheme, path })] *)
Definition makeRedirectUri (scheme path : string) : string :=
  scheme +:+ "://" +:+ path.

Module AuthAPI.

Definition initialize (config : AuthConfig) : Async unit :=
  modify (with_apiConfig (Some config)).

(** [this.config.apiBaseUrl]: reading a property of [undefined] throws. *)
Definition undefined_config : JsError :=
  TypeError "Cannot read properties of undefined (reading 'apiBaseUrl')".

Definition config_apiBaseUrl : Async string :=
  let* w := get_world in
  match apiConfig w with
  | Some c => ret (apiBaseUrl c)
  | None => throw undefined_config
  end.

Definition session_of (data : SessionData) : Async LoginResponse :=
  let* w := get_world in
  ret {| response_user := data_user data;
         response_tokens :=
           {| accessToken := data_accessToken data;
              refreshToken := data_refreshToken data;
              idToken := None;
              (* Convert seconds to milliseconds *)
              expiresAt := now w + data_expiresIn data * 1000 |} |}.

Definition login (credentials : LoginCredentials) : Async LoginResponse :=
  try_catch
    (let* base := config_apiBaseUrl in
     let* response :=
       fetch session_replies with_session_replies
         {| url := base +:+ "/auth/login"; method := "POST";
            bearer := None; body := BodyLogin credentials |} in
     match response with
     | inl errorMessage => throw (Error (or_else errorMessage "Login failed"))
     | inr data => session_of data
     end)
    (fun error => throw error).

Definition loginWithHash (credentials : BiometricCredentials) : Async LoginResponse :=
  try_catch
    (let* base := config_apiBaseUrl in
     let* response :=
       fetch session_replies with_session_replies
         {| url := base +:+ "/auth/login-hash"; method := "POST";
            bearer := None; body := BodyHash credentials |} in
     match response with
     | inl errorMessage => throw (Error (or_else errorMessage "Hash login failed"))
     | inr data => session_of data
     end)
    (fun error => throw error).

(** [await request.promptAsync(...)] *)
Definition promptAsync : Async (string * string) :=
  fun w =>
    match oauthPrompts w with
    | [] => (Returned ("dismiss", EmptyString), w)
    | OAuthRejects e :: l => (Thrown e, with_oauthPrompts l w)
    | OAuthResult type code :: l => (Returned (type, code), with_oauthPrompts l w)
    end.

Definition loginWithGoogle (config : GoogleOAuthConfig) : Async LoginResponse :=
  try_catch
    (let redirectUri := makeRedirectUri "com.bca.authkit" "/oauth/google/callback" in
     let* result := promptAsync in
     if negb (String.eqb (fst result) "success")
     then throw (Error "Google OAuth cancelled or failed")
     else
       let* base := config_apiBaseUrl in
       let* response :=
         fetch session_replies with_session_replies
           {| url := base +:+ "/auth/oauth/google"; method := "POST";
              bearer := None; body := BodyOAuth (snd result) redirectUri None |} in
       match response with
       | inl errorMessage => throw (Error (or_else errorMessage "Google OAuth login failed"))
       | inr data => session_of data
       end)
    (fun error => throw error).

Definition loginWithMicrosoft (config : MicrosoftOAuthConfig) : Async LoginResponse :=
  try_catch
    (let tenant := or_else (tenantId config) "common" in
     let redirectUri := makeRedirectUri "com.bca.authkit" "/oauth/microsoft/callback" in
     let* result := promptAsync in
     if negb (String.eqb (fst result) "success")
     then throw (Error "Microsoft OAuth cancelled or failed")
     else
       let* base := config_apiBaseUrl in
       let* response :=
         fetch session_replies with_session_replies
           {| url := base +:+ "/auth/oauth/microsoft"; method := "POST";
              bearer := None; body := BodyOAuth (snd result) redirectUri (Some tenant) |} in
       match response with
       | inl errorMessage => throw (Error (or_else errorMessage "Microsoft OAuth login failed"))
       | inr data => session_of data
       end)
    (fun error => throw error).

Definition refreshToken (token : string) : Async RefreshResponse :=
  try_catch
    (let* base := config_apiBaseUrl in
     let* response :=
       fetch refresh_replies with_refresh_replies
         {| url := base +:+ "/auth/refresh"; method := "POST";
            bearer := None; body := BodyRefresh token |} in
     match response with
     | inl errorMessage => throw (Error (or_else errorMessage "Token refresh failed"))
     | inr data =>
         let* w := get_world in
         ret {| refreshed_user := refresh_user data;
                refreshed_tokens :=
                  {| accessToken := refresh_accessToken data;
                     refreshToken := Some (or_else (refresh_refreshToken data) token);
                     idToken := None;
                     expiresAt := now w + refresh_expiresIn data * 1000 |} |}
     end)
    (fun error => throw error).

Definition logout (accessToken : string) : Async unit :=
  try_catch
    (let* base := config_apiBaseUrl in
     let* response :=
       fetch logout_replies with_logout_replies
         {| url := base +:+ "/auth/logout"; method := "POST";
            bearer := Some accessToken; body := NoBody |} in
     ret tt)
    (fun _ =>
       (* Don't throw error for logout - local cleanup is more important *)
       ret tt).

Definition getProfile (accessToken : string) : Async User :=
  try_catch
    (let* base := config_apiBaseUrl in
     let* response :=
       fetch profile_replies with_profile_replies
         {| url := base +:+ "/auth/profile"; method := "GET";
            bearer := Some accessToken; body := NoBody |} in
     match response with
     | inl errorMessage => throw (Error (or_else errorMessage "Failed to get profile"))
     | inr user => ret user
     end)
    (fun error => throw error).

End AuthAPI.

(** ** biometric.ts *)

Module BiometricAuth.

(** [LocalAuthentication.AuthenticationType] *)
Definition FINGERPRINT : Z := 1.
Definition FACIAL_RECOGNITION : Z := 2.
Definition IRIS : Z := 3.

Definition typeName (type : Z) : string :=
  if (type =? FINGERPRINT)%Z then "fingerprint"
  else if (type =? FACIAL_RECOGNITION)%Z then "face-id"
  else if (type =? IRIS)%Z then "iris"
  else "unknown".

(** The three probes of [Promise.all]; one of them rejecting rejects all. *)
Definition probe : Async (bool * bool * list Z) :=
  fun w =>
    match probes w with
    | [] => (Thrown (Error "LocalAuthentication: the call was rejected"), w)
    | ProbeRejects :: l =>
        (Thrown (Error "LocalAuthentication: the call was rejected"), with_probes l w)
    | ProbeResult h e ts :: l => (Returned (h, e, ts), with_probes l w)
    end.

Definition checkCapabilities : Async BiometricCapabilities :=
  try_catch
    (let* r := probe in
     let '(hasHardware, isEnrolled, supportedTypes) := r in
     ret {| isAvailable := hasHardware && isEnrolled;
            hasHardware := hasHardware;
            isEnrolled := isEnrolled;
            supportedTypes := map typeName supportedTypes |})
    (fun _ =>
       ret {| isAvailable := false; hasHardware := false;
              isEnrolled := false; supportedTypes := [] |}).

(** [LocalAuthentication.authenticateAsync(options)]; with no outcome left
    the user cancels. *)
Definition authenticateAsync (promptMessage : string) : Async (bool * string) :=
  fun w =>
    match biometricPrompts w with
    | [] => (Returned (false, "user_cancel"), w)
    | AuthRejects e :: l => (Thrown e, with_biometricPrompts l w)
    | AuthResult ok err :: l => (Returned (ok, err), with_biometricPrompts l w)
    end.

Definition authenticate (promptMessage : option string) : Async unit :=
  try_catch
    (let* capabilities := checkCapabilities in
     if negb (isAvailable capabilities)
     then throw (Error "Biometric authentication is not available")
     else
       let* result := authenticateAsync (or_else promptMessage "Authenticate with biometrics") in
       if negb (fst result) then
         if String.eqb (snd result) "user_cancel"
         then throw (Error "Authentication was cancelled")
         else if String.eqb (snd result) "not_enrolled"
         then throw (Error "No biometric authentication is enrolled")
         else if String.eqb (snd result) "not_available"
         then throw (Error "Biometric authentication is not available")
         else throw (Error ("Authentication failed: " +:+ snd result))
       else ret tt)
    (fun error => throw error).

Definition getSupportedBiometricTypes : Async (list string) :=
  let* capabilities := checkCapabilities in
  ret (supportedTypes capabilities).

Definition isSupported : Async bool :=
  let* capabilities := checkCapabilities in
  ret (hasHardware capabilities).

Definition isEnrolled : Async bool :=
  let* capabilities := checkCapabilities in
  ret (isEnrolled capabilities).

End BiometricAuth.

(** ** context.tsx *)

(** Default configuration *)
Definition defaultConfig : AuthConfig :=
  {| apiBaseUrl := "https://api.example.com";
     sessionTimeout := 60;
     enableBiometrics := true;
     biometricPrompt := Some "Use your biometric to sign in";
     enableAutoRefresh := true;
     oauth := None |}.

(** [useState(null)], [useState(null)], [useState(true)], [useState(null)] *)
Definition initialState : SessionState :=
  {| user := None; tokens := None; isLoading := true; error := None |}.

Definition setUser (u : option User) : Async unit :=
  modify (fun w =>
    with_event (SetUser u)
      (with_state (fun s => {| user := u; tokens := tokens s;
                               isLoading := isLoading s; error := error s |}) w)).

Definition setTokens (t : option AuthTokens) : Async unit :=
  modify (fun w =>
    with_event (SetTokens t)
      (with_state (fun s => {| user := user s; tokens := t;
                               isLoading := isLoading s; error := error s |}) w)).

Definition setIsLoading (b : bool) : Async unit :=
  modify (fun w =>
    with_event (SetIsLoading b)
      (with_state (fun s => {| user := user s; tokens := tokens s;
                               isLoading := b; error := error s |}) w)).

Definition setError (e : option string) : Async unit :=
  modify (fun w =>
    with_event (SetError e)
      (with_state (fun s => {| user := user s; tokens := tokens s;
                               isLoading := isLoading s; error := e |}) w)).

(** [error.message || fallback] *)
Definition message_or (e : JsError) (fallback : string) : string :=
  or_else (Some (message e)) fallback.

Module AuthProvider.
Section Render.
Context `{!Json AuthTokens, !Json User, !Json BiometricCredentials}.

(** [{ ...defaultConfig, ...userConfig }] *)
Variable config : AuthConfig.

(** The functions below are closures of one render of the component: where
    they read [user] or [tokens] they read the values that this render got
    from [useState], whatever the setters have been given since. *)
Variable render : SessionState.

Definition isAuthenticated (now : Z) : bool :=
  match user render, tokens render with
  | Some _, Some t => negb (AuthStorage.isTokenExpired now t)
  | _, _ => false
  end.

(** Store tokens and user, then adopt them: the common end of the four
    login functions. *)
Definition adopt (response : LoginResponse) : Async unit :=
  all2 (AuthStorage.storeTokens (response_tokens response))
       (AuthStorage.storeUser (response_user response)) ;;
  setTokens (Some (response_tokens response)) ;;
  setUser (Some (response_user response)).

Definition login (credentials : LoginCredentials) : Async unit :=
  try_finally
    (try_catch
       (setIsLoading true ;;
        setError None ;;
        let* response := AuthAPI.login credentials in
        adopt response)
       (fun error =>
          setError (Some (message_or error "Login failed")) ;;
          throw error))
    (setIsLoading false).

Definition loginWithBiometrics : Async unit :=
  try_finally
    (try_catch
       (setIsLoading true ;;
        setError None ;;
        (* Check if biometric is enabled *)
        let* isBiometricEnabled := AuthStorage.isBiometricEnabled in
        if negb isBiometricEnabled
        then throw (Error "Biometric authentication is not enabled")
        else
          (* Get stored credentials *)
          let* storedCredentials := AuthStorage.getBiometricCredentials in
          match storedCredentials with
          | None => throw (Error "No biometric credentials found")
          | Some stored =>
              (* Authenticate with biometrics *)
              BiometricAuth.authenticate (biometricPrompt config) ;;
              (* Login with stored credentials *)
              let* response :=
                AuthAPI.loginWithHash
                  {| credential_email := credential_email stored;
                     hashedPassword := hashedPassword stored |} in
              adopt response
          end)
       (fun error =>
          setError (Some (message_or error "Biometric login failed")) ;;
          throw error))
    (setIsLoading false).

(** [config.oauth?.google?.clientId], when it is truthy *)
Definition google_configured : option GoogleOAuthConfig :=
  match oauth config with
  | Some o =>
      match google o with
      | Some g => if truthy (google_clientId g) then Some g else None
      | None => None
      end
  | None => None
  end.

Definition microsoft_configured : option MicrosoftOAuthConfig :=
  match oauth config with
  | Some o =>
      match microsoft o with
      | Some m => if truthy (microsoft_clientId m) then Some m else None
      | None => None
      end
  | None => None
  end.

Definition loginWithGoogle : Async unit :=
  try_finally
    (try_catch
       (setIsLoading true ;;
        setError None ;;
        match google_configured with
        | None => throw (Error "Google OAuth is not configured")
        | Some g =>
            let* response := AuthAPI.loginWithGoogle g in
            adopt response
        end)
       (fun error =>
          setError (Some (message_or error "Google login failed")) ;;
          throw error))
    (setIsLoading false).

Definition loginWithMicrosoft : Async unit :=
  try_finally
    (try_catch
       (setIsLoading true ;;
        setError None ;;
        match microsoft_configured with
        | None => throw (Error "Microsoft OAuth is not configured")
        | Some m =>
            let* response := AuthAPI.loginWithMicrosoft m in
            adopt response
        end)
       (fun error =>
          setError (Some (message_or error "Microsoft login failed")) ;;
          throw error))
    (setIsLoading false).

Definition logout : Async unit :=
  try_finally
    (try_catch
       (setIsLoading true ;;
        (* Call logout API if tokens exist *)
        match tokens render with
        | Some t =>
            try_catch (AuthAPI.logout (accessToken t))
              (fun _ =>
                 (* Continue with logout even if API call fails *)
                 ret tt)
        | None => ret tt
        end ;;
        (* Clear all stored data *)
        AuthStorage.clearAll ;;
        (* Reset state *)
        setUser None ;;
        setTokens None ;;
        setError None)
       (fun _ => setError (Some "Logout failed")))
    (setIsLoading false).

(** [tokens?.refreshToken], when it is truthy *)
Definition current_refreshToken : option string :=
  match tokens render with
  | Some t =>
      match refreshToken t with
      | Some r => if truthy r then Some r else None
      | None => None
      end
  | None => None
  end.

Definition refreshToken : Async unit :=
  try_catch
    (match current_refreshToken with
     | None => throw (Error "No refresh token available")
     | Some r =>
         let* response := AuthAPI.refreshToken r in
         (* Store new tokens *)
         AuthStorage.storeTokens (refreshed_tokens response) ;;
         setTokens (Some (refreshed_tokens response)) ;;
         match refreshed_user response with
         | Some u => AuthStorage.storeUser u ;; setUser (Some u)
         | None => ret tt
         end
     end)
    (fun error =>
       (* If refresh fails, logout user *)
       logout ;;
       throw error).

Definition initializeAuth : Async unit :=
  try_finally
    (try_catch
       (setIsLoading true ;;
        let* stored := all2 AuthStorage.getTokens AuthStorage.getUser in
        let* w := get_world in
        let storedTokens := fst stored in
        let storedUser := snd stored in
        let expired :=
          match storedTokens with
          | Some t => AuthStorage.isTokenExpired (now w) t
          | None => false
          end in
        if present storedTokens && present storedUser && negb expired
        then setTokens storedTokens ;; setUser storedUser
        else if present storedTokens && expired
        then
          (* Try to refresh expired token *)
          try_catch refreshToken (fun _ => logout)
        else ret tt)
       (fun _ => setError (Some "Failed to initialize authentication")))
    (setIsLoading false).

(** The body of the timer of the auto-refresh effect:
    [refreshToken().catch(console.error)]. *)
Definition checkTokenExpiry : Async unit :=
  let* w := get_world in
  match tokens render with
  | Some t =>
      if AuthStorage.isTokenExpiringSoon (now w) t
      then try_catch refreshToken (fun _ => ret tt)
      else ret tt
  | None => ret tt
  end.

Definition enableBiometrics : Async bool :=
  try_catch
    (let* capabilities := BiometricAuth.checkCapabilities in
     if negb (isAvailable capabilities)
     then throw (Error "Biometric authentication is not available")
     else
       (* Authenticate to confirm user consent *)
       BiometricAuth.authenticate (Some "Enable biometric authentication") ;;
       match user render with
       | Some u =>
           if negb (truthy (email u)) then throw (Error "User email not available")
           else
             let credentials :=
               {| credential_email := email u;
                  (* This should be properly hashed *)
                  hashedPassword := "hashed_password_placeholder" |} in
             AuthStorage.storeBiometricCredentials credentials ;;
             AuthStorage.setBiometricEnabled true ;;
             ret true
       | None => throw (Error "User email not available")
       end)
    (fun error =>
       setError (Some (message_or error "Failed to enable biometrics")) ;;
       ret false).

Definition disableBiometrics : Async unit :=
  try_catch
    (AuthStorage.setBiometricEnabled false)
    (fun error =>
       setError (Some (message_or error "Failed to disable biometrics")) ;;
       throw error).

Definition clearError : Async unit := setError None.

End Render.
End AuthProvider.

(** A caller that holds the functions of the latest render: the closure it
    calls reads the state as it is when the call starts. *)
Definition call {A} (op : SessionState -> Async A) : Async A :=
  fun w => op (state w) w.

(** The first render followed by its mount effect: [AuthAPI.initialize(config)]
    in the body of the component, then [initializeAuth()] as a closure of a
    render whose state is the initial one. *)
Definition mount `{!Json AuthTokens, !Json User, !Json BiometricCredentials}
    (config : AuthConfig) : Async unit :=
  AuthAPI.initialize config ;;
  modify (with_state (fun _ => initialState)) ;;
  AuthProvider.initializeAuth initialState.

(** ** Reference instances of [Json]

    Compact JSON text with the keys in the order of the record, as
    [JSON.stringify] writes an object literal, and with a missing optional
    field left out.  Inside a string the quote and the backslash are escaped
    with a backslash.  Writers take the text that follows as an argument. *)
Module RefJson.

Definition quote : ascii := "034"%char.
Definition backslash : ascii := "092"%char.

Definition special (c : ascii) : bool :=
  Ascii.eqb c quote || Ascii.eqb c backslash.

Fixpoint put_escaped (s k : string) : string :=
  match s with
  | EmptyString => k
  | String c s' =>
      if special c then String backslash (String c (put_escaped s' k))
      else String c (put_escaped s' k)
  end.

Definition put_string (s k : string) : string :=
  String quote (put_escaped s (String quote k)).

Definition put_key (key k : string) : string :=
  String quote (key +:+ String quote (String ":" k)).

Definition put_number (z : Z) (k : string) : string :=
  match z with
  | Z0 => String "0" k
  | Zpos p => NilEmpty.string_of_uint (Pos.to_uint p) +:+ k
  | Zneg p => String "-" (NilEmpty.string_of_uint (Pos.to_uint p) +:+ k)
  end.

Definition put_optional (key : string) (o : option string) (k : string) : string :=
  match o with
  | Some s => String "," (put_key key (put_string s k))
  | None => k
  end.

Fixpoint put_items (l : list string) (k : string) : string :=
  match l with
  | [] => k
  | x :: l' =>
      put_string x (match l' with [] => k | _ :: _ => String "," (put_items l' k) end)
  end.

Definition put_list (l : list string) (k : string) : string :=
  String "[" (put_items l (String "]" k)).

Definition put_optional_list (key : string) (o : option (list string)) (k : string) : string :=
  match o with
  | Some l => String "," (put_key key (put_list l k))
  | None => k
  end.

(** Readers give the value and the text that is left. *)
Fixpoint expect (lit s : string) : option string :=
  match lit with
  | EmptyString => Some s
  | String c lit' =>
      match s with
      | String d s' => if Ascii.eqb c d then expect lit' s' else None
      | EmptyString => None
      end
  end.

Fixpoint read_escaped (s : string) : option (string * string) :=
  match s with
  | EmptyString => None
  | String c s' =>
      if Ascii.eqb c quote then Some (EmptyString, s')
      else if Ascii.eqb c backslash then
        match s' with
        | String d s'' =>
            match read_escaped s'' with
            | Some (x, rest) => Some (String d x, rest)
            | None => None
            end
        | EmptyString => None
        end
      else
        match read_escaped s' with
        | Some (x, rest) => Some (String c x, rest)
        | None => None
        end
  end.

Definition read_string (s : string) : option (string * string) :=
  match s with
  | String c s' => if Ascii.eqb c quote then read_escaped s' else None
  | EmptyString => None
  end.

Definition read_key (key s : string) : option string :=
  expect (put_key key EmptyString) s.

Definition digit (c : ascii) : option (Decimal.uint -> Decimal.uint) :=
  if Ascii.eqb c "0" then Some Decimal.D0
  else if Ascii.eqb c "1" then Some Decimal.D1
  else if Ascii.eqb c "2" then Some Decimal.D2
  else if Ascii.eqb c "3" then Some Decimal.D3
  else if Ascii.eqb c "4" then Some Decimal.D4
  else if Ascii.eqb c "5" then Some Decimal.D5
  else if Ascii.eqb c "6" then Some Decimal.D6
  else if Ascii.eqb c "7" then Some Decimal.D7
  else if Ascii.eqb c "8" then Some Decimal.D8
  else if Ascii.eqb c "9" then Some Decimal.D9
  else None.

Fixpoint read_digits (s : string) : Decimal.uint * string :=
  match s with
  | EmptyString => (Decimal.Nil, EmptyString)
  | String c s' =>
      match digit c with
      | Some d => let (u, rest) := read_digits s' in (d u, rest)
      | None => (Decimal.Nil, s)
      end
  end.

Definition read_natural (s : string) : option (N * string) :=
  match read_digits s with
  | (Decimal.Nil, _) => None
  | (u, rest) => Some (Pos.of_uint u, rest)
  end.

Definition read_number (s : string) : option (Z * string) :=
  match s with
  | String c s' =>
      if Ascii.eqb c "-" then
        match read_natural s' with
        | Some (n, rest) => Some (- Z.of_N n, rest)
        | None => None
        end
      else
        match read_natural s with
        | Some (n, rest) => Some (Z.of_N n, rest)
        | None => None
        end
  | EmptyString => None
  end.

Definition read_optional (key s : string) : option (option string * string) :=
  match expect (String "," (put_key key EmptyString)) s with
  | Some s' =>
      match read_string s' with
      | Some (x, rest) => Some (Some x, rest)
      | None => None
      end
  | None => Some (None, s)
  end.

Fixpoint read_items (fuel : nat) (s : string) : option (list string * string) :=
  match fuel with
  | O => None
  | S fuel' =>
      match read_string s with
      | Some (x, String c rest) =>
          if Ascii.eqb c "," then
            match read_items fuel' rest with
            | Some (l, r) => Some (x :: l, r)
            | None => None
            end
          else if Ascii.eqb c "]" then Some ([x], rest)
          else None
      | _ => None
      end
  end.

Definition read_list (s : string) : option (list string * string) :=
  match expect "[" s with
  | Some s' =>
      match expect "]" s' with
      | Some rest => Some ([], rest)
      | None => read_items (String.length s') s'
      end
  | None => None
  end.

Definition read_optional_list (key s : string) : option (option (list string) * string) :=
  match expect (String "," (put_key key EmptyString)) s with
  | Some s' =>
      match read_list s' with
      | Some (l, rest) => Some (Some l, rest)
      | None => None
      end
  | None => Some (None, s)
  end.

(** The end of the object and of the text. *)
Definition read_end (s : string) : option unit :=
  match expect "}" s with
  | Some EmptyString => Some tt
  | _ => None
  end.

Definition write_tokens (t : AuthTokens) : string :=
  String "{"
    (put_key "accessToken" (put_string (accessToken t)
    (put_optional "refreshToken" (refreshToken t)
    (put_optional "idToken" (idToken t)
    (String "," (put_key "expiresAt" (put_number (expiresAt t) "}"))))))).

Definition read_tokens (s : string) : option AuthTokens :=
  s ← expect "{" s;
  s ← read_key "accessToken" s;
  '(a, s) ← read_string s;
  '(r, s) ← read_optional "refreshToken" s;
  '(i, s) ← read_optional "idToken" s;
  s ← expect "," s;
  s ← read_key "expiresAt" s;
  '(e, s) ← read_number s;
  _ ← read_end s;
  Some {| accessToken := a; refreshToken := r; idToken := i; expiresAt := e |}.

Definition write_user (u : User) : string :=
  String "{"
    (put_key "id" (put_string (id u)
    (String "," (put_key "email" (put_string (email u)
    (String "," (put_key "name" (put_string (name u)
    (put_optional "avatar" (avatar u)
    (put_optional "role" (role u)
    (put_optional_list "permissions" (permissions u) "}"))))))))))).

Definition read_user (s : string) : option User :=
  s ← expect "{" s;
  s ← read_key "id" s;
  '(i, s) ← read_string s;
  s ← expect "," s;
  s ← read_key "email" s;
  '(e, s) ← read_string s;
  s ← expect "," s;
  s ← read_key "name" s;
  '(n, s) ← read_string s;
  '(a, s) ← read_optional "avatar" s;
  '(r, s) ← read_optional "role" s;
  '(p, s) ← read_optional_list "permissions" s;
  _ ← read_end s;
  Some {| id := i; email := e; name := n; avatar := a; role := r; permissions := p |}.

Definition write_credentials (c : BiometricCredentials) : string :=
  String "{"
    (put_key "email" (put_string (credential_email c)
    (String "," (put_key "hashedPassword" (put_string (hashedPassword c) "}"))))).

Definition read_credentials (s : string) : option BiometricCredentials :=
  s ← expect "{" s;
  s ← read_key "email" s;
  '(e, s) ← read_string s;
  s ← expect "," s;
  s ← read_key "hashedPassword" s;
  '(h, s) ← read_string s;
  _ ← read_end s;
  Some {| credential_email := e; hashedPassword := h |}.

End RefJson.

(** * Properties *)

(** ** The reference instances are instances *)
Module RefJsonFacts.
Import RefJson.

Lemma expect_put lit k : expect lit (lit +:+ k) = Some k.
Proof.
  induction lit as [|c lit IH]; simpl; [reflexivity|].
  rewrite Ascii.eqb_refl. exact IH.
Qed.

Lemma read_escaped_put s k :
  read_escaped (put_escaped s (String quote k)) = Some (s, k).
Proof.
  induction s as [|c s IH]; simpl; [reflexivity|].
  destruct (special c) eqn:Hc.
  - simpl. rewrite IH.
    unfold special in Hc.
    destruct (Ascii.eqb c quote) eqn:Hq; simpl.
    + apply Ascii.eqb_eq in Hq. subst c. reflexivity.
    + simpl in Hc. apply Ascii.eqb_eq in Hc. subst c. reflexivity.
  - unfold special in Hc. apply orb_false_iff in Hc as [Hq Hb].
    simpl. rewrite Hq, Hb, IH. reflexivity.
Qed.

Lemma read_string_put s k : read_string (put_string s k) = Some (s, k).
Proof. unfold read_string, put_string. simpl. apply read_escaped_put. Qed.

Lemma read_key_put key k : read_key key (put_key key k) = Some k.
Proof.
  unfold read_key, put_key. simpl.
  induction key as [|c key IH]; simpl; [reflexivity|].
  rewrite Ascii.eqb_refl. exact IH.
Qed.

(** A text that does not go on with a digit. *)
Definition stops (k : string) : Prop :=
  match k with
  | EmptyString => True
  | String c _ => digit c = None
  end.

Lemma read_digits_put u k :
  stops k -> read_digits (NilEmpty.string_of_uint u +:+ k) = (u, k).
Proof.
  intros Hk. induction u; simpl; try (rewrite IHu; reflexivity).
  destruct k as [|c k]; simpl; [reflexivity|].
  simpl in Hk. rewrite Hk. reflexivity.
Qed.

Lemma read_natural_put p k :
  stops k ->
  read_natural (NilEmpty.string_of_uint (Pos.to_uint p) +:+ k) = Some (Npos p, k).
Proof.
  intros Hk. unfold read_natural. rewrite (read_digits_put _ _ Hk).
  pose proof (Unsigned.to_uint_nonnil p) as Hn.
  rewrite <- (Unsigned.of_to p).
  destruct (Pos.to_uint p); congruence.
Qed.

Lemma read_number_put z k :
  stops k -> read_number (put_number z k) = Some (z, k).
Proof.
  intros Hk. destruct z as [|p|p]; simpl.
  - unfold read_natural. simpl.
    destruct k as [|c k]; simpl; [reflexivity|].
    simpl in Hk. rewrite Hk. reflexivity.
  - pose proof (read_natural_put p k Hk) as Hr.
    destruct (NilEmpty.string_of_uint (Pos.to_uint p) +:+ k) as [|c s] eqn:Hs.
    + unfold read_natural in Hr. simpl in Hr. discriminate.
    + unfold read_number.
      destruct (Ascii.eqb c "-") eqn:Hc.
      * apply Ascii.eqb_eq in Hc. subst c.
        unfold read_natural in Hr. simpl in Hr. discriminate.
      * rewrite Hr. reflexivity.
  - rewrite (read_natural_put p k Hk). reflexivity.
Qed.

Lemma expect_comma_key key k :
  expect (String "," (put_key key EmptyString)) (String "," (put_key key k)) = Some k.
Proof.
  change (read_key key (put_key key k) = Some k). apply read_key_put.
Qed.

Lemma read_optional_put key o k :
  expect (String "," (put_key key EmptyString)) k = None ->
  read_optional key (put_optional key o k) = Some (o, k).
Proof.
  intros Hk. unfold read_optional, put_optional. destruct o as [x|].
  - rewrite expect_comma_key, read_string_put. reflexivity.
  - rewrite Hk. reflexivity.
Qed.

Lemma length_put_string x k : (2 + String.length k <= String.length (put_string x k))%nat.
Proof.
  unfold put_string. simpl.
  induction x as [|c x IH]; simpl; [lia|].
  destruct (special c); simpl; lia.
Qed.

Lemma length_put_items l k : (length l <= String.length (put_items l k))%nat.
Proof.
  induction l as [|x l IH]; simpl; [lia|].
  pose proof (length_put_string x
    (match l with [] => k | _ :: _ => String "," (put_items l k) end)) as Hx.
  destruct l; simpl in *; lia.
Qed.

Lemma read_items_put l k fuel :
  l <> [] -> (length l <= fuel)%nat ->
  read_items fuel (put_items l (String "]" k)) = Some (l, k).
Proof.
  revert fuel. induction l as [|x l IH]; intros fuel Hl Hf; [congruence|].
  destruct fuel as [|fuel]; simpl in Hf; [lia|].
  cbn [read_items put_items]. rewrite read_string_put.
  destruct l as [|y l].
  - reflexivity.
  - change (Ascii.eqb "," ",") with true. cbv iota.
    rewrite IH; [reflexivity|congruence|simpl in *; lia].
Qed.

Lemma read_list_put l k : read_list (put_list l k) = Some (l, k).
Proof.
  unfold read_list, put_list.
  change (expect "[" (String "[" ?s)) with (Some s). cbv iota beta.
  destruct l as [|x l]; [reflexivity|].
  replace (expect "]" (put_items (x :: l) (String "]" k))) with (@None string)
    by reflexivity.
  apply read_items_put; [congruence|apply length_put_items].
Qed.

Lemma read_optional_list_put key o k :
  expect (String "," (put_key key EmptyString)) k = None ->
  read_optional_list key (put_optional_list key o k) = Some (o, k).
Proof.
  intros Hk. unfold read_optional_list, put_optional_list. destruct o as [l|].
  - rewrite expect_comma_key, read_list_put. reflexivity.
  - rewrite Hk. reflexivity.
Qed.

Lemma read_write_tokens t : read_tokens (write_tokens t) = Some t.
Proof.
  destruct t as [a r i e]. unfold read_tokens, write_tokens.
  cbn [accessToken refreshToken idToken expiresAt expect Ascii.eqb Bool.eqb mbind option_bind].
  rewrite read_key_put. cbn [mbind option_bind].
  rewrite read_string_put. cbn [mbind option_bind].
  rewrite read_optional_put by (destruct i; reflexivity). cbn [mbind option_bind].
  rewrite read_optional_put by reflexivity. cbn [mbind option_bind].
  cbn [expect Ascii.eqb Bool.eqb].
  rewrite read_key_put. cbn [mbind option_bind].
  rewrite read_number_put by reflexivity. reflexivity.
Qed.

Lemma read_write_user u : read_user (write_user u) = Some u.
Proof.
  destruct u as [i e n a r p]. unfold read_user, write_user.
  cbn [id email name avatar role permissions expect Ascii.eqb Bool.eqb mbind option_bind].
  rewrite read_key_put. cbn [mbind option_bind].
  rewrite read_string_put. cbn [mbind option_bind expect Ascii.eqb Bool.eqb].
  rewrite read_key_put. cbn [mbind option_bind].
  rewrite read_string_put. cbn [mbind option_bind expect Ascii.eqb Bool.eqb].
  rewrite read_key_put. cbn [mbind option_bind].
  rewrite read_string_put. cbn [mbind option_bind].
  rewrite read_optional_put by (destruct r, p; reflexivity). cbn [mbind option_bind].
  rewrite read_optional_put by (destruct p; reflexivity). cbn [mbind option_bind].
  rewrite read_optional_list_put by reflexivity. reflexivity.
Qed.

Lemma read_write_credentials c : read_credentials (write_credentials c) = Some c.
Proof.
  destruct c as [e h]. unfold read_credentials, write_credentials.
  cbn [credential_email hashedPassword expect Ascii.eqb Bool.eqb mbind option_bind].
  rewrite read_key_put. cbn [mbind option_bind].
  rewrite read_string_put. cbn [mbind option_bind expect Ascii.eqb Bool.eqb].
  rewrite read_key_put. cbn [mbind option_bind].
  rewrite read_string_put. reflexivity.
Qed.

End RefJsonFacts.

#[export] Instance json_tokens : Json AuthTokens :=
  {| stringify := RefJson.write_tokens;
     parse := RefJson.read_tokens;
     parse_stringify := RefJsonFacts.read_write_tokens;
     stringify_truthy := fun _ => eq_refl |}.

#[export] Instance json_user : Json User :=
  {| stringify := RefJson.write_user;
     parse := RefJson.read_user;
     parse_stringify := RefJsonFacts.read_write_user;
     stringify_truthy := fun _ => eq_refl |}.

#[export] Instance json_credentials : Json BiometricCredentials :=
  {| stringify := RefJson.write_credentials;
     parse := RefJson.read_credentials;
     parse_stringify := RefJsonFacts.read_write_credentials;
     stringify_truthy := fun _ => eq_refl |}.

(** ** Running computations *)

(** The world a store call leaves when it rejects: only the pending fault is
    consumed. *)
Definition after_fault (w : World) : World :=
  match storeFaults w with
  | [] => w
  | _ :: fs => with_storeFaults fs w
  end.

(** A store that works: no fault is pending. *)
Definition reliable (w : World) : Prop := storeFaults w = [].

Lemma bind_returned {A B} (c : Async A) (k : A -> Async B) w a w' :
  c w = (Returned a, w') -> bind c k w = k a w'.
Proof. intros H. unfold bind. rewrite H. reflexivity. Qed.

Lemma bind_thrown {A B} (c : Async A) (k : A -> Async B) w e w' :
  c w = (Thrown e, w') -> bind c k w = (Thrown e, w').
Proof. intros H. unfold bind. rewrite H. reflexivity. Qed.

Lemma try_catch_returned {A} (c : Async A) h w a w' :
  c w = (Returned a, w') -> try_catch c h w = (Returned a, w').
Proof. intros H. unfold try_catch. rewrite H. reflexivity. Qed.

Lemma try_catch_thrown {A} (c : Async A) h w e w' :
  c w = (Thrown e, w') -> try_catch c h w = h e w'.
Proof. intros H. unfold try_catch. rewrite H. reflexivity. Qed.

(** A handler that swallows the error makes a computation that returns. *)
Lemma try_catch_swallow (c : Async unit) w :
  exists w', try_catch c (fun _ => ret tt) w = (Returned tt, w').
Proof.
  unfold try_catch. destruct (c w) as [[[]|e] w']; eauto.
Qed.

Lemma next_fault_reliable w : reliable w -> next_fault w = (Returned false, w).
Proof. unfold reliable, next_fault. intros ->. reflexivity. Qed.

Lemma next_fault_cons w b fs :
  storeFaults w = b :: fs -> next_fault w = (Returned b, with_storeFaults fs w).
Proof. unfold next_fault. intros ->. reflexivity. Qed.

Section StoreCalls.
Variable w : World.
Hypothesis Hw : reliable w.

Lemma setItemAsync_reliable key value :
  SecureStore.setItemAsync key value w
  = (Returned tt, with_secureStore (insert key value) w).
Proof.
  unfold SecureStore.setItemAsync.
  rewrite (bind_returned _ _ _ _ _ (next_fault_reliable w Hw)). reflexivity.
Qed.

Lemma getItemAsync_reliable key :
  SecureStore.getItemAsync key w = (Returned (secureStore w !! key), w).
Proof.
  unfold SecureStore.getItemAsync.
  rewrite (bind_returned _ _ _ _ _ (next_fault_reliable w Hw)). reflexivity.
Qed.

Lemma deleteItemAsync_reliable key :
  SecureStore.deleteItemAsync key w = (Returned tt, with_secureStore (delete key) w).
Proof.
  unfold SecureStore.deleteItemAsync.
  rewrite (bind_returned _ _ _ _ _ (next_fault_reliable w Hw)). reflexivity.
Qed.

Lemma setItem_reliable key value :
  AsyncStorage.setItem key value w
  = (Returned tt, with_asyncStorage (insert key value) w).
Proof.
  unfold AsyncStorage.setItem.
  rewrite (bind_returned _ _ _ _ _ (next_fault_reliable w Hw)). reflexivity.
Qed.

Lemma getItem_reliable key :
  AsyncStorage.getItem key w = (Returned (asyncStorage w !! key), w).
Proof.
  unfold AsyncStorage.getItem.
  rewrite (bind_returned _ _ _ _ _ (next_fault_reliable w Hw)). reflexivity.
Qed.

Lemma removeItem_reliable key :
  AsyncStorage.removeItem key w = (Returned tt, with_asyncStorage (delete key) w).
Proof.
  unfold AsyncStorage.removeItem.
  rewrite (bind_returned _ _ _ _ _ (next_fault_reliable w Hw)). reflexivity.
Qed.

End StoreCalls.

(** What the secure store holds once [storeTokens] has returned. *)
Definition tokens_written `{!Json AuthTokens} (t : AuthTokens)
    (s : gmap string string) : gmap string string :=
  if truthy_opt (refreshToken t)
  then <[REFRESH_TOKEN := default EmptyString (refreshToken t)]> (<[TOKENS := stringify t]> s)
  else <[TOKENS := stringify t]> s.

(** What [getTokens] reads from a secure store that answers. *)
Definition tokens_read `{!Json AuthTokens} (s : gmap string string) : option AuthTokens :=
  if truthy_opt (s !! TOKENS) then
    match parse (default EmptyString (s !! TOKENS)) with
    | Some t =>
        if truthy_opt (s !! REFRESH_TOKEN)
        then Some (with_refreshToken t (default EmptyString (s !! REFRESH_TOKEN)))
        else Some t
    | None => None
    end
  else None.

Section StorageFacts.
Context `{!Json AuthTokens, !Json User, !Json BiometricCredentials}.

Lemma storeTokens_reliable t w :
  reliable w ->
  AuthStorage.storeTokens t w
  = (Returned tt, with_secureStore (tokens_written t) w).
Proof.
  intros Hw. unfold AuthStorage.storeTokens, tokens_written.
  apply try_catch_returned.
  rewrite (bind_returned _ _ _ _ _ (setItemAsync_reliable w Hw _ _)).
  destruct (refreshToken t) as [r|]; simpl; [|reflexivity].
  destruct (truthy r); [|reflexivity].
  rewrite setItemAsync_reliable by exact Hw. reflexivity.
Qed.

Lemma getTokens_reliable w :
  reliable w ->
  AuthStorage.getTokens w = (Returned (tokens_read (secureStore w)), w).
Proof.
  intros Hw. unfold AuthStorage.getTokens, tokens_read.
  unfold try_catch.
  rewrite (bind_returned _ _ _ _ _ (getItemAsync_reliable w Hw _)).
  destruct (truthy_opt (secureStore w !! TOKENS)); simpl; [|reflexivity].
  destruct (parse (default EmptyString (secureStore w !! TOKENS))) as [t|];
    [|reflexivity].
  rewrite (bind_returned _ _ _ _ _ (getItemAsync_reliable w Hw _)).
  destruct (truthy_opt (secureStore w !! REFRESH_TOKEN)); reflexivity.
Qed.

Lemma clearTokens_reliable w :
  reliable w ->
  AuthStorage.clearTokens w
  = (Returned tt, with_secureStore (fun s => delete REFRESH_TOKEN (delete TOKENS s)) w).
Proof.
  intros Hw. unfold AuthStorage.clearTokens.
  apply try_catch_returned. unfold bind, all2.
  rewrite deleteItemAsync_reliable by exact Hw.
  rewrite deleteItemAsync_reliable by exact Hw. reflexivity.
Qed.

Lemma with_refreshToken_same t r :
  refreshToken t = Some r -> with_refreshToken t r = t.
Proof. destruct t; simpl; intros ->; reflexivity. Qed.

End StorageFacts.


(** ** Worlds for the examples *)

Definition silent : Server :=
  {| session_replies := []; refresh_replies := [];
     logout_replies := []; profile_replies := [] |}.

(** A fresh install: nothing stored, a store that works, a gateway that has
    not been configured, no reply and no prompt outcome pending. *)
Definition freshInstall : World :=
  {| secureStore := ∅; asyncStorage := ∅; storeFaults := [];
     apiConfig := None; server := silent;
     probes := []; biometricPrompts := []; oauthPrompts := [];
     now := 1700000000000; state := initialState; events := [] |}.

Definition alice : User :=
  {| id := "u1"; email := "a@b.com"; name := "Alice";
     avatar := None; role := None; permissions := None |}.

(** ** SessionClock *)

(** C9. [isTokenExpired] at time [t] is [t >= expiresAt]; [isTokenExpiringSoon]
    holds at every [t] of the five minutes (300 s, in milliseconds) before
    [expiresAt], and at no [t] below that window. *)
Theorem session_clock (r : AuthTokens) (t : Z) :
  AuthStorage.isTokenExpired t r = (t >=? expiresAt r)
  /\ (AuthStorage.isTokenExpired t r = true <-> expiresAt r <= t)
  /\ (expiresAt r - 300 * 1000 <= t < expiresAt r ->
      AuthStorage.isTokenExpiringSoon t r = true)
  /\ (t < expiresAt r - 300 * 1000 ->
      AuthStorage.isTokenExpiringSoon t r = false).
Proof.
  unfold AuthStorage.isTokenExpired, AuthStorage.isTokenExpiringSoon.
  repeat split.
  - intros H. apply Z.geb_le in H. exact H.
  - intros H. apply Z.geb_le. exact H.
  - intros [Hlo _]. apply Z.geb_le. lia.
  - intros Hlt. destruct (Z.geb_spec t (expiresAt r - 5 * 60 * 1000)); [lia|reflexivity].
Qed.

Definition hourToken : AuthTokens :=
  {| accessToken := "at"; refreshToken := Some "rt"; idToken := None;
     expiresAt := 3600000 |}.

Lemma session_clock_witness :
  AuthStorage.isTokenExpiringSoon 3300000 hourToken = true
  /\ AuthStorage.isTokenExpiringSoon 3599999 hourToken = true
  /\ AuthStorage.isTokenExpiringSoon 3299999 hourToken = false.
Proof.
  split; [|split].
  - apply (proj1 (proj2 (proj2 (session_clock hourToken 3300000)))).
    simpl. lia.
  - apply (proj1 (proj2 (proj2 (session_clock hourToken 3599999)))).
    simpl. lia.
  - apply (proj2 (proj2 (proj2 (session_clock hourToken 3299999)))).
    simpl. lia.
Defined.

(** ** SecureCredentialStore: the round trip of the token record *)

Lemma keys_tokens_refresh : TOKENS <> REFRESH_TOKEN.
Proof. discriminate. Qed.

Section RoundTrip.
Context `{!Json AuthTokens}.

Lemma tokens_read_written (r : AuthTokens) (s : gmap string string) :
  truthy_opt (refreshToken r) = true \/ truthy_opt (s !! REFRESH_TOKEN) = false ->
  tokens_read (tokens_written r s) = Some r.
Proof.
  intros Hcase. unfold tokens_read, tokens_written.
  destruct (truthy_opt (refreshToken r)) eqn:Hr.
  - destruct (refreshToken r) as [x|] eqn:Hx; [|discriminate].
    simpl in Hr. simpl default.
    rewrite (lookup_insert_ne _ REFRESH_TOKEN TOKENS)
      by (symmetry; exact keys_tokens_refresh).
    rewrite !lookup_insert_eq. simpl.
    rewrite stringify_truthy, parse_stringify, Hr.
    rewrite with_refreshToken_same by exact Hx. reflexivity.
  - destruct Hcase as [Hcase|Hcase]; [discriminate|].
    rewrite (lookup_insert_ne _ TOKENS REFRESH_TOKEN) by exact keys_tokens_refresh.
    rewrite lookup_insert_eq. simpl.
    rewrite stringify_truthy, parse_stringify, Hcase. reflexivity.
Qed.

Lemma tokens_read_cleared (s : gmap string string) :
  tokens_read (delete REFRESH_TOKEN (delete TOKENS s)) = None.
Proof.
  unfold tokens_read.
  rewrite lookup_delete_ne by (symmetry; exact keys_tokens_refresh).
  rewrite lookup_delete_eq. reflexivity.
Qed.

Lemma tokens_read_written_stale (r : AuthTokens) (s : gmap string string) :
  truthy_opt (refreshToken r) = false ->
  truthy_opt (s !! REFRESH_TOKEN) = true ->
  tokens_read (tokens_written r s)
  = Some (with_refreshToken r (default EmptyString (s !! REFRESH_TOKEN))).
Proof.
  intros Hr Hs. unfold tokens_read, tokens_written. rewrite Hr.
  rewrite (lookup_insert_ne _ TOKENS REFRESH_TOKEN) by exact keys_tokens_refresh.
  rewrite lookup_insert_eq. simpl.
  rewrite stringify_truthy, parse_stringify, Hs. reflexivity.
Qed.

(** C2, amended.  On a store that works and whatever it held before:
    [storeTokens(r)] followed by [getTokens()] gives [r] back when [r] has a
    non-empty refresh token or when no refresh token is stored apart from
    before; when [r] has none and one is stored from before, it gives [r]
    with that earlier refresh token, which is not [r]; and [clearTokens()]
    followed by [getTokens()] gives absent. *)
Theorem storeTokens_getTokens_roundtrip (r : AuthTokens) (w : World) :
  reliable w ->
  (truthy_opt (refreshToken r) = true
   \/ truthy_opt (secureStore w !! REFRESH_TOKEN) = false ->
   fst ((AuthStorage.storeTokens r ;; AuthStorage.getTokens) w) = Returned (Some r))
  /\ (truthy_opt (refreshToken r) = false ->
      truthy_opt (secureStore w !! REFRESH_TOKEN) = true ->
      fst ((AuthStorage.storeTokens r ;; AuthStorage.getTokens) w)
      = Returned (Some (with_refreshToken r
                          (default EmptyString (secureStore w !! REFRESH_TOKEN))))
      /\ with_refreshToken r (default EmptyString (secureStore w !! REFRESH_TOKEN))
         <> r)
  /\ fst ((AuthStorage.clearTokens ;; AuthStorage.getTokens) w) = Returned None.
Proof.
  intros Hw. split; [|split].
  - intros Hcase.
    rewrite (bind_returned _ _ _ _ _ (storeTokens_reliable r w Hw)).
    rewrite getTokens_reliable by exact Hw. simpl.
    rewrite tokens_read_written by exact Hcase. reflexivity.
  - intros Hr Hs. split.
    + rewrite (bind_returned _ _ _ _ _ (storeTokens_reliable r w Hw)).
      rewrite getTokens_reliable by exact Hw. simpl.
      rewrite tokens_read_written_stale by assumption. reflexivity.
    + intros Heq. apply (f_equal refreshToken) in Heq. simpl in Heq.
      rewrite <- Heq in Hr. simpl in Hr.
      destruct (secureStore w !! REFRESH_TOKEN) as [x|]; [|discriminate].
      simpl in *. congruence.
  - rewrite (bind_returned _ _ _ _ _ (clearTokens_reliable w Hw)).
    rewrite getTokens_reliable by exact Hw. simpl.
    rewrite tokens_read_cleared. reflexivity.
Qed.

End RoundTrip.

(** A store that still holds the refresh token of an earlier session, and a
    record that has none. *)
Definition staleRefresh : World :=
  with_secureStore (insert REFRESH_TOKEN "old-refresh") freshInstall.

Definition bareToken : AuthTokens :=
  {| accessToken := "at"; refreshToken := None; idToken := None;
     expiresAt := 1700003600000 |}.

Lemma roundtrip_witness :
  fst ((AuthStorage.storeTokens hourToken ;; AuthStorage.getTokens) staleRefresh)
  = Returned (Some hourToken)
  /\ fst ((AuthStorage.storeTokens bareToken ;; AuthStorage.getTokens) staleRefresh)
     = Returned (Some (with_refreshToken bareToken "old-refresh"))
  /\ fst ((AuthStorage.clearTokens ;; AuthStorage.getTokens) staleRefresh)
     = Returned None.
Proof.
  destruct (storeTokens_getTokens_roundtrip hourToken staleRefresh eq_refl)
    as (Hsame & _ & Hclear).
  destruct (storeTokens_getTokens_roundtrip bareToken staleRefresh eq_refl)
    as (_ & Hstale & _).
  split; [apply Hsame; left; reflexivity|].
  split; [apply (Hstale eq_refl eq_refl)|exact Hclear].
Defined.

(** C2 as the spec words it fails: the record that comes back has the refresh
    token of the earlier session. *)
Lemma roundtrip_stale_refresh_token :
  fst ((AuthStorage.storeTokens bareToken ;; AuthStorage.getTokens) staleRefresh)
  = Returned (Some (with_refreshToken bareToken "old-refresh"))
  /\ fst ((AuthStorage.storeTokens bareToken ;; AuthStorage.getTokens) staleRefresh)
     <> Returned (Some bareToken).
Proof.
  assert (H : fst ((AuthStorage.storeTokens bareToken ;; AuthStorage.getTokens) staleRefresh)
              = Returned (Some (with_refreshToken bareToken "old-refresh")))
    by (vm_compute; reflexivity).
  split; [exact H|]. rewrite H. discriminate.
Qed.

(** ** SecureCredentialStore: a fault during [storeTokens] *)

(** The error [storeTokens] throws, whatever the store threw. *)
Definition storage_failure : JsError := Error "Failed to store authentication tokens".

Section StoreFault.
Context `{!Json AuthTokens}.

Lemma storeTokens_first_write_faults (r : AuthTokens) (w : World) fs :
  storeFaults w = true :: fs ->
  AuthStorage.storeTokens r w = (Thrown storage_failure, with_storeFaults fs w).
Proof.
  intros Hf. unfold AuthStorage.storeTokens, SecureStore.setItemAsync.
  unfold try_catch.
  rewrite (bind_thrown _ _ w SecureStore.fault (with_storeFaults fs w)); [reflexivity|].
  rewrite (bind_returned _ _ _ _ _ (next_fault_cons w true fs Hf)). reflexivity.
Qed.

Lemma storeTokens_second_write_faults (r : AuthTokens) (w : World) fs :
  storeFaults w = false :: true :: fs ->
  truthy_opt (refreshToken r) = true ->
  exists w',
    AuthStorage.storeTokens r w = (Thrown storage_failure, w')
    /\ secureStore w' = <[TOKENS := stringify r]> (secureStore w)
    /\ asyncStorage w' = asyncStorage w
    /\ storeFaults w' = fs.
Proof.
  intros Hf Hr.
  destruct (refreshToken r) as [x|] eqn:Hx; [|discriminate]. simpl in Hr.
  eexists. split.
  - unfold AuthStorage.storeTokens, SecureStore.setItemAsync, try_catch.
    rewrite (bind_returned _ _ w tt
               (with_secureStore (insert TOKENS (stringify r))
                  (with_storeFaults (true :: fs) w))).
    + rewrite Hx, Hr.
      rewrite (bind_returned _ _ _ true
                 (with_storeFaults fs
                    (with_secureStore (insert TOKENS (stringify r))
                       (with_storeFaults (true :: fs) w))));
        [reflexivity|reflexivity].
    + rewrite (bind_returned _ _ _ _ _ (next_fault_cons w false _ Hf)). reflexivity.
  - repeat split.
Qed.

Lemma storeTokens_throws_only_on_fault (r : AuthTokens) (w : World) e w' :
  AuthStorage.storeTokens r w = (Thrown e, w') ->
  e = storage_failure
  /\ ((exists fs, storeFaults w = true :: fs)
      \/ (exists fs, storeFaults w = false :: true :: fs
                     /\ truthy_opt (refreshToken r) = true)).
Proof.
  unfold AuthStorage.storeTokens, SecureStore.setItemAsync, try_catch, bind,
    next_fault, modify, throw, ret.
  destruct (storeFaults w) as [|[|] fs] eqn:Hf; simpl.
  - destruct (refreshToken r) as [x|]; [destruct (truthy x)|]; simpl;
      rewrite ?Hf; simpl; intros [=].
  - intros [= <- <-]. split; [reflexivity|]. left. eauto.
  - destruct (refreshToken r) as [x|]; [destruct (truthy x) eqn:Hx|]; simpl;
      try (intros [=]; fail).
    destruct fs as [|[|] fs']; simpl; try (intros [=]; fail).
    intros [= <- <-]. split; [reflexivity|]. right. eauto.
Qed.

(** What [getTokens] reads once the record has been replaced by [r] and the
    refresh token stored before has been left. *)
Lemma tokens_read_torn (r : AuthTokens) (s : gmap string string) :
  tokens_read (<[TOKENS := stringify r]> s)
  = Some (if truthy_opt (s !! REFRESH_TOKEN)
          then with_refreshToken r (default EmptyString (s !! REFRESH_TOKEN))
          else r).
Proof.
  unfold tokens_read.
  rewrite (lookup_insert_ne _ TOKENS REFRESH_TOKEN) by exact keys_tokens_refresh.
  rewrite lookup_insert_eq. simpl.
  rewrite stringify_truthy, parse_stringify.
  destruct (truthy_opt (s !! REFRESH_TOKEN)); reflexivity.
Qed.

(** C5, amended.  Wherever the store faults during [storeTokens], the call
    fails with the storage failure, and it fails for no other reason.  A
    fault at the first write leaves both stores as they were.  A fault at the
    write of the refresh token leaves the refresh token stored before as it
    was, under a record that has already been replaced: once the store
    answers again, [getTokens] gives the new record, with the refresh token
    stored before when a non-empty one is stored, and as it is otherwise. *)
Theorem storeTokens_fault (r : AuthTokens) (w : World) :
  (forall fs, storeFaults w = true :: fs ->
     exists w',
       AuthStorage.storeTokens r w = (Thrown storage_failure, w')
       /\ secureStore w' = secureStore w
       /\ asyncStorage w' = asyncStorage w)
  /\ (forall fs, storeFaults w = false :: true :: fs ->
        truthy_opt (refreshToken r) = true ->
        exists w',
          AuthStorage.storeTokens r w = (Thrown storage_failure, w')
          /\ secureStore w' !! REFRESH_TOKEN = secureStore w !! REFRESH_TOKEN
          /\ secureStore w' !! TOKENS = Some (stringify r)
          /\ asyncStorage w' = asyncStorage w
          /\ storeFaults w' = fs
          /\ (fs = [] ->
              fst (AuthStorage.getTokens w')
              = Returned
                  (Some (if truthy_opt (secureStore w !! REFRESH_TOKEN)
                         then with_refreshToken r
                                (default EmptyString (secureStore w !! REFRESH_TOKEN))
                         else r))))
  /\ (forall e w',
        AuthStorage.storeTokens r w = (Thrown e, w') ->
        e = storage_failure
        /\ ((exists fs, storeFaults w = true :: fs)
            \/ (exists fs, storeFaults w = false :: true :: fs
                           /\ truthy_opt (refreshToken r) = true))).
Proof.
  split; [|split].
  - intros fs Hf. eexists. split;
      [apply (storeTokens_first_write_faults r w fs Hf)|split; reflexivity].
  - intros fs Hf Hr.
    destruct (storeTokens_second_write_faults r w fs Hf Hr)
      as (w' & Hrun & Hs & Ha & Hfs).
    exists w'. split; [exact Hrun|]. rewrite Hs.
    split; [apply lookup_insert_ne; exact keys_tokens_refresh|].
    split; [apply lookup_insert_eq|]. split; [exact Ha|]. split; [exact Hfs|].
    intros ->. rewrite getTokens_reliable by exact Hfs. simpl.
    rewrite Hs. rewrite tokens_read_torn. reflexivity.
  - apply storeTokens_throws_only_on_fault.
Qed.

End StoreFault.

(** A session is stored; the store will take the next write and reject the
    one after. *)
Definition firstSession : AuthTokens :=
  {| accessToken := "at-1"; refreshToken := Some "rt-1"; idToken := None;
     expiresAt := 1700003600000 |}.

Definition secondSession : AuthTokens :=
  {| accessToken := "at-2"; refreshToken := Some "rt-2"; idToken := None;
     expiresAt := 1700007200000 |}.

Definition faultAtSecondWrite : World :=
  with_storeFaults [false; true]
    (with_secureStore (tokens_written firstSession) freshInstall).

Lemma storeTokens_fault_witness :
  exists w',
    AuthStorage.storeTokens secondSession faultAtSecondWrite
    = (Thrown storage_failure, w')
    /\ secureStore w' !! REFRESH_TOKEN = secureStore faultAtSecondWrite !! REFRESH_TOKEN
    /\ secureStore w' !! TOKENS = Some (stringify secondSession)
    /\ asyncStorage w' = asyncStorage faultAtSecondWrite
    /\ fst (AuthStorage.getTokens w')
       = Returned (Some (with_refreshToken secondSession "rt-1")).
Proof.
  destruct (proj1 (proj2 (storeTokens_fault secondSession faultAtSecondWrite)) []
              eq_refl eq_refl)
    as (w' & Hrun & Hr & Ht & Ha & _ & Hg).
  exists w'. split; [exact Hrun|]. split; [exact Hr|]. split; [exact Ht|].
  split; [exact Ha|]. rewrite (Hg eq_refl). vm_compute. reflexivity.
Defined.

(** C5 as the spec words it fails: after the fault the caller reads a record
    that is neither the one stored before nor the one it tried to store. *)
Lemma storeTokens_torn_record :
  tokens_read (secureStore faultAtSecondWrite) = Some firstSession
  /\ fst (AuthStorage.storeTokens secondSession faultAtSecondWrite)
     = Thrown storage_failure
  /\ fst (AuthStorage.getTokens
            (snd (AuthStorage.storeTokens secondSession faultAtSecondWrite)))
     = Returned (Some (with_refreshToken secondSession "rt-1"))
  /\ secureStore (snd (AuthStorage.storeTokens secondSession faultAtSecondWrite))
     <> secureStore faultAtSecondWrite.
Proof.
  split; [vm_compute; reflexivity|].
  split; [vm_compute; reflexivity|].
  split; [vm_compute; reflexivity|].
  intros H.
  assert (Hl : secureStore (snd (AuthStorage.storeTokens secondSession faultAtSecondWrite))
               !! TOKENS = secureStore faultAtSecondWrite !! TOKENS)
    by (rewrite H; reflexivity).
  vm_compute in Hl. discriminate Hl.
Qed.

(** ** AuthGateway before [initialize] *)

(** C3, amended.  While [AuthAPI.config] is unset, [login], [loginWithHash],
    [refreshToken] and [getProfile] fail with the [TypeError] of reading a
    property of [undefined], and send nothing; [logout] swallows that error
    too and returns. *)
Theorem gateway_before_initialize (w : World) :
  apiConfig w = None ->
  (forall c, AuthAPI.login c w = (Thrown AuthAPI.undefined_config, w))
  /\ (forall c, AuthAPI.loginWithHash c w = (Thrown AuthAPI.undefined_config, w))
  /\ (forall t, AuthAPI.refreshToken t w = (Thrown AuthAPI.undefined_config, w))
  /\ (forall a, AuthAPI.getProfile a w = (Thrown AuthAPI.undefined_config, w))
  /\ (forall a, AuthAPI.logout a w = (Returned tt, w)).
Proof.
  intros Hc.
  assert (Hb : AuthAPI.config_apiBaseUrl w = (Thrown AuthAPI.undefined_config, w)).
  { unfold AuthAPI.config_apiBaseUrl, bind, get_world. rewrite Hc. reflexivity. }
  repeat split; intros;
    unfold AuthAPI.login, AuthAPI.loginWithHash, AuthAPI.refreshToken,
      AuthAPI.getProfile, AuthAPI.logout;
    rewrite (try_catch_thrown _ _ _ _ _ (bind_thrown _ _ _ _ _ Hb)); reflexivity.
Qed.

Lemma gateway_before_initialize_witness :
  AuthAPI.refreshToken "rt" freshInstall
  = (Thrown AuthAPI.undefined_config, freshInstall)
  /\ AuthAPI.logout "at" freshInstall = (Returned tt, freshInstall).
Proof.
  pose proof (gateway_before_initialize freshInstall eq_refl) as H.
  split; [apply H|apply H].
Defined.

(** C3 as the spec words it fails: [logout] before [initialize] does not fail. *)
Lemma logout_before_initialize_returns :
  ~ (forall (a : string) (w : World),
       apiConfig w = None -> exists e, fst (AuthAPI.logout a w) = Thrown e).
Proof.
  intros H. destruct (H "at" freshInstall eq_refl) as [e He].
  vm_compute in He. discriminate He.
Qed.

(** ** Frames: what a computation leaves alone

    A frame is a reflexive and transitive relation between the world before
    and the world after.  A computation respects it when every run relates
    the two, whether it returns or throws. *)
Class Frame (R : World -> World -> Prop) : Prop := {
  frame_refl : forall w, R w w;
  frame_trans : forall a b c, R a b -> R b c -> R a c
}.

(** Frames that hold across a call of the stores, across a call that leaves
    the device (gateway, biometric prompt, OAuth prompt), and across a state
    setter of the provider. *)
Class StoreStable (R : World -> World -> Prop) : Prop := {
  stable_secureStore : forall f w, R w (with_secureStore f w);
  stable_asyncStorage : forall f w, R w (with_asyncStorage f w);
  stable_storeFaults :
    forall b fs w, storeFaults w = b :: fs -> R w (with_storeFaults fs w)
}.

Class DeviceStable (R : World -> World -> Prop) : Prop := {
  stable_apiConfig : forall c w, R w (with_apiConfig c w);
  stable_server : forall s w, R w (with_server s w);
  stable_probes : forall l w, R w (with_probes l w);
  stable_biometricPrompts : forall l w, R w (with_biometricPrompts l w);
  stable_oauthPrompts : forall l w, R w (with_oauthPrompts l w);
  stable_fetch : forall r w, R w (with_event (Fetch r) w)
}.

Class SetterStable (R : World -> World -> Prop) : Prop := {
  stable_setUser : forall u w, R w (snd (setUser u w));
  stable_setTokens : forall t w, R w (snd (setTokens t w));
  stable_setIsLoading : forall b w, R w (snd (setIsLoading b w));
  stable_setError : forall e w, R w (snd (setError e w))
}.

Definition respects (R : World -> World -> Prop) {A} (c : Async A) : Prop :=
  forall w, R w (snd (c w)).

(** The frame of a component of the world that stays what it was. *)
Definition unchanged {X} (f : World -> X) : World -> World -> Prop :=
  fun w w' => f w' = f w.

(** The frame of a log that only grows. *)
Definition grows (w w' : World) : Prop :=
  exists tl, events w' = (events w ++ tl)%list.

#[export] Instance unchanged_frame {X} (f : World -> X) : Frame (unchanged f).
Proof. split; unfold unchanged; [reflexivity|intros; congruence]. Qed.

#[export] Instance grows_frame : Frame grows.
Proof.
  split; unfold grows.
  - intros w. exists []. symmetry. apply app_nil_r.
  - intros a b c [t1 H1] [t2 H2]. exists (t1 ++ t2)%list.
    rewrite H2, H1. symmetry. apply app_assoc.
Qed.

Section Respects.
Context (R : World -> World -> Prop) `{!Frame R}.

Lemma respects_ret {A} (a : A) : respects R (ret a).
Proof. intros w. apply frame_refl. Qed.

Lemma respects_throw {A} e : respects R (@throw A e).
Proof. intros w. apply frame_refl. Qed.

Lemma respects_get_world : respects R get_world.
Proof. intros w. apply frame_refl. Qed.

Lemma respects_bind {A B} (c : Async A) (k : A -> Async B) :
  respects R c -> (forall a, respects R (k a)) -> respects R (bind c k).
Proof.
  intros Hc Hk w. unfold bind. specialize (Hc w).
  destruct (c w) as [[a|e] w1]; simpl in *; [|exact Hc].
  eapply frame_trans; [exact Hc|apply Hk].
Qed.

Lemma respects_try_catch {A} (c : Async A) h :
  respects R c -> (forall e, respects R (h e)) -> respects R (try_catch c h).
Proof.
  intros Hc Hh w. unfold try_catch. specialize (Hc w).
  destruct (c w) as [[a|e] w1]; simpl in *; [exact Hc|].
  eapply frame_trans; [exact Hc|apply Hh].
Qed.

Lemma respects_try_finally {A} (c : Async A) f :
  respects R c -> respects R f -> respects R (try_finally c f).
Proof.
  intros Hc Hf w. unfold try_finally. specialize (Hc w).
  destruct (c w) as [o w1]. specialize (Hf w1).
  destruct (f w1) as [[u|e] w2]; simpl in *;
    (eapply frame_trans; [exact Hc|exact Hf]).
Qed.

Lemma respects_all2 {A B} (a : Async A) (b : Async B) :
  respects R a -> respects R b -> respects R (all2 a b).
Proof.
  intros Ha Hb w. unfold all2. specialize (Ha w).
  destruct (a w) as [oa w1]. specialize (Hb w1).
  destruct (b w1) as [ob w2].
  assert (H : R w w2) by (eapply frame_trans; [exact Ha|exact Hb]).
  destruct oa, ob; exact H.
Qed.

Lemma respects_modify (f : World -> World) :
  (forall w, R w (f w)) -> respects R (modify f).
Proof. intros Hf w. apply Hf. Qed.

End Respects.

(** Goals of the form [respects R c]: by a lemma on [c] when there is one,
    by the structure of [c] otherwise. *)
Create HintDb frames.

Ltac frame :=
  repeat first
    [ progress intros
    | solve [eauto 2 with frames typeclass_instances]
    | apply respects_ret
    | apply respects_throw
    | apply respects_get_world
    | solve [apply respects_modify; intros;
             first [ apply stable_secureStore | apply stable_asyncStorage
                   | apply stable_apiConfig ] ]
    | match goal with
      | |- respects _ (match ?x with _ => _ end) => destruct x
      end
    | apply respects_bind
    | apply respects_try_catch
    | apply respects_try_finally
    | apply respects_all2 ].

Section StoreFrames.
Context (R : World -> World -> Prop) `{!Frame R, !StoreStable R}.
Context `{!Json AuthTokens, !Json User, !Json BiometricCredentials}.

Lemma next_fault_respects : respects R next_fault.
Proof.
  intros w. unfold next_fault.
  destruct (storeFaults w) as [|b fs] eqn:Hf; simpl;
    [apply frame_refl|apply (stable_storeFaults b); exact Hf].
Qed.
Hint Resolve next_fault_respects : frames.

Lemma setItemAsync_respects k v : respects R (SecureStore.setItemAsync k v).
Proof. unfold SecureStore.setItemAsync. frame. Qed.

Lemma getItemAsync_respects k : respects R (SecureStore.getItemAsync k).
Proof. unfold SecureStore.getItemAsync. frame. Qed.

Lemma deleteItemAsync_respects k : respects R (SecureStore.deleteItemAsync k).
Proof. unfold SecureStore.deleteItemAsync. frame. Qed.

Lemma setItem_respects k v : respects R (AsyncStorage.setItem k v).
Proof. unfold AsyncStorage.setItem. frame. Qed.

Lemma getItem_respects k : respects R (AsyncStorage.getItem k).
Proof. unfold AsyncStorage.getItem. frame. Qed.

Lemma removeItem_respects k : respects R (AsyncStorage.removeItem k).
Proof. unfold AsyncStorage.removeItem. frame. Qed.

Hint Resolve setItemAsync_respects getItemAsync_respects deleteItemAsync_respects
  setItem_respects getItem_respects removeItem_respects : frames.

Lemma storeTokens_respects t : respects R (AuthStorage.storeTokens t).
Proof. unfold AuthStorage.storeTokens. frame. Qed.

Lemma getTokens_respects : respects R AuthStorage.getTokens.
Proof. unfold AuthStorage.getTokens. frame. Qed.

Lemma clearTokens_respects : respects R AuthStorage.clearTokens.
Proof. unfold AuthStorage.clearTokens. frame. Qed.

Lemma storeUser_respects u : respects R (AuthStorage.storeUser u).
Proof. unfold AuthStorage.storeUser. frame. Qed.

Lemma getUser_respects : respects R AuthStorage.getUser.
Proof. unfold AuthStorage.getUser. frame. Qed.

Lemma clearUser_respects : respects R AuthStorage.clearUser.
Proof. unfold AuthStorage.clearUser. frame. Qed.

Lemma isBiometricEnabled_respects : respects R AuthStorage.isBiometricEnabled.
Proof. unfold AuthStorage.isBiometricEnabled. frame. Qed.

Lemma setBiometricEnabled_respects b : respects R (AuthStorage.setBiometricEnabled b).
Proof. unfold AuthStorage.setBiometricEnabled. frame. Qed.

Lemma storeBiometricCredentials_respects c :
  respects R (AuthStorage.storeBiometricCredentials c).
Proof. unfold AuthStorage.storeBiometricCredentials. frame. Qed.

Lemma getBiometricCredentials_respects : respects R AuthStorage.getBiometricCredentials.
Proof. unfold AuthStorage.getBiometricCredentials. frame. Qed.

Hint Resolve clearTokens_respects clearUser_respects : frames.

Lemma clearAll_respects : respects R AuthStorage.clearAll.
Proof. unfold AuthStorage.clearAll. frame. Qed.

End StoreFrames.

#[export] Hint Resolve next_fault_respects setItemAsync_respects getItemAsync_respects
  deleteItemAsync_respects setItem_respects getItem_respects removeItem_respects : frames.

#[export] Hint Resolve storeTokens_respects getTokens_respects clearTokens_respects
  storeUser_respects getUser_respects clearUser_respects isBiometricEnabled_respects
  setBiometricEnabled_respects storeBiometricCredentials_respects
  getBiometricCredentials_respects clearAll_respects : frames.

Section DeviceFrames.
Context (R : World -> World -> Prop) `{!Frame R, !DeviceStable R}.

Lemma fetch_respects {A} replies rest r : respects R (@fetch A replies rest r).
Proof.
  intros w. unfold fetch.
  destruct (pop_reply (replies (server (with_event (Fetch r) w)))) as [reply l].
  assert (H : R w (with_server (rest l (server (with_event (Fetch r) w)))
                     (with_event (Fetch r) w))).
  { eapply frame_trans; [apply stable_fetch|apply stable_server]. }
  destruct reply; exact H.
Qed.

Lemma initialize_respects c : respects R (AuthAPI.initialize c).
Proof. unfold AuthAPI.initialize. frame. Qed.

Lemma config_apiBaseUrl_respects : respects R AuthAPI.config_apiBaseUrl.
Proof. unfold AuthAPI.config_apiBaseUrl. frame. Qed.

Lemma session_of_respects d : respects R (AuthAPI.session_of d).
Proof. unfold AuthAPI.session_of. frame. Qed.

Lemma promptAsync_respects : respects R AuthAPI.promptAsync.
Proof.
  intros w. unfold AuthAPI.promptAsync.
  destruct (oauthPrompts w) as [|[e|t c] l]; simpl;
    [apply frame_refl|apply stable_oauthPrompts|apply stable_oauthPrompts].
Qed.

Hint Resolve fetch_respects config_apiBaseUrl_respects session_of_respects
  promptAsync_respects : frames.

Lemma api_login_respects c : respects R (AuthAPI.login c).
Proof. unfold AuthAPI.login. frame. Qed.

Lemma api_loginWithHash_respects c : respects R (AuthAPI.loginWithHash c).
Proof. unfold AuthAPI.loginWithHash. frame. Qed.

Lemma api_loginWithGoogle_respects c : respects R (AuthAPI.loginWithGoogle c).
Proof. unfold AuthAPI.loginWithGoogle. frame. Qed.

Lemma api_loginWithMicrosoft_respects c : respects R (AuthAPI.loginWithMicrosoft c).
Proof. unfold AuthAPI.loginWithMicrosoft. frame. Qed.

Lemma api_refreshToken_respects t : respects R (AuthAPI.refreshToken t).
Proof. unfold AuthAPI.refreshToken. frame. Qed.

Lemma api_logout_respects a : respects R (AuthAPI.logout a).
Proof. unfold AuthAPI.logout. frame. Qed.

Lemma api_getProfile_respects a : respects R (AuthAPI.getProfile a).
Proof. unfold AuthAPI.getProfile. frame. Qed.

Lemma probe_respects : respects R BiometricAuth.probe.
Proof.
  intros w. unfold BiometricAuth.probe.
  destruct (probes w) as [|[|h e ts] l]; simpl;
    [apply frame_refl|apply stable_probes|apply stable_probes].
Qed.

Lemma authenticateAsync_respects m : respects R (BiometricAuth.authenticateAsync m).
Proof.
  intros w. unfold BiometricAuth.authenticateAsync.
  destruct (biometricPrompts w) as [|[e|ok err] l]; simpl;
    [apply frame_refl|apply stable_biometricPrompts|apply stable_biometricPrompts].
Qed.

Hint Resolve probe_respects authenticateAsync_respects : frames.

Lemma checkCapabilities_respects : respects R BiometricAuth.checkCapabilities.
Proof. unfold BiometricAuth.checkCapabilities. frame. Qed.

Hint Resolve checkCapabilities_respects : frames.

Lemma authenticate_respects m : respects R (BiometricAuth.authenticate m).
Proof. unfold BiometricAuth.authenticate. frame. Qed.

End DeviceFrames.

#[export] Hint Resolve fetch_respects config_apiBaseUrl_respects session_of_respects
  promptAsync_respects probe_respects authenticateAsync_respects : frames.

#[export] Hint Resolve initialize_respects api_login_respects api_loginWithHash_respects
  api_loginWithGoogle_respects api_loginWithMicrosoft_respects api_refreshToken_respects
  api_logout_respects api_getProfile_respects checkCapabilities_respects
  authenticate_respects : frames.

Section SetterFrames.
Context (R : World -> World -> Prop) `{!Frame R, !SetterStable R}.

Lemma setUser_respects u : respects R (setUser u).
Proof. intros w. apply stable_setUser. Qed.

Lemma setTokens_respects t : respects R (setTokens t).
Proof. intros w. apply stable_setTokens. Qed.

Lemma setIsLoading_respects b : respects R (setIsLoading b).
Proof. intros w. apply stable_setIsLoading. Qed.

Lemma setError_respects e : respects R (setError e).
Proof. intros w. apply stable_setError. Qed.

End SetterFrames.

#[export] Hint Resolve setUser_respects setTokens_respects setIsLoading_respects
  setError_respects : frames.

(** The provider's functions respect a frame that holds across all three
    kinds of call. *)
Section ProviderFrames.
Context (R : World -> World -> Prop)
  `{!Frame R, !StoreStable R, !DeviceStable R, !SetterStable R}.
Context `{!Json AuthTokens, !Json User, !Json BiometricCredentials}.

Lemma adopt_respects r : respects R (AuthProvider.adopt r).
Proof. unfold AuthProvider.adopt. frame. Qed.
Hint Resolve adopt_respects : frames.

Lemma login_respects c : respects R (AuthProvider.login c).
Proof. unfold AuthProvider.login. frame. Qed.

Lemma loginWithBiometrics_respects config :
  respects R (AuthProvider.loginWithBiometrics config).
Proof. unfold AuthProvider.loginWithBiometrics. frame. Qed.

Lemma loginWithGoogle_respects config : respects R (AuthProvider.loginWithGoogle config).
Proof. unfold AuthProvider.loginWithGoogle. frame. Qed.

Lemma loginWithMicrosoft_respects config :
  respects R (AuthProvider.loginWithMicrosoft config).
Proof. unfold AuthProvider.loginWithMicrosoft. frame. Qed.

Lemma logout_respects render : respects R (AuthProvider.logout render).
Proof. unfold AuthProvider.logout. frame. Qed.
Hint Resolve logout_respects : frames.

Lemma refreshToken_respects render : respects R (AuthProvider.refreshToken render).
Proof. unfold AuthProvider.refreshToken. frame. Qed.
Hint Resolve refreshToken_respects : frames.

Lemma initializeAuth_respects render : respects R (AuthProvider.initializeAuth render).
Proof. unfold AuthProvider.initializeAuth. frame. Qed.

Lemma enableBiometrics_respects render : respects R (AuthProvider.enableBiometrics render).
Proof. unfold AuthProvider.enableBiometrics. frame. Qed.

Lemma disableBiometrics_respects : respects R AuthProvider.disableBiometrics.
Proof. unfold AuthProvider.disableBiometrics. frame. Qed.

End ProviderFrames.

(** The stores and their pending faults, as one component of the world. *)
Definition stores (w : World) : gmap string string * gmap string string * list bool :=
  (secureStore w, asyncStorage w, storeFaults w).

#[export] Instance grows_store : StoreStable grows.
Proof. split; intros; exists []; symmetry; apply app_nil_r. Qed.

(** The frame of a store that keeps working. *)
Definition stays_reliable (w w' : World) : Prop := reliable w -> reliable w'.

#[export] Instance stays_reliable_frame : Frame stays_reliable.
Proof. split; unfold stays_reliable; auto. Qed.

#[export] Instance stays_reliable_store : StoreStable stays_reliable.
Proof.
  split; unfold stays_reliable, reliable; intros; try assumption.
  congruence.
Qed.

#[export] Instance stays_reliable_device : DeviceStable stays_reliable.
Proof. split; unfold stays_reliable; intros; assumption. Qed.

#[export] Instance stays_reliable_setter : SetterStable stays_reliable.
Proof. split; unfold stays_reliable; intros; assumption. Qed.

#[export] Instance grows_device : DeviceStable grows.
Proof.
  split; intros; try (exists []; symmetry; apply app_nil_r).
  exists [Fetch r]. reflexivity.
Qed.

#[export] Instance grows_setter : SetterStable grows.
Proof.
  split; intros.
  - exists [SetUser u]. reflexivity.
  - exists [SetTokens t]. reflexivity.
  - exists [SetIsLoading b]. reflexivity.
  - exists [SetError e]. reflexivity.
Qed.

#[export] Instance state_store : StoreStable (unchanged state).
Proof. split; reflexivity. Qed.

Lemma respects_run (R : World -> World -> Prop) {A} (c : Async A) w o w' :
  respects R c -> c w = (o, w') -> R w w'.
Proof. intros Hc Hrun. specialize (Hc w). rewrite Hrun in Hc. exact Hc. Qed.

#[export] Instance state_device : DeviceStable (unchanged state).
Proof. split; reflexivity. Qed.

#[export] Instance events_store : StoreStable (unchanged events).
Proof. split; reflexivity. Qed.

#[export] Instance server_store : StoreStable (unchanged server).
Proof. split; reflexivity. Qed.

#[export] Instance stores_device : DeviceStable (unchanged stores).
Proof. split; reflexivity. Qed.

#[export] Instance stores_setter : SetterStable (unchanged stores).
Proof. split; reflexivity. Qed.

(** ** Inversion of runs *)

Lemma bind_inv {A B} (c : Async A) (k : A -> Async B) w o w' :
  bind c k w = (o, w') ->
  (exists a w1, c w = (Returned a, w1) /\ k a w1 = (o, w'))
  \/ (exists e, c w = (Thrown e, w') /\ o = Thrown e).
Proof.
  unfold bind. destruct (c w) as [[a|e] w1]; intros H.
  - left. eauto.
  - right. injection H as <- <-. eauto.
Qed.

Lemma bind_inv_returned {A B} (c : Async A) (k : A -> Async B) w b w' :
  bind c k w = (Returned b, w') ->
  exists a w1, c w = (Returned a, w1) /\ k a w1 = (Returned b, w').
Proof.
  intros H. destruct (bind_inv _ _ _ _ _ H) as [?|(e & _ & He)]; [assumption|discriminate].
Qed.

Lemma all2_returned {A B} (a : Async A) (b : Async B) w x w1 y w2 :
  a w = (Returned x, w1) -> b w1 = (Returned y, w2) ->
  all2 a b w = (Returned (x, y), w2).
Proof. intros Ha Hb. unfold all2. rewrite Ha, Hb. reflexivity. Qed.

Lemma try_catch_inv {A} (c : Async A) h w o w' :
  try_catch c h w = (o, w') ->
  (exists a, c w = (Returned a, w') /\ o = Returned a)
  \/ (exists e w1, c w = (Thrown e, w1) /\ h e w1 = (o, w')).
Proof.
  unfold try_catch. destruct (c w) as [[a|e] w1]; intros H.
  - left. injection H as <- <-. eauto.
  - right. eauto.
Qed.

(** ** The stores one store call later *)

Lemma setItem_returned k v w w' :
  AsyncStorage.setItem k v w = (Returned tt, w') ->
  asyncStorage w' = <[k := v]> (asyncStorage w) /\ secureStore w' = secureStore w.
Proof.
  unfold AsyncStorage.setItem, bind, next_fault, modify, throw.
  destruct (storeFaults w) as [|[|] fs]; simpl; intros [= <-]; split; reflexivity.
Qed.

Lemma setItemAsync_returned k v w w' :
  SecureStore.setItemAsync k v w = (Returned tt, w') ->
  secureStore w' = <[k := v]> (secureStore w) /\ asyncStorage w' = asyncStorage w.
Proof.
  unfold SecureStore.setItemAsync, bind, next_fault, modify, throw.
  destruct (storeFaults w) as [|[|] fs]; simpl; intros [= <-]; split; reflexivity.
Qed.

Section StorageReturns.
Context `{!Json AuthTokens, !Json User, !Json BiometricCredentials}.

Lemma setBiometricEnabled_returned b w w' :
  AuthStorage.setBiometricEnabled b w = (Returned tt, w') ->
  asyncStorage w' = <[BIOMETRIC_ENABLED := if b then "true" else "false"]> (asyncStorage w)
  /\ secureStore w' = secureStore w.
Proof.
  unfold AuthStorage.setBiometricEnabled. intros H.
  destruct (try_catch_inv _ _ _ _ _ H) as [(a & Hc & _)|(e & w1 & _ & Hh)].
  - destruct a. exact (setItem_returned _ _ _ _ Hc).
  - discriminate Hh.
Qed.

Lemma storeBiometricCredentials_returned c w w' :
  AuthStorage.storeBiometricCredentials c w = (Returned tt, w') ->
  secureStore w' = <[BIOMETRIC_CREDENTIALS := stringify c]> (secureStore w)
  /\ asyncStorage w' = asyncStorage w.
Proof.
  unfold AuthStorage.storeBiometricCredentials. intros H.
  destruct (try_catch_inv _ _ _ _ _ H) as [(a & Hc & _)|(e & w1 & _ & Hh)].
  - destruct a. exact (setItemAsync_returned _ _ _ _ Hc).
  - discriminate Hh.
Qed.

Lemma setBiometricEnabled_reliable b w :
  reliable w ->
  AuthStorage.setBiometricEnabled b w
  = (Returned tt,
     with_asyncStorage (insert BIOMETRIC_ENABLED (if b then "true" else "false")) w).
Proof.
  intros Hw. unfold AuthStorage.setBiometricEnabled.
  apply try_catch_returned. apply setItem_reliable. exact Hw.
Qed.

Lemma storeUser_reliable u w :
  reliable w ->
  AuthStorage.storeUser u w
  = (Returned tt, with_asyncStorage (insert USER (stringify u)) w).
Proof.
  intros Hw. unfold AuthStorage.storeUser.
  apply try_catch_returned. apply setItem_reliable. exact Hw.
Qed.

Lemma isBiometricEnabled_reads w :
  AuthStorage.isBiometricEnabled w
  = (Returned (bool_decide (asyncStorage w !! BIOMETRIC_ENABLED = Some "true")),
     after_fault w)
  \/ AuthStorage.isBiometricEnabled w = (Returned false, after_fault w).
Proof.
  unfold AuthStorage.isBiometricEnabled, AsyncStorage.getItem, try_catch, bind,
    next_fault, after_fault, get_world, ret, throw.
  destruct (storeFaults w) as [|[|] fs]; simpl; auto.
Qed.

Lemma getBiometricCredentials_reliable w :
  reliable w ->
  AuthStorage.getBiometricCredentials w
  = (Returned (if truthy_opt (secureStore w !! BIOMETRIC_CREDENTIALS)
               then parse (default EmptyString (secureStore w !! BIOMETRIC_CREDENTIALS))
               else None), w).
Proof.
  intros Hw. unfold AuthStorage.getBiometricCredentials, try_catch.
  rewrite (bind_returned _ _ _ _ _ (getItemAsync_reliable w Hw _)).
  destruct (truthy_opt (secureStore w !! BIOMETRIC_CREDENTIALS)); [|reflexivity].
  destruct (parse (default EmptyString (secureStore w !! BIOMETRIC_CREDENTIALS)));
    reflexivity.
Qed.

Lemma clearAll_returns w : exists w', AuthStorage.clearAll w = (Returned tt, w').
Proof. unfold AuthStorage.clearAll. apply try_catch_swallow. Qed.

Lemma clearAll_reliable w :
  reliable w ->
  exists w',
    AuthStorage.clearAll w = (Returned tt, w')
    /\ secureStore w'
       = delete BIOMETRIC_CREDENTIALS (delete REFRESH_TOKEN (delete TOKENS (secureStore w)))
    /\ asyncStorage w' = delete BIOMETRIC_ENABLED (delete USER (asyncStorage w))
    /\ reliable w'
    /\ unchanged state w w' /\ unchanged events w w' /\ unchanged server w w'.
Proof.
  intros Hw. eexists. split.
  - unfold AuthStorage.clearAll. apply try_catch_returned.
    unfold bind, all2.
    rewrite clearTokens_reliable by exact Hw.
    unfold AuthStorage.clearUser, try_catch.
    rewrite removeItem_reliable by exact Hw.
    rewrite removeItem_reliable by exact Hw.
    rewrite deleteItemAsync_reliable by exact Hw.
    reflexivity.
  - repeat split. exact Hw.
Qed.

End StorageReturns.

(** ** SessionController: [logout] *)

(** The entry under [k] deleted, unless the deletion faulted. *)
Definition delete_unless (faulted : bool) (k : string) (m : gmap string string)
    : gmap string string :=
  if faulted then m else delete k m.

(** Does the [i]-th store call from now fault? *)
Definition pending (i : nat) (w : World) : bool := nth i (storeFaults w) false.

(** The state [logout] ends in. *)
Definition loggedOut : SessionState :=
  {| user := None; tokens := None; isLoading := false; error := None |}.

(** The world once [logout] has reset the state, from the world that
    [clearAll] left. *)
Definition reset_state (w : World) : World :=
  snd (setIsLoading false (snd (setError None (snd (setTokens None (snd (setUser None w))))))).

Lemma try_finally_run {A} (c : Async A) f w o w1 w2 :
  c w = (o, w1) -> f w1 = (Returned tt, w2) -> try_finally c f w = (o, w2).
Proof. intros Hc Hf. unfold try_finally. rewrite Hc, Hf. reflexivity. Qed.

Section Logout.
Context `{!Json AuthTokens, !Json User, !Json BiometricCredentials}.

(** [logout] always returns: the remote call is made when the render holds
    tokens, its failure is swallowed, [clearAll] runs and returns, and the
    state is reset. *)
Lemma logout_shape (render : SessionState) (w : World) :
  exists w2 w3,
    unchanged stores w w2
    /\ AuthStorage.clearAll w2 = (Returned tt, w3)
    /\ AuthProvider.logout render w = (Returned tt, reset_state w3).
Proof.
  set (w1 := snd (setIsLoading true w)).
  set (remote :=
         match tokens render with
         | Some t => try_catch (AuthAPI.logout (accessToken t)) (fun _ => ret tt)
         | None => ret tt
         end).
  assert (Hr : exists w2, remote w1 = (Returned tt, w2) /\ unchanged stores w1 w2).
  { assert (Hf : respects (unchanged stores) remote)
      by (unfold remote; frame).
    specialize (Hf w1).
    assert (He : exists w2, remote w1 = (Returned tt, w2)).
    { unfold remote. destruct (tokens render); [apply try_catch_swallow|].
      eexists. reflexivity. }
    destruct He as [w2 He]. exists w2. rewrite He in Hf. auto. }
  destruct Hr as (w2 & Hr & Hs).
  destruct (clearAll_returns w2) as [w3 Hc].
  exists w2, w3. repeat split; [exact Hs|exact Hc|].
  unfold AuthProvider.logout. fold remote.
  eapply try_finally_run; [|reflexivity].
  apply try_catch_returned.
  erewrite bind_returned by reflexivity. fold w1.
  rewrite (bind_returned _ _ _ _ _ Hr).
  rewrite (bind_returned _ _ _ _ _ Hc).
  reflexivity.
Qed.

Lemma logout_returns (render : SessionState) (w : World) :
  exists w', AuthProvider.logout render w = (Returned tt, w') /\ state w' = loggedOut.
Proof.
  destruct (logout_shape render w) as (w2 & w3 & _ & _ & H).
  exists (reset_state w3). split; [exact H|reflexivity].
Qed.

(** On a store that works, [logout] leaves none of the five entries. *)
Lemma logout_reliable (render : SessionState) (w : World) :
  reliable w ->
  exists w',
    AuthProvider.logout render w = (Returned tt, w')
    /\ state w' = loggedOut
    /\ secureStore w'
       = delete BIOMETRIC_CREDENTIALS (delete REFRESH_TOKEN (delete TOKENS (secureStore w)))
    /\ asyncStorage w' = delete BIOMETRIC_ENABLED (delete USER (asyncStorage w))
    /\ reliable w'.
Proof.
  intros Hw.
  destruct (logout_shape render w) as (w2 & w3 & Hs & Hc & H).
  unfold unchanged, stores in Hs. injection Hs as Hsec Hasy Hfl.
  assert (Hw2 : reliable w2) by (unfold reliable; congruence).
  destruct (clearAll_reliable w2 Hw2) as (w3' & Hc' & Hsec' & Hasy' & Hw3 & _).
  rewrite Hc in Hc'. injection Hc' as <-.
  exists (reset_state w3). split; [exact H|]. split; [reflexivity|].
  change (secureStore (reset_state w3)) with (secureStore w3).
  change (asyncStorage (reset_state w3)) with (asyncStorage w3).
  rewrite Hsec', Hasy', Hsec, Hasy. repeat split. exact Hw3.
Qed.

(** What [clearAll] does to the stores: five deletions, one store call each,
    every one made whatever became of the others. *)
Lemma clearAll_deletes (w : World) :
  exists w',
    AuthStorage.clearAll w = (Returned tt, w')
    /\ secureStore w'
       = delete_unless (pending 4 w) BIOMETRIC_CREDENTIALS
           (delete_unless (pending 1 w) REFRESH_TOKEN
              (delete_unless (pending 0 w) TOKENS (secureStore w)))
    /\ asyncStorage w'
       = delete_unless (pending 3 w) BIOMETRIC_ENABLED
           (delete_unless (pending 2 w) USER (asyncStorage w)).
Proof.
  unfold AuthStorage.clearAll, AuthStorage.clearTokens, AuthStorage.clearUser,
    AsyncStorage.removeItem, SecureStore.deleteItemAsync, try_catch, all2, bind,
    next_fault, modify, throw, ret, pending, delete_unless.
  destruct (storeFaults w) as [|b0 [|b1 [|b2 [|b3 [|b4 fs]]]]] eqn:Hf;
    repeat match goal with b : bool |- _ => destruct b end;
    simpl; rewrite ?Hf; simpl; rewrite ?Hf; simpl; rewrite ?Hf; simpl;
    rewrite ?Hf; simpl; eexists; repeat split.
Qed.

(** The local cleanup of [logout]: whatever the remote call did, every one
    of the five entries is deleted unless its own deletion faults. *)
Lemma logout_deletes (render : SessionState) (w : World) :
  secureStore (snd (AuthProvider.logout render w))
  = delete_unless (pending 4 w) BIOMETRIC_CREDENTIALS
      (delete_unless (pending 1 w) REFRESH_TOKEN
         (delete_unless (pending 0 w) TOKENS (secureStore w)))
  /\ asyncStorage (snd (AuthProvider.logout render w))
     = delete_unless (pending 3 w) BIOMETRIC_ENABLED
         (delete_unless (pending 2 w) USER (asyncStorage w)).
Proof.
  destruct (logout_shape render w) as (w2 & w3 & Hs & Hc & H).
  unfold unchanged, stores in Hs. injection Hs as Hsec Hasy Hfl.
  destruct (clearAll_deletes w2) as (w3' & Hc' & Hsec' & Hasy').
  rewrite Hc in Hc'. injection Hc' as <-.
  rewrite H. cbn [snd].
  change (secureStore (reset_state w3)) with (secureStore w3).
  change (asyncStorage (reset_state w3)) with (asyncStorage w3).
  unfold pending in *. rewrite Hsec', Hasy', Hsec, Hasy, Hfl. split; reflexivity.
Qed.

(** C8.  [logout] never raises, whatever the remote call does and whatever
    the store does: [clearAll] runs on the stores as the remote call found
    them, and the state is reset to the logged-out one.  The cleanup is
    made whatever the remote call did: each of the five entries is deleted
    unless its own deletion faults, so that on a store that works none is
    left and [getTokens] and [getUser] answer absent.  A second [logout]
    right after the first, from the new render or from any other, returns as
    well and ends in the same state, and on a store that works it leaves
    the stores as the first call left them. *)
Theorem logout_idempotent (render render' : SessionState) (w : World) :
  (exists w2 w3,
     unchanged stores w w2
     /\ AuthStorage.clearAll w2 = (Returned tt, w3)
     /\ AuthProvider.logout render w = (Returned tt, reset_state w3))
  /\ fst (AuthProvider.logout render w) = Returned tt
  /\ state (snd (AuthProvider.logout render w)) = loggedOut
  /\ fst (call AuthProvider.logout (snd (AuthProvider.logout render w))) = Returned tt
  /\ state (snd (call AuthProvider.logout (snd (AuthProvider.logout render w))))
     = state (snd (AuthProvider.logout render w))
  /\ fst (AuthProvider.logout render' (snd (AuthProvider.logout render w))) = Returned tt
  /\ state (snd (AuthProvider.logout render' (snd (AuthProvider.logout render w))))
     = state (snd (AuthProvider.logout render w))
  /\ secureStore (snd (AuthProvider.logout render w))
     = delete_unless (pending 4 w) BIOMETRIC_CREDENTIALS
         (delete_unless (pending 1 w) REFRESH_TOKEN
            (delete_unless (pending 0 w) TOKENS (secureStore w)))
  /\ asyncStorage (snd (AuthProvider.logout render w))
     = delete_unless (pending 3 w) BIOMETRIC_ENABLED
         (delete_unless (pending 2 w) USER (asyncStorage w))
  /\ (reliable w ->
      secureStore (snd (AuthProvider.logout render w))
      = delete BIOMETRIC_CREDENTIALS (delete REFRESH_TOKEN (delete TOKENS (secureStore w)))
      /\ asyncStorage (snd (AuthProvider.logout render w))
         = delete BIOMETRIC_ENABLED (delete USER (asyncStorage w))
      /\ fst (AuthStorage.getTokens (snd (AuthProvider.logout render w))) = Returned None
      /\ fst (AuthStorage.getUser (snd (AuthProvider.logout render w))) = Returned None
      /\ secureStore (snd (AuthProvider.logout render'
                             (snd (AuthProvider.logout render w))))
         = secureStore (snd (AuthProvider.logout render w))
      /\ asyncStorage (snd (AuthProvider.logout render'
                              (snd (AuthProvider.logout render w))))
         = asyncStorage (snd (AuthProvider.logout render w))).
Proof.
  split; [apply logout_shape|].
  destruct (logout_deletes render w) as [Dsec Dasy].
  destruct (logout_returns render w) as (w1 & H1 & S1).
  rewrite H1 in *. simpl fst. simpl snd in *. unfold call.
  destruct (logout_returns (state w1) w1) as (w2 & H2 & S2).
  destruct (logout_returns render' w1) as (w3 & H3 & S3).
  rewrite H2, H3. simpl fst. simpl snd. rewrite S1, S2, S3.
  do 6 (split; [reflexivity|]).
  split; [exact Dsec|]. split; [exact Dasy|].
  intros Hw.
  destruct (logout_reliable render w Hw) as (w1' & H1' & _ & Hsec & Hasy & Hw1).
  rewrite H1 in H1'. injection H1' as <-.
  destruct (logout_reliable render' w1 Hw1) as (w3' & H3' & _ & Hsec3 & Hasy3 & _).
  rewrite H3 in H3'. injection H3' as <-.
  assert (Ht : secureStore w1 !! TOKENS = None).
  { rewrite Hsec. rewrite lookup_delete_ne by discriminate.
    rewrite lookup_delete_ne by discriminate. apply lookup_delete_eq. }
  assert (Hr : secureStore w1 !! REFRESH_TOKEN = None).
  { rewrite Hsec. rewrite lookup_delete_ne by discriminate. apply lookup_delete_eq. }
  assert (Hb : secureStore w1 !! BIOMETRIC_CREDENTIALS = None).
  { rewrite Hsec. apply lookup_delete_eq. }
  assert (Hu : asyncStorage w1 !! USER = None).
  { rewrite Hasy. rewrite lookup_delete_ne by discriminate. apply lookup_delete_eq. }
  assert (He : asyncStorage w1 !! BIOMETRIC_ENABLED = None).
  { rewrite Hasy. apply lookup_delete_eq. }
  split; [exact Hsec|]. split; [exact Hasy|]. split; [|split; [|split]].
  - rewrite getTokens_reliable by exact Hw1. unfold tokens_read. rewrite Ht. reflexivity.
  - unfold AuthStorage.getUser, try_catch.
    rewrite (bind_returned _ _ _ _ _ (getItem_reliable w1 Hw1 _)).
    rewrite Hu. reflexivity.
  - rewrite Hsec3.
    rewrite (delete_id (secureStore w1) TOKENS Ht).
    rewrite (delete_id (secureStore w1) REFRESH_TOKEN Hr).
    apply delete_id. exact Hb.
  - rewrite Hasy3.
    rewrite (delete_id (asyncStorage w1) USER Hu).
    apply delete_id. exact He.
Qed.

(** ** SessionController: [refreshToken] *)

Lemma refreshToken_thrown (render : SessionState) (w : World) e w' :
  AuthProvider.refreshToken render w = (Thrown e, w') ->
  exists w1,
    stays_reliable w w1
    /\ AuthProvider.logout render w1 = (Returned tt, w').
Proof.
  unfold AuthProvider.refreshToken. intros H.
  destruct (try_catch_inv _ _ _ _ _ H) as [(a & _ & Ha)|(e0 & w1 & Hbody & Hh)];
    [discriminate|].
  exists w1. split.
  - eapply respects_run; [|exact Hbody]. frame.
  - destruct (logout_returns render w1) as (w2 & Hl & _).
    rewrite (bind_returned _ _ _ _ _ Hl) in Hh.
    injection Hh as _ <-. exact Hl.
Qed.

(** C7, amended.  After a failed [refreshToken()] the state is the
    logged-out one: no tokens and no user in memory.  On a store that works,
    none is left in storage either: the entries of the token record, of the
    refresh token and of the user are gone, and [getTokens] and [getUser]
    answer absent. *)
Theorem refreshToken_failure (render : SessionState) (w : World) e w' :
  AuthProvider.refreshToken render w = (Thrown e, w') ->
  state w' = loggedOut
  /\ (reliable w ->
      secureStore w' !! TOKENS = None
      /\ secureStore w' !! REFRESH_TOKEN = None
      /\ asyncStorage w' !! USER = None
      /\ fst (AuthStorage.getTokens w') = Returned None
      /\ fst (AuthStorage.getUser w') = Returned None).
Proof.
  intros H. destruct (refreshToken_thrown render w e w' H) as (w1 & Hrel & Hl).
  split.
  - destruct (logout_returns render w1) as (w2 & Hl' & Hs).
    rewrite Hl in Hl'. injection Hl' as <-. exact Hs.
  - intros Hw.
    destruct (logout_reliable render w1 (Hrel Hw)) as (w2 & Hl' & _ & Hsec & Hasy & Hw2).
    rewrite Hl in Hl'. injection Hl' as <-.
    assert (Ht : secureStore w' !! TOKENS = None).
    { rewrite Hsec. rewrite lookup_delete_ne by discriminate.
      rewrite lookup_delete_ne by discriminate. apply lookup_delete_eq. }
    assert (Hu : asyncStorage w' !! USER = None).
    { rewrite Hasy. rewrite lookup_delete_ne by discriminate. apply lookup_delete_eq. }
    split; [exact Ht|]. split.
    { rewrite Hsec. rewrite lookup_delete_ne by discriminate. apply lookup_delete_eq. }
    split; [exact Hu|]. split.
    + rewrite getTokens_reliable by exact Hw2. unfold tokens_read. rewrite Ht. reflexivity.
    + unfold AuthStorage.getUser, try_catch.
      rewrite (bind_returned _ _ _ _ _ (getItem_reliable w' Hw2 _)).
      rewrite Hu. reflexivity.
Qed.

End Logout.

(** A session in memory and in storage, with a configured gateway. *)
Definition signedIn : SessionState :=
  {| user := Some alice; tokens := Some firstSession; isLoading := false; error := None |}.

Definition inSession : World :=
  with_state (fun _ => signedIn)
    (with_asyncStorage (insert USER (stringify alice))
       (with_secureStore (tokens_written firstSession)
          (with_apiConfig (Some defaultConfig) freshInstall))).

(** The gateway will reject the refresh. *)
Definition refreshRejected : World :=
  with_server
    {| session_replies := [];
       refresh_replies := [NotOk (Some "Invalid refresh token")];
       logout_replies := [];
       profile_replies := [] |}
    inSession.

(** The same, and the store will reject the first deletion of the cleanup. *)
Definition refreshRejectedDeleteFaults : World :=
  with_storeFaults [true] refreshRejected.

Lemma refreshToken_failure_witness :
  state (snd (AuthProvider.refreshToken signedIn refreshRejected)) = loggedOut
  /\ secureStore (snd (AuthProvider.refreshToken signedIn refreshRejected)) !! TOKENS = None
  /\ fst (AuthStorage.getTokens (snd (AuthProvider.refreshToken signedIn refreshRejected)))
     = Returned None.
Proof.
  assert (Hrun : AuthProvider.refreshToken signedIn refreshRejected
                 = (Thrown (Error "Invalid refresh token"),
                    snd (AuthProvider.refreshToken signedIn refreshRejected)))
    by (vm_compute; reflexivity).
  destruct (refreshToken_failure signedIn refreshRejected _ _ Hrun) as [Hs Hst].
  destruct (Hst eq_refl) as (Ht & _ & _ & Hg & _).
  split; [exact Hs|]. split; [exact Ht|exact Hg].
Defined.

(** C7 as the spec words it fails: the refresh is rejected, the deletion of
    the token record faults during the cleanup, and the record is still in
    storage after the failed call. *)
Lemma refreshToken_failure_leaves_record :
  fst (AuthProvider.refreshToken signedIn refreshRejectedDeleteFaults)
  = Thrown (Error "Invalid refresh token")
  /\ state (snd (AuthProvider.refreshToken signedIn refreshRejectedDeleteFaults))
     = loggedOut
  /\ fst (AuthStorage.getTokens
            (snd (AuthProvider.refreshToken signedIn refreshRejectedDeleteFaults)))
     = Returned (Some firstSession).
Proof. repeat split; vm_compute; reflexivity. Qed.

(** The remote logout fails and the session is cleared all the same. *)
Example logout_remote_failure :
  fst (AuthProvider.logout signedIn inSession) = Returned tt
  /\ state (snd (AuthProvider.logout signedIn inSession)) = loggedOut
  /\ secureStore (snd (AuthProvider.logout signedIn inSession)) = ∅
  /\ asyncStorage (snd (AuthProvider.logout signedIn inSession)) = ∅.
Proof. repeat split; vm_compute; reflexivity. Qed.

(** ** SessionController: [initialize] *)

(** The requests sent so far. *)
Definition requests (l : list Event) : list Request :=
  omap (fun e => match e with Fetch r => Some r | _ => None end) l.

(** What the gateway has been asked and what it still has to answer. *)
Definition traffic (w : World) : list Request * Server :=
  (requests (events w), server w).

#[export] Instance traffic_store : StoreStable (unchanged traffic).
Proof. split; reflexivity. Qed.

#[export] Instance traffic_setter : SetterStable (unchanged traffic).
Proof.
  split; intros; unfold unchanged, traffic, requests; simpl;
    rewrite omap_app; simpl; rewrite app_nil_r; reflexivity.
Qed.

Section Initialize.
Context `{!Json AuthTokens, !Json User, !Json BiometricCredentials}.

(** In a render whose [tokens] is [null], as the one of the mount effect
    is, [refreshToken] throws before it reaches the gateway and [logout]
    skips the remote call.  [initializeAuth] gives [setTokens] nothing before
    it calls [refreshToken], so the state holds no tokens at that point
    either. *)
Lemma logout_without_tokens (render : SessionState) :
  tokens render = None -> respects (unchanged traffic) (AuthProvider.logout render).
Proof. intros Hn. unfold AuthProvider.logout. rewrite Hn. frame. Qed.

Lemma refreshToken_without_tokens (render : SessionState) :
  tokens render = None -> respects (unchanged traffic) (AuthProvider.refreshToken render).
Proof.
  intros Hn. pose proof (logout_without_tokens render Hn).
  unfold AuthProvider.refreshToken, AuthProvider.current_refreshToken.
  rewrite Hn. frame.
Qed.

Lemma initializeAuth_without_tokens (render : SessionState) :
  tokens render = None -> respects (unchanged traffic) (AuthProvider.initializeAuth render).
Proof.
  intros Hn. pose proof (logout_without_tokens render Hn).
  pose proof (refreshToken_without_tokens render Hn).
  unfold AuthProvider.initializeAuth. frame.
Qed.

(** The mount effect never sends a request, whatever is stored: the reply
    the gateway holds for a refresh is still pending when it ends. *)
Lemma mount_sends_no_request (config : AuthConfig) (w : World) :
  unchanged traffic w (snd (mount config w)).
Proof.
  assert (H : respects (unchanged traffic) (mount config)).
  { pose proof (initializeAuth_without_tokens initialState eq_refl).
    unfold mount. apply respects_bind; [exact _| |intros _].
    - intros w0. reflexivity.
    - apply respects_bind; [exact _| |intros _; assumption].
      intros w0. reflexivity. }
  apply H.
Qed.

Lemma refreshToken_initial (w : World) :
  exists w',
    AuthProvider.refreshToken initialState w
    = (Thrown (Error "No refresh token available"), w')
    /\ AuthProvider.logout initialState w = (Returned tt, w').
Proof.
  destruct (logout_returns initialState w) as (w' & Hl & _).
  exists w'. split; [|exact Hl].
  unfold AuthProvider.refreshToken. simpl.
  unfold try_catch, throw. rewrite (bind_returned _ _ _ _ _ Hl). reflexivity.
Qed.

Lemma getUser_reliable w :
  reliable w -> exists u, AuthStorage.getUser w = (Returned u, w).
Proof.
  intros Hw. unfold AuthStorage.getUser, try_catch.
  rewrite (bind_returned _ _ _ _ _ (getItem_reliable w Hw _)).
  destruct (truthy_opt (asyncStorage w !! USER)); [|eauto].
  destruct (parse (default EmptyString (asyncStorage w !! USER))); eauto.
Qed.

(** With an expired token record in a store that works, the mount effect
    ends logged out with the stored session deleted. *)
Lemma mount_expired (config : AuthConfig) (w : World) (t : AuthTokens) :
  reliable w ->
  tokens_read (secureStore w) = Some t ->
  AuthStorage.isTokenExpired (now w) t = true ->
  exists w',
    mount config w = (Returned tt, w')
    /\ state w' = loggedOut
    /\ secureStore w' !! TOKENS = None
    /\ secureStore w' !! REFRESH_TOKEN = None
    /\ asyncStorage w' !! USER = None.
Proof.
  intros Hw Hread Hexp.
  set (w0 := with_state (fun _ => initialState) (with_apiConfig (Some config) w)).
  set (w1 := snd (setIsLoading true w0)).
  assert (Hw1 : reliable w1) by exact Hw.
  destruct (getUser_reliable w1 Hw1) as [u Hu].
  destruct (refreshToken_initial w1) as (w2 & Hrt & Hl2).
  destruct (logout_reliable initialState w1 Hw1) as (w2' & Hl2' & _ & _ & _ & Hw2).
  rewrite Hl2 in Hl2'. injection Hl2' as <-.
  destruct (logout_reliable initialState w2 Hw2) as (w3 & Hl3 & Hs3 & Hsec & Hasy & _).
  exists (snd (setIsLoading false w3)). split; [|split; [|split; [|split]]].
  - unfold mount, AuthAPI.initialize.
    erewrite bind_returned by reflexivity.
    erewrite bind_returned by reflexivity. fold w0.
    unfold AuthProvider.initializeAuth.
    eapply try_finally_run; [|reflexivity].
    apply try_catch_returned.
    erewrite bind_returned by reflexivity. fold w1.
    rewrite (bind_returned _ _ _ _ _
               (all2_returned _ _ _ _ _ _ _ (getTokens_reliable w1 Hw1) Hu)).
    erewrite bind_returned by reflexivity.
    change (secureStore w1) with (secureStore w). rewrite Hread.
    cbn [fst snd present]. change (now w1) with (now w). rewrite Hexp.
    rewrite andb_false_r. cbn [andb negb].
    rewrite (try_catch_thrown _ _ _ _ _ Hrt). exact Hl3.
  - simpl. rewrite Hs3. reflexivity.
  - change (secureStore (snd (setIsLoading false w3))) with (secureStore w3).
    rewrite Hsec. rewrite lookup_delete_ne by discriminate.
    rewrite lookup_delete_ne by discriminate. apply lookup_delete_eq.
  - change (secureStore (snd (setIsLoading false w3))) with (secureStore w3).
    rewrite Hsec. rewrite lookup_delete_ne by discriminate. apply lookup_delete_eq.
  - change (asyncStorage (snd (setIsLoading false w3))) with (asyncStorage w3).
    rewrite Hasy. rewrite lookup_delete_ne by discriminate. apply lookup_delete_eq.
Qed.

End Initialize.

(** Scenario C of the spec: the stored token record expired a second ago, it
    has a refresh token, and the gateway will accept the refresh. *)
Definition expiredToken : AuthTokens :=
  {| accessToken := "at-1"; refreshToken := Some "rt-1"; idToken := None;
     expiresAt := 1700000000000 - 1000 |}.

Definition acceptsRefresh : Server :=
  {| session_replies := [];
     refresh_replies :=
       [Ok2xx {| refresh_user := Some alice;
                 refresh_accessToken := "at-2";
                 refresh_refreshToken := Some "rt-2";
                 refresh_expiresIn := 3600 |}];
     logout_replies := [];
     profile_replies := [] |}.

Definition scenarioC : World :=
  with_server acceptsRefresh
    (with_asyncStorage (insert USER (stringify alice))
       (with_secureStore (tokens_written expiredToken) freshInstall)).

(** C1 on the code.  In scenario C the mount effect sends nothing to the
    gateway, whose reply is still pending at the end; it ends logged out and
    not authenticated, with both stores emptied. *)
Theorem mount_scenarioC_logs_out :
  fst (mount defaultConfig scenarioC) = Returned tt
  /\ requests (events (snd (mount defaultConfig scenarioC))) = []
  /\ server (snd (mount defaultConfig scenarioC)) = acceptsRefresh
  /\ state (snd (mount defaultConfig scenarioC)) = loggedOut
  /\ AuthProvider.isAuthenticated (state (snd (mount defaultConfig scenarioC)))
       (now (snd (mount defaultConfig scenarioC))) = false
  /\ secureStore (snd (mount defaultConfig scenarioC)) = ∅
  /\ asyncStorage (snd (mount defaultConfig scenarioC)) = ∅.
Proof. repeat split; vm_compute; reflexivity. Qed.

(** The same stored session, in a render that holds the tokens: there
    [refreshToken] sends one request and the new record is the stored one. *)
Example refreshToken_scenarioC_with_tokens :
  let render :=
    {| user := Some alice; tokens := Some expiredToken;
       isLoading := false; error := None |} in
  let w := with_apiConfig (Some defaultConfig) scenarioC in
  fst (AuthProvider.refreshToken render w) = Returned tt
  /\ length (requests (events (snd (AuthProvider.refreshToken render w)))) = 1%nat
  /\ fst (AuthStorage.getTokens (snd (AuthProvider.refreshToken render w)))
     = Returned (tokens (state (snd (AuthProvider.refreshToken render w))))
  /\ tokens (state (snd (AuthProvider.refreshToken render w)))
     = Some {| accessToken := "at-2"; refreshToken := Some "rt-2"; idToken := None;
               expiresAt := 1700000000000 + 3600 * 1000 |}.
Proof. repeat split; vm_compute; reflexivity. Qed.

(** ** SessionController: the loading flag *)

(** The values given to [setIsLoading] so far. *)
Definition loading_writes (l : list Event) : list bool :=
  omap (fun e => match e with SetIsLoading b => Some b | _ => None end) l.

(** The loading flag and the writes to it. *)
Definition loading (w : World) : bool * list bool :=
  (isLoading (state w), loading_writes (events w)).

(** A computation that sets [loading] to true before anything else an
    observer can see, and to false as the last thing, however it exits. *)
Definition brackets_loading {A} (c : Async A) : Prop :=
  forall w,
    isLoading (state (snd (c w))) = false
    /\ exists tl,
         events (snd (c w))
         = (events w ++ SetIsLoading true :: tl ++ [SetIsLoading false])%list.

Lemma loading_bracket {A} (c : Async A) (h : JsError -> Async A) :
  respects grows c -> (forall e, respects grows (h e)) ->
  brackets_loading
    (try_finally (try_catch (setIsLoading true ;; c) h) (setIsLoading false)).
Proof.
  intros Hc Hh w.
  assert (Hg : respects grows (try_catch c h))
    by (apply respects_try_catch; [exact _|exact Hc|exact Hh]).
  specialize (Hg (snd (setIsLoading true w))).
  unfold try_finally.
  change (try_catch (setIsLoading true;; c) h w)
    with (try_catch c h (snd (setIsLoading true w))).
  destruct (try_catch c h (snd (setIsLoading true w))) as [o w2].
  simpl in *. split; [reflexivity|].
  destruct Hg as [tl Hg]. exists tl.
  unfold with_event, with_state in *. simpl in *. rewrite Hg.
  rewrite <- !app_assoc. reflexivity.
Qed.

#[export] Instance loading_store : StoreStable (unchanged loading).
Proof. split; reflexivity. Qed.

#[export] Instance loading_device : DeviceStable (unchanged loading).
Proof.
  split; try reflexivity.
  intros r w. unfold unchanged, loading, loading_writes. simpl.
  rewrite omap_app. simpl. rewrite app_nil_r. reflexivity.
Qed.

Lemma setTokens_loading t : respects (unchanged loading) (setTokens t).
Proof.
  intros w. unfold unchanged, loading, loading_writes. simpl.
  rewrite omap_app. simpl. rewrite app_nil_r. reflexivity.
Qed.

Lemma setUser_loading u : respects (unchanged loading) (setUser u).
Proof.
  intros w. unfold unchanged, loading, loading_writes. simpl.
  rewrite omap_app. simpl. rewrite app_nil_r. reflexivity.
Qed.

Section Loading.
Context `{!Json AuthTokens, !Json User, !Json BiometricCredentials}.

Lemma refreshToken_returned_loading (render : SessionState) (w : World) a w' :
  AuthProvider.refreshToken render w = (Returned a, w') -> loading w' = loading w.
Proof.
  unfold AuthProvider.refreshToken. intros H.
  destruct (try_catch_inv _ _ _ _ _ H) as [(a' & Hbody & _)|(e & w1 & _ & Hh)].
  - eapply (respects_run (unchanged loading)); [|exact Hbody].
    pose proof setTokens_loading. pose proof setUser_loading. frame.
  - destruct (bind_inv _ _ _ _ _ Hh) as [(u & w2 & _ & Ht)|(e' & _ & He)];
      discriminate.
Qed.

(** C6, amended.  [login], [loginWithBiometrics], [loginWithGoogle],
    [loginWithMicrosoft] and [logout] set [loading] to true at entry and to
    false on every exit path.  [refreshToken] does not touch the flag when
    it succeeds, and leaves it false when it fails (the [logout] it runs
    does). *)
Theorem loading_discipline (config : AuthConfig) (render : SessionState) :
  (forall credentials, brackets_loading (AuthProvider.login credentials))
  /\ brackets_loading (AuthProvider.loginWithBiometrics config)
  /\ brackets_loading (AuthProvider.loginWithGoogle config)
  /\ brackets_loading (AuthProvider.loginWithMicrosoft config)
  /\ brackets_loading (AuthProvider.logout render)
  /\ (forall w a w',
        AuthProvider.refreshToken render w = (Returned a, w') ->
        isLoading (state w') = isLoading (state w)
        /\ loading_writes (events w') = loading_writes (events w))
  /\ (forall w e w',
        AuthProvider.refreshToken render w = (Thrown e, w') ->
        isLoading (state w') = false).
Proof.
  split; [|split; [|split; [|split; [|split; [|split]]]]].
  - intros credentials. unfold AuthProvider.login.
    apply loading_bracket; frame.
  - unfold AuthProvider.loginWithBiometrics. apply loading_bracket; frame.
  - unfold AuthProvider.loginWithGoogle. apply loading_bracket; frame.
  - unfold AuthProvider.loginWithMicrosoft. apply loading_bracket; frame.
  - unfold AuthProvider.logout. apply loading_bracket; frame.
  - intros w a w' H.
    pose proof (refreshToken_returned_loading _ _ _ _ H) as Hl.
    unfold loading in Hl. split; congruence.
  - intros w e w' H.
    destruct (refreshToken_thrown render w e w' H) as (w1 & _ & Hl).
    destruct (logout_returns render w1) as (w2 & Hl' & Hs).
    rewrite Hl in Hl'. injection Hl' as <-. rewrite Hs. reflexivity.
Qed.

End Loading.

(** The gateway will accept the refresh of the session in memory. *)
Definition refreshAccepted : World := with_server acceptsRefresh inSession.

(** The same while another operation has set the loading flag. *)
Definition busy : SessionState :=
  {| user := Some alice; tokens := Some firstSession; isLoading := true; error := None |}.

Definition refreshAcceptedWhileBusy : World :=
  with_state (fun _ => busy) refreshAccepted.

Lemma loading_discipline_witness :
  isLoading (state (snd (AuthProvider.refreshToken busy refreshAcceptedWhileBusy)))
  = isLoading (state refreshAcceptedWhileBusy)
  /\ isLoading (state (snd (AuthProvider.refreshToken signedIn refreshRejected))) = false.
Proof.
  destruct (loading_discipline defaultConfig busy) as (_ & _ & _ & _ & _ & Hok & _).
  destruct (loading_discipline defaultConfig signedIn) as (_ & _ & _ & _ & _ & _ & Hko).
  split.
  - apply (Hok refreshAcceptedWhileBusy tt
             (snd (AuthProvider.refreshToken busy refreshAcceptedWhileBusy))).
    vm_compute; reflexivity.
  - apply (Hko refreshRejected (Error "Invalid refresh token")
             (snd (AuthProvider.refreshToken signedIn refreshRejected))).
    vm_compute; reflexivity.
Defined.

(** C6 as the spec words it fails: a [refreshToken] that succeeds never sets
    [loading], neither to true at entry nor to false at exit; entered with
    [loading] true it exits with [loading] true. *)
Lemma refreshToken_ignores_loading :
  fst (AuthProvider.refreshToken signedIn refreshAccepted) = Returned tt
  /\ events (snd (AuthProvider.refreshToken signedIn refreshAccepted))
     = [Fetch {| url := "https://api.example.com/auth/refresh"; method := "POST";
                 bearer := None; body := BodyRefresh "rt-1" |};
        SetTokens (Some {| accessToken := "at-2"; refreshToken := Some "rt-2";
                           idToken := None;
                           expiresAt := 1700000000000 + 3600 * 1000 |});
        SetUser (Some alice)]
  /\ fst (AuthProvider.refreshToken busy refreshAcceptedWhileBusy) = Returned tt
  /\ isLoading (state (snd (AuthProvider.refreshToken busy refreshAcceptedWhileBusy)))
     = true.
Proof. repeat split; vm_compute; reflexivity. Qed.

(** Scenario D of the spec: the gateway rejects the credentials. *)
Definition rejectsLogin : World :=
  with_server
    {| session_replies := [NotOk (Some "Invalid credentials")];
       refresh_replies := []; logout_replies := []; profile_replies := [] |}
    (with_state (fun _ => {| user := None; tokens := None;
                             isLoading := false; error := None |})
       (with_apiConfig (Some defaultConfig) freshInstall)).

Example login_rejected :
  let run :=
    AuthProvider.login {| login_email := "a@b.com"; password := "x" |} rejectsLogin in
  fst run = Thrown (Error "Invalid credentials")
  /\ state (snd run)
     = {| user := None; tokens := None; isLoading := false;
          error := Some "Invalid credentials" |}
  /\ secureStore (snd run) = ∅
  /\ loading_writes (events (snd run)) = [true; false].
Proof. repeat split; vm_compute; reflexivity. Qed.

(** ** SessionController: biometrics *)

(** The credential in the secure store, when there is one that decodes. *)
Definition stored_credential `{!Json BiometricCredentials} (w : World)
    : option BiometricCredentials :=
  match secureStore w !! BIOMETRIC_CREDENTIALS with
  | Some text => parse text
  | None => None
  end.

(** The frame of a credential that is not deleted: an entry that is stored
    before is stored after. *)
Definition keeps_credential (w w' : World) : Prop :=
  is_Some (secureStore w !! BIOMETRIC_CREDENTIALS) ->
  is_Some (secureStore w' !! BIOMETRIC_CREDENTIALS).

#[export] Instance keeps_credential_frame : Frame keeps_credential.
Proof. split; unfold keeps_credential; auto. Qed.

#[export] Instance keeps_credential_device : DeviceStable keeps_credential.
Proof. split; intros; intros H; exact H. Qed.

#[export] Instance keeps_credential_setter : SetterStable keeps_credential.
Proof. split; intros; intros H; exact H. Qed.

Section CredentialKept.
Context `{!Json AuthTokens, !Json User, !Json BiometricCredentials}.

Lemma setItemAsync_keeps k v : respects keeps_credential (SecureStore.setItemAsync k v).
Proof.
  intros w. unfold SecureStore.setItemAsync, bind, next_fault, modify, throw.
  destruct (storeFaults w) as [|[|] fs]; simpl; intros H; try exact H;
    apply lookup_insert_is_Some'; right; exact H.
Qed.

Lemma getItemAsync_keeps k : respects keeps_credential (SecureStore.getItemAsync k).
Proof.
  intros w. unfold SecureStore.getItemAsync, bind, next_fault, get_world, ret, throw.
  destruct (storeFaults w) as [|[|] fs]; simpl; intros H; exact H.
Qed.

Lemma deleteItemAsync_keeps k :
  k <> BIOMETRIC_CREDENTIALS -> respects keeps_credential (SecureStore.deleteItemAsync k).
Proof.
  intros Hk w.
  unfold keeps_credential, SecureStore.deleteItemAsync, bind, next_fault, modify, throw.
  destruct (storeFaults w) as [|[|] fs]; simpl; intros H; try exact H;
    rewrite lookup_delete_ne by exact Hk; exact H.
Qed.

Lemma setItem_keeps k v : respects keeps_credential (AsyncStorage.setItem k v).
Proof.
  intros w. unfold AsyncStorage.setItem, bind, next_fault, modify, throw.
  destruct (storeFaults w) as [|[|] fs]; simpl; intros H; exact H.
Qed.

Lemma getItem_keeps k : respects keeps_credential (AsyncStorage.getItem k).
Proof.
  intros w. unfold AsyncStorage.getItem, bind, next_fault, get_world, ret, throw.
  destruct (storeFaults w) as [|[|] fs]; simpl; intros H; exact H.
Qed.

Lemma removeItem_keeps k : respects keeps_credential (AsyncStorage.removeItem k).
Proof.
  intros w. unfold AsyncStorage.removeItem, bind, next_fault, modify, throw.
  destruct (storeFaults w) as [|[|] fs]; simpl; intros H; exact H.
Qed.

Lemma deleteItemAsync_TOKENS_keeps :
  respects keeps_credential (SecureStore.deleteItemAsync TOKENS).
Proof. apply deleteItemAsync_keeps. discriminate. Qed.

Lemma deleteItemAsync_REFRESH_TOKEN_keeps :
  respects keeps_credential (SecureStore.deleteItemAsync REFRESH_TOKEN).
Proof. apply deleteItemAsync_keeps. discriminate. Qed.

(** Goals on what keeps the credential: by the calls of the stores above. *)
Ltac keeps :=
  pose proof setItemAsync_keeps; pose proof getItemAsync_keeps;
  pose proof deleteItemAsync_TOKENS_keeps; pose proof deleteItemAsync_REFRESH_TOKEN_keeps;
  pose proof setItem_keeps; pose proof getItem_keeps; pose proof removeItem_keeps;
  frame.

Lemma storeTokens_keeps t : respects keeps_credential (AuthStorage.storeTokens t).
Proof. unfold AuthStorage.storeTokens. keeps. Qed.

Lemma getTokens_keeps : respects keeps_credential AuthStorage.getTokens.
Proof. unfold AuthStorage.getTokens. keeps. Qed.

Lemma clearTokens_keeps : respects keeps_credential AuthStorage.clearTokens.
Proof. unfold AuthStorage.clearTokens. keeps. Qed.

Lemma storeUser_keeps u : respects keeps_credential (AuthStorage.storeUser u).
Proof. unfold AuthStorage.storeUser. keeps. Qed.

Lemma getUser_keeps : respects keeps_credential AuthStorage.getUser.
Proof. unfold AuthStorage.getUser. keeps. Qed.

Lemma clearUser_keeps : respects keeps_credential AuthStorage.clearUser.
Proof. unfold AuthStorage.clearUser. keeps. Qed.

Lemma isBiometricEnabled_keeps : respects keeps_credential AuthStorage.isBiometricEnabled.
Proof. unfold AuthStorage.isBiometricEnabled. keeps. Qed.

Lemma setBiometricEnabled_keeps b :
  respects keeps_credential (AuthStorage.setBiometricEnabled b).
Proof. unfold AuthStorage.setBiometricEnabled. keeps. Qed.

Lemma storeBiometricCredentials_keeps c :
  respects keeps_credential (AuthStorage.storeBiometricCredentials c).
Proof. unfold AuthStorage.storeBiometricCredentials. keeps. Qed.

Lemma getBiometricCredentials_keeps :
  respects keeps_credential AuthStorage.getBiometricCredentials.
Proof. unfold AuthStorage.getBiometricCredentials. keeps. Qed.

Lemma adopt_keeps r : respects keeps_credential (AuthProvider.adopt r).
Proof.
  pose proof storeTokens_keeps. pose proof storeUser_keeps.
  unfold AuthProvider.adopt. frame.
Qed.

Lemma login_keeps c : respects keeps_credential (AuthProvider.login c).
Proof. pose proof adopt_keeps. unfold AuthProvider.login. frame. Qed.

Lemma loginWithBiometrics_keeps config :
  respects keeps_credential (AuthProvider.loginWithBiometrics config).
Proof.
  pose proof adopt_keeps. pose proof isBiometricEnabled_keeps.
  pose proof getBiometricCredentials_keeps.
  unfold AuthProvider.loginWithBiometrics. frame.
Qed.

Lemma loginWithGoogle_keeps config :
  respects keeps_credential (AuthProvider.loginWithGoogle config).
Proof. pose proof adopt_keeps. unfold AuthProvider.loginWithGoogle. frame. Qed.

Lemma loginWithMicrosoft_keeps config :
  respects keeps_credential (AuthProvider.loginWithMicrosoft config).
Proof. pose proof adopt_keeps. unfold AuthProvider.loginWithMicrosoft. frame. Qed.

Lemma enableBiometrics_keeps render :
  respects keeps_credential (AuthProvider.enableBiometrics render).
Proof.
  pose proof storeBiometricCredentials_keeps. pose proof setBiometricEnabled_keeps.
  unfold AuthProvider.enableBiometrics. frame.
Qed.

Lemma disableBiometrics_keeps : respects keeps_credential AuthProvider.disableBiometrics.
Proof.
  pose proof setBiometricEnabled_keeps. unfold AuthProvider.disableBiometrics. frame.
Qed.

(** [refreshToken] deletes nothing either unless it fails, when it runs
    [logout]. *)
Lemma refreshToken_returned_keeps (render : SessionState) (w : World) a w' :
  AuthProvider.refreshToken render w = (Returned a, w') -> keeps_credential w w'.
Proof.
  unfold AuthProvider.refreshToken. intros H.
  destruct (try_catch_inv _ _ _ _ _ H) as [(a' & Hbody & _)|(e & w1 & _ & Hh)].
  - eapply (respects_run keeps_credential); [|exact Hbody].
    pose proof storeTokens_keeps. pose proof storeUser_keeps. frame.
  - destruct (bind_inv _ _ _ _ _ Hh) as [(u & w2 & _ & Ht)|(e' & _ & He)];
      discriminate.
Qed.

End CredentialKept.

Section Biometrics.
Context `{!Json AuthTokens, !Json User, !Json BiometricCredentials}.

Lemma disableBiometrics_returned (w w' : World) :
  AuthProvider.disableBiometrics w = (Returned tt, w') ->
  asyncStorage w' = <[BIOMETRIC_ENABLED := "false"]> (asyncStorage w)
  /\ secureStore w' = secureStore w.
Proof.
  unfold AuthProvider.disableBiometrics. intros H.
  destruct (try_catch_inv _ _ _ _ _ H) as [(a & Hc & _)|(e & w1 & _ & Hh)].
  - destruct a. exact (setBiometricEnabled_returned false _ _ Hc).
  - destruct (bind_inv _ _ _ _ _ Hh) as [(u & w2 & _ & Ht)|(e' & _ & He)];
      discriminate.
Qed.

(** C4, amended.  [disableBiometrics()] completes whenever the store takes
    the write.  Once it has completed, the biometric-enabled flag is false
    in the store and for [isBiometricEnabled], and the secure store is what
    it was: the stored credential is not deleted.  Nor is it by any other
    operation of [AuthStorage] but [clearAll], nor by any function of the
    provider but those that run [clearAll]: a credential that is stored
    before [login], [loginWithBiometrics], [loginWithGoogle],
    [loginWithMicrosoft], [enableBiometrics], [disableBiometrics],
    [clearError] or a [refreshToken] that returns is stored after, however
    they end.
    [clearAll] and [logout] delete it, on a store that works. *)
Theorem disableBiometrics_keeps_credential (w : World) :
  (reliable w -> exists w', AuthProvider.disableBiometrics w = (Returned tt, w'))
  /\ (forall w',
        AuthProvider.disableBiometrics w = (Returned tt, w') ->
        asyncStorage w' !! BIOMETRIC_ENABLED = Some "false"
        /\ fst (AuthStorage.isBiometricEnabled w') = Returned false
        /\ secureStore w' = secureStore w
        /\ stored_credential w' = stored_credential w)
  /\ ((forall t, respects keeps_credential (AuthStorage.storeTokens t))
      /\ respects keeps_credential AuthStorage.getTokens
      /\ respects keeps_credential AuthStorage.clearTokens
      /\ (forall u, respects keeps_credential (AuthStorage.storeUser u))
      /\ respects keeps_credential AuthStorage.getUser
      /\ respects keeps_credential AuthStorage.clearUser
      /\ respects keeps_credential AuthStorage.isBiometricEnabled
      /\ (forall b, respects keeps_credential (AuthStorage.setBiometricEnabled b))
      /\ (forall c, respects keeps_credential (AuthStorage.storeBiometricCredentials c))
      /\ respects keeps_credential AuthStorage.getBiometricCredentials)
  /\ ((forall c, respects keeps_credential (AuthProvider.login c))
      /\ (forall config, respects keeps_credential (AuthProvider.loginWithBiometrics config))
      /\ (forall config, respects keeps_credential (AuthProvider.loginWithGoogle config))
      /\ (forall config, respects keeps_credential (AuthProvider.loginWithMicrosoft config))
      /\ (forall render, respects keeps_credential (AuthProvider.enableBiometrics render))
      /\ respects keeps_credential AuthProvider.disableBiometrics
      /\ respects keeps_credential AuthProvider.clearError
      /\ (forall render w0 a w',
            AuthProvider.refreshToken render w0 = (Returned a, w') ->
            keeps_credential w0 w'))
  /\ (reliable w ->
      secureStore (snd (AuthStorage.clearAll w)) !! BIOMETRIC_CREDENTIALS = None
      /\ (forall render,
            secureStore (snd (AuthProvider.logout render w)) !! BIOMETRIC_CREDENTIALS
            = None)).
Proof.
  split; [|split; [|split; [|split]]].
  - intros Hw. eexists. unfold AuthProvider.disableBiometrics.
    apply try_catch_returned. apply setBiometricEnabled_reliable. exact Hw.
  - intros w' H. destruct (disableBiometrics_returned w w' H) as [Ha Hs].
    assert (Hf : asyncStorage w' !! BIOMETRIC_ENABLED = Some "false")
      by (rewrite Ha; apply lookup_insert_eq).
    split; [exact Hf|]. split; [|split].
    + destruct (isBiometricEnabled_reads w') as [Hr|Hr]; rewrite Hr; [|reflexivity].
      simpl. rewrite Hf. reflexivity.
    + exact Hs.
    + unfold stored_credential. rewrite Hs. reflexivity.
  - split; [apply storeTokens_keeps|]. split; [apply getTokens_keeps|].
    split; [apply clearTokens_keeps|]. split; [apply storeUser_keeps|].
    split; [apply getUser_keeps|]. split; [apply clearUser_keeps|].
    split; [apply isBiometricEnabled_keeps|].
    split; [apply setBiometricEnabled_keeps|].
    split; [apply storeBiometricCredentials_keeps|apply getBiometricCredentials_keeps].
  - split; [apply login_keeps|]. split; [apply loginWithBiometrics_keeps|].
    split; [apply loginWithGoogle_keeps|]. split; [apply loginWithMicrosoft_keeps|].
    split; [apply enableBiometrics_keeps|]. split; [apply disableBiometrics_keeps|].
    split; [unfold AuthProvider.clearError; frame|].
    apply refreshToken_returned_keeps.
  - intros Hw. split.
    + destruct (clearAll_reliable w Hw) as (w' & Hc & Hsec & _).
      rewrite Hc. cbn [snd]. rewrite Hsec. apply lookup_delete_eq.
    + intros render.
      destruct (logout_reliable render w Hw) as (w' & Hl & _ & Hsec & _).
      rewrite Hl. cbn [snd]. rewrite Hsec. apply lookup_delete_eq.
Qed.

Lemma enableBiometrics_returned_true (render : SessionState) (w w' : World) :
  AuthProvider.enableBiometrics render w = (Returned true, w') ->
  exists u,
    user render = Some u
    /\ truthy (email u) = true
    /\ secureStore w' !! BIOMETRIC_CREDENTIALS
       = Some (stringify {| credential_email := email u;
                            hashedPassword := "hashed_password_placeholder" |})
    /\ asyncStorage w' !! BIOMETRIC_ENABLED = Some "true".
Proof.
  unfold AuthProvider.enableBiometrics. intros H.
  destruct (try_catch_inv _ _ _ _ _ H) as [(a & Hbody & Ha)|(e & w1 & _ & Hh)].
  - injection Ha as <-.
    destruct (bind_inv_returned _ _ _ _ _ Hbody) as (caps & w1 & _ & H1).
    destruct (negb (isAvailable caps)); [discriminate|].
    destruct (bind_inv_returned _ _ _ _ _ H1) as ([] & w2 & _ & H2).
    destruct (user render) as [u|]; [|discriminate].
    exists u. split; [reflexivity|].
    destruct (truthy (email u)); [|discriminate]. split; [reflexivity|].
    simpl in H2.
    destruct (bind_inv_returned _ _ _ _ _ H2) as ([] & w3 & Hstore & H3).
    destruct (bind_inv_returned _ _ _ _ _ H3) as ([] & w4 & Hflag & H4).
    injection H4 as <-.
    destruct (storeBiometricCredentials_returned _ _ _ Hstore) as [Hs3 _].
    destruct (setBiometricEnabled_returned _ _ _ Hflag) as [Ha4 Hs4].
    split.
    + rewrite Hs4, Hs3. apply lookup_insert_eq.
    + rewrite Ha4. apply lookup_insert_eq.
  - destruct (bind_inv_returned _ _ _ _ _ Hh) as (u & w2 & _ & Ht). discriminate.
Qed.

(** C10.  Every [enableBiometrics()] that returns true has stored a
    credential whose [hashedPassword] is the fixed placeholder, next to the
    email of the user in memory; so the values stored in any two sessions
    are the same, whatever the passwords of their users. *)
Theorem enableBiometrics_placeholder
    (render1 render2 : SessionState) (w1 w1' w2 w2' : World) :
  AuthProvider.enableBiometrics render1 w1 = (Returned true, w1') ->
  AuthProvider.enableBiometrics render2 w2 = (Returned true, w2') ->
  exists c1 c2,
    stored_credential w1' = Some c1
    /\ stored_credential w2' = Some c2
    /\ hashedPassword c1 = "hashed_password_placeholder"
    /\ hashedPassword c2 = hashedPassword c1
    /\ Some (credential_email c1) = email <$> user render1
    /\ Some (credential_email c2) = email <$> user render2.
Proof.
  intros H1 H2.
  destruct (enableBiometrics_returned_true _ _ _ H1) as (u1 & Hu1 & _ & Hs1 & _).
  destruct (enableBiometrics_returned_true _ _ _ H2) as (u2 & Hu2 & _ & Hs2 & _).
  eexists _, _. unfold stored_credential.
  rewrite Hs1, Hs2, !parse_stringify, Hu1, Hu2. repeat split.
Qed.

End Biometrics.


(** A device with biometrics enrolled and a user who consents. *)
Definition biometricReady : World :=
  with_biometricPrompts [AuthResult true EmptyString]
    (with_probes [ProbeResult true true [1]; ProbeResult true true [1]] inSession).

Definition biometricEnabled : World :=
  snd (AuthProvider.enableBiometrics signedIn biometricReady).

Lemma disableBiometrics_keeps_credential_witness :
  asyncStorage (snd (AuthProvider.disableBiometrics biometricEnabled))
    !! BIOMETRIC_ENABLED = Some "false"
  /\ stored_credential (snd (AuthProvider.disableBiometrics biometricEnabled))
     = stored_credential biometricEnabled.
Proof.
  assert (Hrun : AuthProvider.disableBiometrics biometricEnabled
                 = (Returned tt, snd (AuthProvider.disableBiometrics biometricEnabled)))
    by (vm_compute; reflexivity).
  destruct (disableBiometrics_keeps_credential biometricEnabled) as (_ & Hkeeps & _).
  destruct (Hkeeps _ Hrun) as (Hf & _ & _ & Hc).
  split; [exact Hf|exact Hc].
Defined.

(** C4 as the spec words it fails: biometrics are enabled, then disabled,
    and the credential is still read from the secure store. *)
Lemma disableBiometrics_leaves_credential :
  fst (AuthProvider.enableBiometrics signedIn biometricReady) = Returned true
  /\ fst (AuthProvider.disableBiometrics biometricEnabled) = Returned tt
  /\ fst (AuthStorage.isBiometricEnabled
            (snd (AuthProvider.disableBiometrics biometricEnabled)))
     = Returned false
  /\ fst (AuthStorage.getBiometricCredentials
            (snd (AuthProvider.disableBiometrics biometricEnabled)))
     = Returned (Some {| credential_email := "a@b.com";
                         hashedPassword := "hashed_password_placeholder" |}).
Proof. repeat split; vm_compute; reflexivity. Qed.

(** Two sessions of the same account opened with different passwords, on a
    device with biometrics enrolled. *)
Definition readyToLogin : World :=
  with_server
    {| session_replies :=
         [Ok2xx {| data_user := alice; data_accessToken := "at-1";
                   data_refreshToken := Some "rt-1"; data_expiresIn := 3600 |}];
       refresh_replies := []; logout_replies := []; profile_replies := [] |}
    (with_biometricPrompts [AuthResult true EmptyString]
       (with_probes [ProbeResult true true [1]; ProbeResult true true [1]]
          (with_apiConfig (Some defaultConfig) freshInstall))).

Definition sessionWith (pw : string) : World :=
  snd (AuthProvider.login {| login_email := "a@b.com"; password := pw |} readyToLogin).

Lemma enableBiometrics_placeholder_witness :
  exists c1 c2,
    stored_credential
      (snd (call AuthProvider.enableBiometrics (sessionWith "correct horse"))) = Some c1
    /\ stored_credential
         (snd (call AuthProvider.enableBiometrics (sessionWith "battery staple"))) = Some c2
    /\ hashedPassword c1 = "hashed_password_placeholder"
    /\ hashedPassword c2 = hashedPassword c1
    /\ Some (credential_email c1) = email <$> user (state (sessionWith "correct horse"))
    /\ Some (credential_email c2) = email <$> user (state (sessionWith "battery staple")).
Proof.
  apply (enableBiometrics_placeholder
           (state (sessionWith "correct horse")) (state (sessionWith "battery staple"))
           (sessionWith "correct horse") _ (sessionWith "battery staple") _);
    vm_compute; reflexivity.
Defined.

(** * Further properties of the code *)

(** ** storage.ts: reads *)

Section Reads.
Context `{!Json AuthTokens, !Json User, !Json BiometricCredentials}.

(** X1.  [getTokens] never raises and writes to neither store.  It answers
    absent when the read of the record faults, when the entry is missing or
    empty, when its text does not decode, and also when the record is fine
    but the read of the separate refresh token faults. *)
Theorem getTokens_answers (w : World) :
  (exists v w',
     AuthStorage.getTokens w = (Returned v, w')
     /\ secureStore w' = secureStore w /\ asyncStorage w' = asyncStorage w)
  /\ (forall fs, storeFaults w = true :: fs ->
        fst (AuthStorage.getTokens w) = Returned None)
  /\ (truthy_opt (secureStore w !! TOKENS) = false ->
        fst (AuthStorage.getTokens w) = Returned None)
  /\ (parse (A := AuthTokens) (default EmptyString (secureStore w !! TOKENS)) = None ->
        fst (AuthStorage.getTokens w) = Returned None)
  /\ (forall fs, storeFaults w = false :: true :: fs ->
        fst (AuthStorage.getTokens w) = Returned None).
Proof.
  unfold AuthStorage.getTokens, SecureStore.getItemAsync, try_catch, bind,
    next_fault, get_world, ret, throw.
  split; [|split; [|split; [|split]]].
  - destruct (storeFaults w) as [|[|] fs] eqn:Hf; simpl; eauto;
      destruct (truthy_opt (secureStore w !! TOKENS)); simpl; eauto;
      destruct (parse (default EmptyString (secureStore w !! TOKENS))); simpl; eauto;
      rewrite ?Hf; simpl;
      try (destruct fs as [|[|] fs']; simpl; eauto);
      destruct (truthy_opt (secureStore w !! REFRESH_TOKEN)); simpl; eauto.
  - intros fs ->. reflexivity.
  - intros Hm. destruct (storeFaults w) as [|[|] fs]; simpl; rewrite ?Hm; reflexivity.
  - intros Hp. destruct (storeFaults w) as [|[|] fs]; simpl; try reflexivity;
      destruct (truthy_opt (secureStore w !! TOKENS)); simpl; rewrite ?Hp; reflexivity.
  - intros fs ->. simpl.
    destruct (truthy_opt (secureStore w !! TOKENS)); simpl; [|reflexivity].
    destruct (parse (default EmptyString (secureStore w !! TOKENS))); reflexivity.
Qed.

Lemma getItem_runs k w :
  AsyncStorage.getItem k w = (Returned (asyncStorage w !! k), after_fault w)
  \/ AsyncStorage.getItem k w = (Thrown AsyncStorage.fault, after_fault w).
Proof.
  unfold AsyncStorage.getItem, bind, next_fault, after_fault, get_world, ret, throw.
  destruct (storeFaults w) as [|[|] fs]; simpl; auto.
Qed.

Lemma getItemAsync_runs k w :
  SecureStore.getItemAsync k w = (Returned (secureStore w !! k), after_fault w)
  \/ SecureStore.getItemAsync k w = (Thrown SecureStore.fault, after_fault w).
Proof.
  unfold SecureStore.getItemAsync, bind, next_fault, after_fault, get_world, ret, throw.
  destruct (storeFaults w) as [|[|] fs]; simpl; auto.
Qed.

Lemma after_fault_stores w :
  secureStore (after_fault w) = secureStore w
  /\ asyncStorage (after_fault w) = asyncStorage w.
Proof. unfold after_fault. destruct (storeFaults w); split; reflexivity. Qed.

Lemma isBiometricEnabled_runs w :
  exists b,
    AuthStorage.isBiometricEnabled w = (Returned b, after_fault w)
    /\ (b = true -> asyncStorage w !! BIOMETRIC_ENABLED = Some "true")
    /\ (asyncStorage w !! BIOMETRIC_ENABLED = Some "true" ->
        AsyncStorage.getItem BIOMETRIC_ENABLED w
        = (Returned (asyncStorage w !! BIOMETRIC_ENABLED), after_fault w) ->
        b = true).
Proof.
  unfold AuthStorage.isBiometricEnabled, try_catch.
  destruct (getItem_runs BIOMETRIC_ENABLED w) as [Hr|Hr].
  - rewrite (bind_returned _ _ _ _ _ Hr). eexists. split; [reflexivity|]. split.
    + intros Hb. apply bool_decide_eq_true_1 in Hb. exact Hb.
    + intros Hf _. apply bool_decide_eq_true_2. exact Hf.
  - rewrite (bind_thrown _ _ _ _ _ Hr). eexists. split; [reflexivity|].
    split; [discriminate|]. intros _ Hr'. rewrite Hr in Hr'. discriminate.
Qed.

Lemma reads_faulted w fs :
  storeFaults w = true :: fs ->
  fst (AuthStorage.getUser w) = Returned None
  /\ fst (AuthStorage.getBiometricCredentials w) = Returned None
  /\ fst (AuthStorage.isBiometricEnabled w) = Returned false.
Proof.
  intros Hf.
  unfold AuthStorage.getUser, AuthStorage.getBiometricCredentials,
    AuthStorage.isBiometricEnabled, AsyncStorage.getItem, SecureStore.getItemAsync,
    try_catch, bind, next_fault, get_world, ret, throw.
  rewrite Hf. repeat split.
Qed.

Lemma reads_answered w :
  head (storeFaults w) <> Some true ->
  fst (AuthStorage.getUser w)
  = Returned (if truthy_opt (asyncStorage w !! USER)
              then parse (default EmptyString (asyncStorage w !! USER))
              else None)
  /\ fst (AuthStorage.getBiometricCredentials w)
     = Returned (if truthy_opt (secureStore w !! BIOMETRIC_CREDENTIALS)
                 then parse (default EmptyString
                               (secureStore w !! BIOMETRIC_CREDENTIALS))
                 else None)
  /\ fst (AuthStorage.isBiometricEnabled w)
     = Returned (bool_decide (asyncStorage w !! BIOMETRIC_ENABLED = Some "true")).
Proof.
  intros Hf.
  unfold AuthStorage.getUser, AuthStorage.getBiometricCredentials,
    AuthStorage.isBiometricEnabled, AsyncStorage.getItem, SecureStore.getItemAsync,
    try_catch, bind, next_fault, get_world, ret, throw.
  destruct (storeFaults w) as [|[|] fs]; simpl in *; [|congruence|].
  - split; [|split; [|reflexivity]].
    + destruct (truthy_opt (asyncStorage w !! USER)); [|reflexivity].
      destruct (parse (default EmptyString (asyncStorage w !! USER))); reflexivity.
    + destruct (truthy_opt (secureStore w !! BIOMETRIC_CREDENTIALS)); [|reflexivity].
      destruct (parse (default EmptyString (secureStore w !! BIOMETRIC_CREDENTIALS)));
        reflexivity.
  - split; [|split; [|reflexivity]].
    + destruct (truthy_opt (asyncStorage w !! USER)); [|reflexivity].
      destruct (parse (default EmptyString (asyncStorage w !! USER))); reflexivity.
    + destruct (truthy_opt (secureStore w !! BIOMETRIC_CREDENTIALS)); [|reflexivity].
      destruct (parse (default EmptyString (secureStore w !! BIOMETRIC_CREDENTIALS)));
        reflexivity.
Qed.

(** X2.  [getUser], [getBiometricCredentials] and [isBiometricEnabled]
    never raise and write to neither store; a read that faults, a missing
    entry and a text that does not decode all give absent, and the flag is
    true only when the text stored is exactly [true].  When the read does
    not fault they give what the entry decodes to, and whether the flag
    stored is [true]. *)
Theorem reads_never_raise (w : World) :
  (exists v,
     AuthStorage.getUser w = (Returned v, after_fault w)
     /\ (v <> None ->
         truthy_opt (asyncStorage w !! USER) = true
         /\ parse (default EmptyString (asyncStorage w !! USER)) = v))
  /\ (exists v,
        AuthStorage.getBiometricCredentials w = (Returned v, after_fault w)
        /\ (v <> None ->
            truthy_opt (secureStore w !! BIOMETRIC_CREDENTIALS) = true
            /\ parse (default EmptyString (secureStore w !! BIOMETRIC_CREDENTIALS)) = v))
  /\ (exists b,
        AuthStorage.isBiometricEnabled w = (Returned b, after_fault w)
        /\ (b = true -> asyncStorage w !! BIOMETRIC_ENABLED = Some "true"))
  /\ (secureStore (after_fault w) = secureStore w
      /\ asyncStorage (after_fault w) = asyncStorage w)
  /\ (forall fs,
        storeFaults w = true :: fs ->
        fst (AuthStorage.getUser w) = Returned None
        /\ fst (AuthStorage.getBiometricCredentials w) = Returned None
        /\ fst (AuthStorage.isBiometricEnabled w) = Returned false)
  /\ (truthy_opt (asyncStorage w !! USER) = false
      \/ parse (A := User) (default EmptyString (asyncStorage w !! USER)) = None ->
      fst (AuthStorage.getUser w) = Returned None)
  /\ (truthy_opt (secureStore w !! BIOMETRIC_CREDENTIALS) = false
      \/ parse (A := BiometricCredentials)
           (default EmptyString (secureStore w !! BIOMETRIC_CREDENTIALS)) = None ->
      fst (AuthStorage.getBiometricCredentials w) = Returned None)
  /\ (asyncStorage w !! BIOMETRIC_ENABLED <> Some "true" ->
      fst (AuthStorage.isBiometricEnabled w) = Returned false)
  /\ (head (storeFaults w) <> Some true ->
      fst (AuthStorage.getUser w)
      = Returned (if truthy_opt (asyncStorage w !! USER)
                  then parse (default EmptyString (asyncStorage w !! USER))
                  else None)
      /\ fst (AuthStorage.getBiometricCredentials w)
         = Returned (if truthy_opt (secureStore w !! BIOMETRIC_CREDENTIALS)
                     then parse (default EmptyString
                                   (secureStore w !! BIOMETRIC_CREDENTIALS))
                     else None)
      /\ fst (AuthStorage.isBiometricEnabled w)
         = Returned (bool_decide (asyncStorage w !! BIOMETRIC_ENABLED = Some "true"))).
Proof.
  assert (Hcases : head (storeFaults w) <> Some true
                   \/ exists fs, storeFaults w = true :: fs).
  { destruct (storeFaults w) as [|[|] fs]; simpl; [left|right|left];
      try discriminate. eauto. }
  split; [|split; [|split; [|split; [apply after_fault_stores|]]]].
  4:{ split; [apply reads_faulted|].
      split; [|split; [|split; [|apply reads_answered]]].
      - intros Hu. destruct Hcases as [Hok|[fs Hf]].
        + destruct (reads_answered w Hok) as (-> & _ & _).
          destruct Hu as [->| ->]; [reflexivity|].
          destruct (truthy_opt (asyncStorage w !! USER)); reflexivity.
        + apply (reads_faulted w fs Hf).
      - intros Hc. destruct Hcases as [Hok|[fs Hf]].
        + destruct (reads_answered w Hok) as (_ & -> & _).
          destruct Hc as [->| ->]; [reflexivity|].
          destruct (truthy_opt (secureStore w !! BIOMETRIC_CREDENTIALS)); reflexivity.
        + apply (reads_faulted w fs Hf).
      - intros Hb. destruct Hcases as [Hok|[fs Hf]].
        + destruct (reads_answered w Hok) as (_ & _ & ->).
          rewrite bool_decide_eq_false_2 by exact Hb. reflexivity.
        + apply (reads_faulted w fs Hf). }
  - unfold AuthStorage.getUser, try_catch.
    destruct (getItem_runs USER w) as [Hr|Hr].
    + rewrite (bind_returned _ _ _ _ _ Hr).
      destruct (truthy_opt (asyncStorage w !! USER)); [|eexists; split; [reflexivity|congruence]].
      destruct (parse (default EmptyString (asyncStorage w !! USER))) as [u|];
        eexists; (split; [reflexivity|]); [auto|congruence].
    + rewrite (bind_thrown _ _ _ _ _ Hr). eexists. split; [reflexivity|congruence].
  - unfold AuthStorage.getBiometricCredentials, try_catch.
    destruct (getItemAsync_runs BIOMETRIC_CREDENTIALS w) as [Hr|Hr].
    + rewrite (bind_returned _ _ _ _ _ Hr).
      destruct (truthy_opt (secureStore w !! BIOMETRIC_CREDENTIALS));
        [|eexists; split; [reflexivity|congruence]].
      destruct (parse (default EmptyString (secureStore w !! BIOMETRIC_CREDENTIALS)))
        as [c|]; eexists; (split; [reflexivity|]); [auto|congruence].
    + rewrite (bind_thrown _ _ _ _ _ Hr). eexists. split; [reflexivity|congruence].
  - destruct (isBiometricEnabled_runs w) as (b & Hr & Hb & _). eauto.
Qed.

End Reads.

(** ** storage.ts: writes and deletions *)

Section Writes.
Context `{!Json AuthTokens, !Json User, !Json BiometricCredentials}.

(** X3.  On a store that works, whatever it held before: a user written by
    [storeUser] is the one [getUser] reads, [clearUser] leaves none, a
    credential written by [storeBiometricCredentials] is the one
    [getBiometricCredentials] reads, and [isBiometricEnabled] answers what
    [setBiometricEnabled] was given. *)
Theorem plain_roundtrips (w : World) :
  reliable w ->
  (forall u, fst ((AuthStorage.storeUser u ;; AuthStorage.getUser) w) = Returned (Some u))
  /\ fst ((AuthStorage.clearUser ;; AuthStorage.getUser) w) = Returned None
  /\ (forall c,
        fst ((AuthStorage.storeBiometricCredentials c ;;
              AuthStorage.getBiometricCredentials) w) = Returned (Some c))
  /\ (forall b,
        fst ((AuthStorage.setBiometricEnabled b ;; AuthStorage.isBiometricEnabled) w)
        = Returned b).
Proof.
  intros Hw. split; [|split; [|split]].
  - intros u. rewrite (bind_returned _ _ _ _ _ (storeUser_reliable u w Hw)).
    unfold AuthStorage.getUser, try_catch.
    erewrite bind_returned by (apply getItem_reliable; exact Hw). simpl.
    rewrite lookup_insert_eq. simpl. rewrite stringify_truthy, parse_stringify.
    reflexivity.
  - unfold AuthStorage.clearUser.
    rewrite (bind_returned _ _ _ _ _
               (try_catch_returned _ _ _ _ _ (removeItem_reliable w Hw USER))).
    unfold AuthStorage.getUser, try_catch.
    erewrite bind_returned by (apply getItem_reliable; exact Hw). simpl.
    rewrite lookup_delete_eq. reflexivity.
  - intros c. unfold AuthStorage.storeBiometricCredentials.
    rewrite (bind_returned _ _ _ _ _
               (try_catch_returned _ _ _ _ _ (setItemAsync_reliable w Hw _ _))).
    rewrite getBiometricCredentials_reliable by exact Hw. simpl.
    rewrite lookup_insert_eq. simpl. rewrite stringify_truthy, parse_stringify.
    reflexivity.
  - intros b. rewrite (bind_returned _ _ _ _ _ (setBiometricEnabled_reliable b w Hw)).
    unfold AuthStorage.isBiometricEnabled, try_catch.
    erewrite bind_returned by (apply getItem_reliable; exact Hw). simpl.
    rewrite lookup_insert_eq. destruct b; reflexivity.
Qed.

(** X4.  The writes made of one store call are all or nothing: [storeUser],
    [setBiometricEnabled] and [storeBiometricCredentials] either return with
    their one entry written and nothing else changed, or throw their own
    error, the same whatever the store threw, with both stores as they were. *)
Theorem single_writes_all_or_nothing (w : World) :
  (forall u,
     (AuthStorage.storeUser u w
      = (Returned tt, with_asyncStorage (insert USER (stringify u)) (after_fault w))
      /\ pending 0 w = false)
     \/ (AuthStorage.storeUser u w
         = (Thrown (Error "Failed to store user information"), after_fault w)
         /\ pending 0 w = true))
  /\ (forall b,
        (AuthStorage.setBiometricEnabled b w
         = (Returned tt,
            with_asyncStorage
              (insert BIOMETRIC_ENABLED (if b then "true" else "false")) (after_fault w))
         /\ pending 0 w = false)
        \/ (AuthStorage.setBiometricEnabled b w
            = (Thrown (Error "Failed to update biometric preference"), after_fault w)
            /\ pending 0 w = true))
  /\ (forall c,
        (AuthStorage.storeBiometricCredentials c w
         = (Returned tt,
            with_secureStore (insert BIOMETRIC_CREDENTIALS (stringify c)) (after_fault w))
         /\ pending 0 w = false)
        \/ (AuthStorage.storeBiometricCredentials c w
            = (Thrown (Error "Failed to store biometric credentials"), after_fault w)
            /\ pending 0 w = true))
  /\ secureStore (after_fault w) = secureStore w
  /\ asyncStorage (after_fault w) = asyncStorage w.
Proof.
  unfold AuthStorage.storeUser, AuthStorage.setBiometricEnabled,
    AuthStorage.storeBiometricCredentials, AsyncStorage.setItem,
    SecureStore.setItemAsync, try_catch, bind, next_fault, modify, throw,
    after_fault, pending.
  destruct (storeFaults w) as [|[|] fs]; simpl; repeat split; intros; auto.
Qed.

(** X5.  [clearAll] never raises and makes its five deletions one by one,
    in the order token record, refresh token, user, biometric flag,
    credential: each entry is deleted unless its own deletion faults, a fault
    stops none of the others, and no other entry is touched. *)
Theorem clearAll_best_effort (w : World) :
  exists w',
    AuthStorage.clearAll w = (Returned tt, w')
    /\ secureStore w'
       = delete_unless (pending 4 w) BIOMETRIC_CREDENTIALS
           (delete_unless (pending 1 w) REFRESH_TOKEN
              (delete_unless (pending 0 w) TOKENS (secureStore w)))
    /\ asyncStorage w'
       = delete_unless (pending 3 w) BIOMETRIC_ENABLED
           (delete_unless (pending 2 w) USER (asyncStorage w))
    /\ storeFaults w' = drop 5 (storeFaults w).
Proof.
  unfold AuthStorage.clearAll, AuthStorage.clearTokens, AuthStorage.clearUser,
    AsyncStorage.removeItem, SecureStore.deleteItemAsync, try_catch, all2, bind,
    next_fault, modify, throw, ret, pending, delete_unless.
  destruct (storeFaults w) as [|b0 [|b1 [|b2 [|b3 [|b4 fs]]]]] eqn:Hf;
    repeat match goal with b : bool |- _ => destruct b end;
    simpl; rewrite ?Hf; simpl; rewrite ?Hf; simpl; rewrite ?Hf; simpl;
    rewrite ?Hf; simpl; eexists; repeat split; exact Hf.
Qed.

(** X6.  The two tiers are kept apart: writing or clearing the token record
    and the credential never changes AsyncStorage, and writing or clearing
    the user and the biometric flag never changes the secure store, whether
    the call returns or throws. *)
Theorem tiers_kept_apart (w : World) :
  (forall t, asyncStorage (snd (AuthStorage.storeTokens t w)) = asyncStorage w)
  /\ asyncStorage (snd (AuthStorage.clearTokens w)) = asyncStorage w
  /\ (forall c,
        asyncStorage (snd (AuthStorage.storeBiometricCredentials c w)) = asyncStorage w)
  /\ (forall u, secureStore (snd (AuthStorage.storeUser u w)) = secureStore w)
  /\ secureStore (snd (AuthStorage.clearUser w)) = secureStore w
  /\ (forall b, secureStore (snd (AuthStorage.setBiometricEnabled b w)) = secureStore w).
Proof.
  unfold AuthStorage.storeTokens, AuthStorage.clearTokens,
    AuthStorage.storeBiometricCredentials, AuthStorage.storeUser,
    AuthStorage.clearUser, AuthStorage.setBiometricEnabled,
    AsyncStorage.setItem, AsyncStorage.removeItem,
    SecureStore.setItemAsync, SecureStore.deleteItemAsync,
    try_catch, all2, bind, next_fault, modify, throw, ret.
  split; [|split; [|split; [|split; [|split]]]]; intros;
    destruct (storeFaults w) as [|[|] [|[|] fs]] eqn:Hf; simpl; try reflexivity;
    try (destruct (refreshToken t) as [r|]; simpl; try reflexivity;
         destruct (truthy r); simpl; rewrite ?Hf; reflexivity);
    rewrite ?Hf; reflexivity.
Qed.

End Writes.

(** X7.  Time only moves a token record towards expiry: a record expired at
    [t] is expired at every later time, one expiring soon at [t] is expiring
    soon at every later time, and an expired record is always expiring
    soon. *)
Theorem clock_monotone (r : AuthTokens) (t t' : Z) :
  t <= t' ->
  (AuthStorage.isTokenExpired t r = true -> AuthStorage.isTokenExpired t' r = true)
  /\ (AuthStorage.isTokenExpiringSoon t r = true ->
      AuthStorage.isTokenExpiringSoon t' r = true)
  /\ (AuthStorage.isTokenExpired t r = true ->
      AuthStorage.isTokenExpiringSoon t r = true).
Proof.
  intros Ht. unfold AuthStorage.isTokenExpired, AuthStorage.isTokenExpiringSoon.
  rewrite !Z.geb_le. lia.
Qed.

Lemma clock_monotone_witness :
  AuthStorage.isTokenExpired 3600000 hourToken = true
  /\ AuthStorage.isTokenExpired 3600001 hourToken = true
  /\ AuthStorage.isTokenExpiringSoon 3600000 hourToken = true.
Proof.
  assert (Hle : 3600000 <= 3600001) by lia.
  destruct (clock_monotone hourToken 3600000 3600001 Hle) as (He & _ & Hs).
  assert (H0 : AuthStorage.isTokenExpired 3600000 hourToken = true) by reflexivity.
  split; [exact H0|]. split; [exact (He H0)|exact (Hs H0)].
Defined.

Lemma plain_roundtrips_witness :
  fst ((AuthStorage.storeUser alice ;; AuthStorage.getUser) inSession)
  = Returned (Some alice)
  /\ fst ((AuthStorage.setBiometricEnabled true ;; AuthStorage.isBiometricEnabled) inSession)
     = Returned true.
Proof.
  destruct (plain_roundtrips inSession eq_refl) as (Hu & _ & _ & Hb).
  split; [apply Hu|apply Hb].
Defined.

(** ** api.ts *)

(** The world one [fetch] later: the request is logged and the reply is
    taken off its queue. *)
Definition after_fetch {A} (replies : Server -> list (Reply A))
    (rest : list (Reply A) -> Server -> Server) (r : Request) (w : World) : World :=
  with_server (rest (snd (pop_reply (replies (server w)))) (server w))
    (with_event (Fetch r) w).

(** The reply the next request of a family will get. *)
Definition next_reply {A} (replies : Server -> list (Reply A)) (w : World) : Reply A :=
  fst (pop_reply (replies (server w))).

Lemma fetch_run {A} (replies : Server -> list (Reply A)) rest r w :
  fetch replies rest r w
  = (match next_reply replies w with
     | NetworkDown e => Thrown e
     | NotOk m => Returned (inl m)
     | Ok2xx b => Returned (inr b)
     end, after_fetch replies rest r w).
Proof.
  unfold fetch, next_reply, after_fetch. simpl.
  destruct (pop_reply (replies (server w))) as [[e|m|b] l]; reflexivity.
Qed.

Lemma config_apiBaseUrl_run w cfg :
  apiConfig w = Some cfg -> AuthAPI.config_apiBaseUrl w = (Returned (apiBaseUrl cfg), w).
Proof.
  intros Hc. unfold AuthAPI.config_apiBaseUrl, bind, get_world. rewrite Hc. reflexivity.
Qed.

Lemma or_else_truthy o d : truthy d = true -> truthy (or_else o d) = true.
Proof.
  intros Hd. unfold or_else. destruct o as [s|]; [|exact Hd].
  destruct (truthy s) eqn:Hs; [exact Hs|exact Hd].
Qed.

(** The token record made of a 2xx body received at time [now]. *)
Definition tokens_of (now : Z) (access : string) (refresh : option string)
    (expiresIn : Z) : AuthTokens :=
  {| accessToken := access; refreshToken := refresh; idToken := None;
     expiresAt := now + expiresIn * 1000 |}.

Lemma api_login_returned (c : LoginCredentials) (w : World) (cfg : AuthConfig) :
  apiConfig w = Some cfg ->
  AuthAPI.login c w
  = (match next_reply session_replies w with
     | NetworkDown e => Thrown e
     | NotOk m => Thrown (Error (or_else m "Login failed"))
     | Ok2xx d =>
         Returned {| response_user := data_user d;
                     response_tokens :=
                       tokens_of (now w) (data_accessToken d)
                         (data_refreshToken d) (data_expiresIn d) |}
     end,
     after_fetch session_replies with_session_replies
       {| url := apiBaseUrl cfg +:+ "/auth/login"; method := "POST";
          bearer := None; body := BodyLogin c |} w).
Proof.
  intros Hc. unfold AuthAPI.login, try_catch.
  rewrite (bind_returned _ _ _ _ _ (config_apiBaseUrl_run w cfg Hc)).
  unfold bind. rewrite fetch_run.
  destruct (next_reply session_replies w) as [e|m|d]; reflexivity.
Qed.

Lemma api_loginWithHash_returned (c : BiometricCredentials) (w : World)
    (cfg : AuthConfig) :
  apiConfig w = Some cfg ->
  AuthAPI.loginWithHash c w
  = (match next_reply session_replies w with
     | NetworkDown e => Thrown e
     | NotOk m => Thrown (Error (or_else m "Hash login failed"))
     | Ok2xx d =>
         Returned {| response_user := data_user d;
                     response_tokens :=
                       tokens_of (now w) (data_accessToken d)
                         (data_refreshToken d) (data_expiresIn d) |}
     end,
     after_fetch session_replies with_session_replies
       {| url := apiBaseUrl cfg +:+ "/auth/login-hash"; method := "POST";
          bearer := None; body := BodyHash c |} w).
Proof.
  intros Hc. unfold AuthAPI.loginWithHash, try_catch.
  rewrite (bind_returned _ _ _ _ _ (config_apiBaseUrl_run w cfg Hc)).
  unfold bind. rewrite fetch_run.
  destruct (next_reply session_replies w) as [e|m|d]; reflexivity.
Qed.

(** X8.  With the gateway configured, [login] and [loginWithHash] send one
    POST, to [/auth/login] and [/auth/login-hash] under the base URL, with
    the credentials they were given.  A 2xx reply gives the user and a token
    record that expires [expiresIn] seconds after now; any other reply throws
    an error whose message is the one of the body, or a fixed one when the
    body has none or an empty one; a request that fails is rethrown as it
    is. *)
Theorem api_login_run (w : World) (cfg : AuthConfig) :
  apiConfig w = Some cfg ->
  (forall c,
     let request := {| url := apiBaseUrl cfg +:+ "/auth/login"; method := "POST";
                       bearer := None; body := BodyLogin c |} in
     snd (AuthAPI.login c w) = after_fetch session_replies with_session_replies request w
     /\ fst (AuthAPI.login c w)
        = match next_reply session_replies w with
          | NetworkDown e => Thrown e
          | NotOk m => Thrown (Error (or_else m "Login failed"))
          | Ok2xx d =>
              Returned {| response_user := data_user d;
                          response_tokens :=
                            tokens_of (now w) (data_accessToken d)
                              (data_refreshToken d) (data_expiresIn d) |}
          end)
  /\ (forall c,
        let request := {| url := apiBaseUrl cfg +:+ "/auth/login-hash"; method := "POST";
                          bearer := None; body := BodyHash c |} in
        snd (AuthAPI.loginWithHash c w)
        = after_fetch session_replies with_session_replies request w
        /\ fst (AuthAPI.loginWithHash c w)
           = match next_reply session_replies w with
             | NetworkDown e => Thrown e
             | NotOk m => Thrown (Error (or_else m "Hash login failed"))
             | Ok2xx d =>
                 Returned {| response_user := data_user d;
                             response_tokens :=
                               tokens_of (now w) (data_accessToken d)
                                 (data_refreshToken d) (data_expiresIn d) |}
             end)
  /\ (forall m, truthy (or_else m "Login failed") = true
                /\ truthy (or_else m "Hash login failed") = true).
Proof.
  intros Hc. split; [|split].
  - intros c request. rewrite (api_login_returned c w cfg Hc). split; reflexivity.
  - intros c request. rewrite (api_loginWithHash_returned c w cfg Hc).
    split; reflexivity.
  - intros m. split; apply or_else_truthy; reflexivity.
Qed.

Lemma api_login_run_witness :
  fst (AuthAPI.login {| login_email := "a@b.com"; password := "x" |} rejectsLogin)
  = Thrown (Error "Invalid credentials")
  /\ requests (events (snd (AuthAPI.login {| login_email := "a@b.com"; password := "x" |}
                              rejectsLogin)))
     = [{| url := "https://api.example.com/auth/login"; method := "POST"; bearer := None;
           body := BodyLogin {| login_email := "a@b.com"; password := "x" |} |}].
Proof.
  destruct (api_login_run rejectsLogin defaultConfig eq_refl) as (Hl & _ & _).
  destruct (Hl {| login_email := "a@b.com"; password := "x" |}) as [Hw Ho].
  split; [rewrite Ho; reflexivity|rewrite Hw; reflexivity].
Defined.

Lemma api_refreshToken_returned (token : string) (w w' : World) response :
  AuthAPI.refreshToken token w = (Returned response, w') ->
  exists cfg d,
    apiConfig w = Some cfg
    /\ next_reply refresh_replies w = Ok2xx d
    /\ refreshToken (refreshed_tokens response)
       = Some (if truthy_opt (refresh_refreshToken d)
               then default EmptyString (refresh_refreshToken d)
               else token)
    /\ accessToken (refreshed_tokens response) = refresh_accessToken d
    /\ expiresAt (refreshed_tokens response) = now w + refresh_expiresIn d * 1000
    /\ refreshed_user response = refresh_user d
    /\ w' = after_fetch refresh_replies with_refresh_replies
              {| url := apiBaseUrl cfg +:+ "/auth/refresh"; method := "POST";
                 bearer := None; body := BodyRefresh token |} w.
Proof.
  unfold AuthAPI.refreshToken, try_catch. intros H.
  destruct (apiConfig w) as [cfg|] eqn:Hc.
  - rewrite (bind_returned _ _ _ _ _ (config_apiBaseUrl_run w cfg Hc)) in H.
    unfold bind in H. rewrite fetch_run in H.
    destruct (next_reply refresh_replies w) as [e|m|d] eqn:Hr; try discriminate.
    injection H as <- <-. exists cfg, d. repeat split.
    simpl. unfold or_else. destruct (refresh_refreshToken d) as [r|]; simpl; [|reflexivity].
    destruct (truthy r); reflexivity.
  - unfold AuthAPI.config_apiBaseUrl, bind, get_world in H. simpl in H.
    rewrite Hc in H. discriminate.
Qed.

(** X9.  A [refreshToken] of the gateway that returns always gives a token
    record with a refresh token: the one of the reply when it has a
    non-empty one, the one it was called with otherwise.  It sends one POST
    to [/auth/refresh] carrying the token it was called with, and the user
    of the result is the one of the reply, when there is one. *)
Theorem api_refreshToken_keeps_refresh_token (token : string) (w w' : World) response :
  AuthAPI.refreshToken token w = (Returned response, w') ->
  exists cfg d,
    apiConfig w = Some cfg
    /\ next_reply refresh_replies w = Ok2xx d
    /\ refreshToken (refreshed_tokens response)
       = Some (if truthy_opt (refresh_refreshToken d)
               then default EmptyString (refresh_refreshToken d)
               else token)
    /\ accessToken (refreshed_tokens response) = refresh_accessToken d
    /\ expiresAt (refreshed_tokens response) = now w + refresh_expiresIn d * 1000
    /\ refreshed_user response = refresh_user d
    /\ w' = after_fetch refresh_replies with_refresh_replies
              {| url := apiBaseUrl cfg +:+ "/auth/refresh"; method := "POST";
                 bearer := None; body := BodyRefresh token |} w.
Proof.
  intros H.
  destruct (api_refreshToken_returned token w w' response H)
    as (cfg & d & Hc & Hd & Hrt & Hacc & Hexp & Hu & Hw').
  exists cfg, d. repeat split; assumption.
Qed.

(** The gateway accepts the refresh without sending a new refresh token. *)
Definition refreshAcceptedSameToken : World :=
  with_server
    {| session_replies := [];
       refresh_replies :=
         [Ok2xx {| refresh_user := None; refresh_accessToken := "at-2";
                   refresh_refreshToken := None; refresh_expiresIn := 3600 |}];
       logout_replies := []; profile_replies := [] |}
    inSession.

Lemma api_refreshToken_keeps_refresh_token_witness :
  exists cfg d,
    apiConfig refreshAcceptedSameToken = Some cfg
    /\ next_reply refresh_replies refreshAcceptedSameToken = Ok2xx d
    /\ refreshToken
         (refreshed_tokens
            {| refreshed_user := None;
               refreshed_tokens := tokens_of 1700000000000 "at-2" (Some "rt-1") 3600 |})
       = Some (if truthy_opt (refresh_refreshToken d)
               then default EmptyString (refresh_refreshToken d)
               else "rt-1").
Proof.
  destruct (api_refreshToken_keeps_refresh_token "rt-1" refreshAcceptedSameToken
              (snd (AuthAPI.refreshToken "rt-1" refreshAcceptedSameToken))
              {| refreshed_user := None;
                 refreshed_tokens := tokens_of 1700000000000 "at-2" (Some "rt-1") 3600 |})
    as (cfg & d & Hc & Hr & Ht & _).
  - vm_compute. reflexivity.
  - exists cfg, d. repeat split; assumption.
Defined.

(** X10.  The gateway's [logout] returns in every world: with no
    configuration it sends nothing, otherwise it sends one POST to
    [/auth/logout] with the access token as bearer, and the reply, a failed
    request or a non-2xx one included, is ignored. *)
Theorem api_logout_never_raises (accessToken : string) (w : World) :
  (apiConfig w = None -> AuthAPI.logout accessToken w = (Returned tt, w))
  /\ (forall cfg,
        apiConfig w = Some cfg ->
        AuthAPI.logout accessToken w
        = (Returned tt,
           after_fetch logout_replies with_logout_replies
             {| url := apiBaseUrl cfg +:+ "/auth/logout"; method := "POST";
                bearer := Some accessToken; body := NoBody |} w))
  /\ fst (AuthAPI.logout accessToken w) = Returned tt.
Proof.
  assert (Hnone : apiConfig w = None -> AuthAPI.logout accessToken w = (Returned tt, w)).
  { intros Hc. unfold AuthAPI.logout.
    assert (Hb : AuthAPI.config_apiBaseUrl w = (Thrown AuthAPI.undefined_config, w)).
    { unfold AuthAPI.config_apiBaseUrl, bind, get_world. rewrite Hc. reflexivity. }
    rewrite (try_catch_thrown _ _ _ _ _ (bind_thrown _ _ _ _ _ Hb)). reflexivity. }
  assert (Hsome : forall cfg,
             apiConfig w = Some cfg ->
             AuthAPI.logout accessToken w
             = (Returned tt,
                after_fetch logout_replies with_logout_replies
                  {| url := apiBaseUrl cfg +:+ "/auth/logout"; method := "POST";
                     bearer := Some accessToken; body := NoBody |} w)).
  { intros cfg Hc. unfold AuthAPI.logout, try_catch.
    rewrite (bind_returned _ _ _ _ _ (config_apiBaseUrl_run w cfg Hc)).
    unfold bind. rewrite fetch_run.
    destruct (next_reply logout_replies w); reflexivity. }
  split; [exact Hnone|]. split; [exact Hsome|].
  destruct (apiConfig w) as [cfg|] eqn:Hc.
  - rewrite (Hsome cfg eq_refl). reflexivity.
  - rewrite (Hnone eq_refl). reflexivity.
Qed.

(** The OAuth prompt that is pending does not end with success: its result
    has another type, or it is rejected; with no outcome pending the prompt
    is dismissed. *)
Definition prompt_not_successful (w : World) : Prop :=
  match oauthPrompts w with
  | [] => True
  | OAuthResult type _ :: _ => type <> "success"
  | OAuthRejects _ :: _ => True
  end.

(** X11.  When the OAuth prompt ends with anything but success,
    [loginWithGoogle] and [loginWithMicrosoft] throw and send nothing to the
    gateway: the authorization code is never asked of the server,
    configured or not.  The error is their own "cancelled or failed" when
    the prompt gave a result that is not a success, and the error of the
    prompt, as it is, when the prompt was rejected. *)
Theorem oauth_cancelled_sends_nothing (w : World) :
  prompt_not_successful w ->
  (forall g,
     unchanged traffic w (snd (AuthAPI.loginWithGoogle g w))
     /\ ((forall e l, oauthPrompts w <> OAuthRejects e :: l) ->
         fst (AuthAPI.loginWithGoogle g w)
         = Thrown (Error "Google OAuth cancelled or failed"))
     /\ (forall e l,
           oauthPrompts w = OAuthRejects e :: l ->
           fst (AuthAPI.loginWithGoogle g w) = Thrown e))
  /\ (forall m,
        unchanged traffic w (snd (AuthAPI.loginWithMicrosoft m w))
        /\ ((forall e l, oauthPrompts w <> OAuthRejects e :: l) ->
            fst (AuthAPI.loginWithMicrosoft m w)
            = Thrown (Error "Microsoft OAuth cancelled or failed"))
        /\ (forall e l,
              oauthPrompts w = OAuthRejects e :: l ->
              fst (AuthAPI.loginWithMicrosoft m w) = Thrown e)).
Proof.
  unfold prompt_not_successful. intros Hp.
  assert (Hrun : (exists type code w1,
                    AuthAPI.promptAsync w = (Returned (type, code), w1)
                    /\ String.eqb type "success" = false
                    /\ unchanged traffic w w1
                    /\ forall e l, oauthPrompts w <> OAuthRejects e :: l)
                 \/ (exists e l w1,
                       AuthAPI.promptAsync w = (Thrown e, w1)
                       /\ unchanged traffic w w1
                       /\ oauthPrompts w = OAuthRejects e :: l)).
  { unfold AuthAPI.promptAsync.
    destruct (oauthPrompts w) as [|[e|type code] l].
    - left. exists "dismiss", EmptyString, w. repeat split. discriminate.
    - right. exists e, l, (with_oauthPrompts l w). repeat split.
    - left. exists type, code, (with_oauthPrompts l w). repeat split.
      + apply String.eqb_neq. exact Hp.
      + discriminate. }
  split.
  - intros g. unfold AuthAPI.loginWithGoogle, try_catch.
    destruct Hrun as [(type & code & w1 & Hrun & Hne & Hfr & Hno)
                     |(e & l & w1 & Hrun & Hfr & Hw)].
    + rewrite (bind_returned _ _ _ _ _ Hrun). simpl. rewrite Hne. simpl.
      split; [exact Hfr|]. split; [reflexivity|].
      intros e l Hw. elim (Hno e l Hw).
    + rewrite (bind_thrown _ _ _ _ _ Hrun). simpl.
      split; [exact Hfr|]. split.
      * intros Hno. elim (Hno e l Hw).
      * intros e' l' Hw'. rewrite Hw in Hw'. injection Hw' as -> _. reflexivity.
  - intros m. unfold AuthAPI.loginWithMicrosoft, try_catch.
    destruct Hrun as [(type & code & w1 & Hrun & Hne & Hfr & Hno)
                     |(e & l & w1 & Hrun & Hfr & Hw)].
    + rewrite (bind_returned _ _ _ _ _ Hrun). simpl. rewrite Hne. simpl.
      split; [exact Hfr|]. split; [reflexivity|].
      intros e l Hw. elim (Hno e l Hw).
    + rewrite (bind_thrown _ _ _ _ _ Hrun). simpl.
      split; [exact Hfr|]. split.
      * intros Hno. elim (Hno e l Hw).
      * intros e' l' Hw'. rewrite Hw in Hw'. injection Hw' as -> _. reflexivity.
Qed.

(** The user closes the browser of the OAuth prompt. *)
Definition promptCancelled : World :=
  with_oauthPrompts [OAuthResult "cancel" EmptyString]
    (with_apiConfig (Some defaultConfig) freshInstall).

(** The browser of the OAuth prompt cannot be opened. *)
Definition promptRejected : World :=
  with_oauthPrompts [OAuthRejects (Error "Cannot open the browser")]
    (with_apiConfig (Some defaultConfig) freshInstall).

Lemma oauth_cancelled_sends_nothing_witness :
  fst (AuthAPI.loginWithGoogle
         {| google_clientId := "client"; google_scopes := None |} promptCancelled)
  = Thrown (Error "Google OAuth cancelled or failed")
  /\ fst (AuthAPI.loginWithMicrosoft
            {| microsoft_clientId := "client"; tenantId := None;
               microsoft_scopes := None |} promptCancelled)
     = Thrown (Error "Microsoft OAuth cancelled or failed")
  /\ fst (AuthAPI.loginWithGoogle
            {| google_clientId := "client"; google_scopes := None |} promptRejected)
     = Thrown (Error "Cannot open the browser")
  /\ requests (events (snd (AuthAPI.loginWithGoogle
                              {| google_clientId := "client"; google_scopes := None |}
                              promptRejected)))
     = requests (events promptRejected).
Proof.
  assert (Hp : prompt_not_successful promptCancelled) by (simpl; discriminate).
  destruct (oauth_cancelled_sends_nothing promptCancelled Hp) as (Hg & Hm).
  destruct (oauth_cancelled_sends_nothing promptRejected I) as (Hr & _).
  split; [apply Hg; discriminate|]. split; [apply Hm; discriminate|].
  destruct (Hr {| google_clientId := "client"; google_scopes := None |})
    as (Ht & _ & He).
  split; [apply (He _ [] eq_refl)|]. exact (f_equal fst Ht).
Defined.

(** X12.  When the OAuth prompt succeeds, the code it gave is what the
    gateway is sent, with the redirect URI of the provider; for Microsoft
    the tenant is the configured one, and [common] when none or an empty one
    is configured. *)
Theorem oauth_code_exchange (w : World) (cfg : AuthConfig) (code : string) l :
  apiConfig w = Some cfg ->
  oauthPrompts w = OAuthResult "success" code :: l ->
  (forall g,
     requests (events (snd (AuthAPI.loginWithGoogle g w)))
     = (requests (events w)
        ++ [{| url := apiBaseUrl cfg +:+ "/auth/oauth/google"; method := "POST";
               bearer := None;
               body := BodyOAuth code
                         (makeRedirectUri "com.bca.authkit" "/oauth/google/callback")
                         None |}])%list)
  /\ (forall m,
        requests (events (snd (AuthAPI.loginWithMicrosoft m w)))
        = (requests (events w)
           ++ [{| url := apiBaseUrl cfg +:+ "/auth/oauth/microsoft"; method := "POST";
                  bearer := None;
                  body := BodyOAuth code
                            (makeRedirectUri "com.bca.authkit" "/oauth/microsoft/callback")
                            (Some (if truthy_opt (tenantId m)
                                   then default EmptyString (tenantId m)
                                   else "common")) |}])%list).
Proof.
  intros Hc Hp.
  assert (Hrun : AuthAPI.promptAsync w = (Returned ("success", code), with_oauthPrompts l w)).
  { unfold AuthAPI.promptAsync. rewrite Hp. reflexivity. }
  assert (Hb : AuthAPI.config_apiBaseUrl (with_oauthPrompts l w)
               = (Returned (apiBaseUrl cfg), with_oauthPrompts l w))
    by (apply config_apiBaseUrl_run; exact Hc).
  split; intros.
  - unfold AuthAPI.loginWithGoogle, try_catch.
    rewrite (bind_returned _ _ _ _ _ Hrun). simpl.
    rewrite (bind_returned _ _ _ _ _ Hb). unfold bind. rewrite fetch_run.
    assert (He : requests (events (after_fetch session_replies with_session_replies
                   {| url := apiBaseUrl cfg +:+ "/auth/oauth/google"; method := "POST";
                      bearer := None;
                      body := BodyOAuth code
                        (makeRedirectUri "com.bca.authkit" "/oauth/google/callback")
                        None |} (with_oauthPrompts l w)))
                 = (requests (events w) ++ [{| url := apiBaseUrl cfg +:+ "/auth/oauth/google";
                      method := "POST"; bearer := None;
                      body := BodyOAuth code
                        (makeRedirectUri "com.bca.authkit" "/oauth/google/callback")
                        None |}])%list).
    { unfold requests. simpl. rewrite omap_app. reflexivity. }
    destruct (next_reply session_replies (with_oauthPrompts l w)); exact He.
  - unfold AuthAPI.loginWithMicrosoft, try_catch.
    rewrite (bind_returned _ _ _ _ _ Hrun). simpl.
    rewrite (bind_returned _ _ _ _ _ Hb). unfold bind. rewrite fetch_run.
    assert (Ht : or_else (tenantId m) "common"
                 = if truthy_opt (tenantId m)
                   then default EmptyString (tenantId m) else "common").
    { unfold or_else. destruct (tenantId m) as [t|]; simpl; reflexivity. }
    rewrite Ht.
    destruct (next_reply session_replies (with_oauthPrompts l w));
      simpl; unfold requests; simpl; rewrite omap_app; reflexivity.
Qed.

(** The OAuth prompt succeeds with a code. *)
Definition promptSucceeded : World :=
  with_oauthPrompts [OAuthResult "success" "code-1"]
    (with_apiConfig (Some defaultConfig) freshInstall).

Lemma oauth_code_exchange_witness :
  requests (events (snd (AuthAPI.loginWithMicrosoft
                           {| microsoft_clientId := "client"; tenantId := None;
                              microsoft_scopes := None |} promptSucceeded)))
  = [{| url := "https://api.example.com/auth/oauth/microsoft"; method := "POST";
        bearer := None;
        body := BodyOAuth "code-1" "com.bca.authkit:///oauth/microsoft/callback"
                  (Some "common") |}].
Proof.
  destruct (oauth_code_exchange promptSucceeded defaultConfig "code-1" [] eq_refl eq_refl)
    as [_ Hm].
  rewrite Hm. reflexivity.
Defined.

(** X13.  The gateway is stateless towards the device: none of its
    operations writes to a store, consumes a storage fault, or changes the
    state of the provider, whatever they return or throw. *)
Theorem gateway_touches_no_store (w : World) :
  (forall c, stores (snd (AuthAPI.login c w)) = stores w
             /\ state (snd (AuthAPI.login c w)) = state w)
  /\ (forall c, stores (snd (AuthAPI.loginWithHash c w)) = stores w
                /\ state (snd (AuthAPI.loginWithHash c w)) = state w)
  /\ (forall g, stores (snd (AuthAPI.loginWithGoogle g w)) = stores w
                /\ state (snd (AuthAPI.loginWithGoogle g w)) = state w)
  /\ (forall m, stores (snd (AuthAPI.loginWithMicrosoft m w)) = stores w
                /\ state (snd (AuthAPI.loginWithMicrosoft m w)) = state w)
  /\ (forall t, stores (snd (AuthAPI.refreshToken t w)) = stores w
                /\ state (snd (AuthAPI.refreshToken t w)) = state w)
  /\ (forall a, stores (snd (AuthAPI.logout a w)) = stores w
                /\ state (snd (AuthAPI.logout a w)) = state w)
  /\ (forall a, stores (snd (AuthAPI.getProfile a w)) = stores w
                /\ state (snd (AuthAPI.getProfile a w)) = state w).
Proof.
  repeat split;
    first [ apply (api_login_respects (unchanged stores))
          | apply (api_login_respects (unchanged state))
          | apply (api_loginWithHash_respects (unchanged stores))
          | apply (api_loginWithHash_respects (unchanged state))
          | apply (api_loginWithGoogle_respects (unchanged stores))
          | apply (api_loginWithGoogle_respects (unchanged state))
          | apply (api_loginWithMicrosoft_respects (unchanged stores))
          | apply (api_loginWithMicrosoft_respects (unchanged state))
          | apply (api_refreshToken_respects (unchanged stores))
          | apply (api_refreshToken_respects (unchanged state))
          | apply (api_logout_respects (unchanged stores))
          | apply (api_logout_respects (unchanged state))
          | apply (api_getProfile_respects (unchanged stores))
          | apply (api_getProfile_respects (unchanged state)) ].
Qed.


(** ** biometric.ts *)

(** The capabilities a probe gives. *)
Definition capabilities_of (p : option Probe) : BiometricCapabilities :=
  match p with
  | Some (ProbeResult h e ts) =>
      {| isAvailable := h && e; hasHardware := h; isEnrolled := e;
         supportedTypes := map BiometricAuth.typeName ts |}
  | _ =>
      {| isAvailable := false; hasHardware := false; isEnrolled := false;
         supportedTypes := [] |}
  end.

Lemma checkCapabilities_run (w : World) :
  exists w',
    BiometricAuth.checkCapabilities w = (Returned (capabilities_of (head (probes w))), w')
    /\ probes w' = tail (probes w)
    /\ biometricPrompts w' = biometricPrompts w
    /\ stores w' = stores w /\ state w' = state w /\ traffic w' = traffic w
    /\ apiConfig w' = apiConfig w /\ oauthPrompts w' = oauthPrompts w
    /\ now w' = now w.
Proof.
  unfold BiometricAuth.checkCapabilities, BiometricAuth.probe, try_catch, bind.
  destruct (probes w) as [|[|h e ts] l] eqn:Hp; simpl; eexists;
    (split; [reflexivity|]); repeat split; exact Hp.
Qed.

Lemma typeName_known (type : Z) :
  In (BiometricAuth.typeName type) ["fingerprint"; "face-id"; "iris"; "unknown"].
Proof.
  unfold BiometricAuth.typeName.
  destruct (type =? BiometricAuth.FINGERPRINT)%Z; [simpl; auto|].
  destruct (type =? BiometricAuth.FACIAL_RECOGNITION)%Z; [simpl; auto|].
  destruct (type =? BiometricAuth.IRIS)%Z; simpl; auto.
Qed.

(** X14.  [checkCapabilities] never raises and shows no prompt.  Biometrics
    are available exactly when the device reports hardware and an enrolment;
    a probe that is rejected gives a device with nothing; every type the
    device reports is named, by one of four names, in the order reported.
    [isSupported], [isEnrolled] and [getSupportedBiometricTypes] never raise
    either and give the fields of the same answer. *)
Theorem checkCapabilities_never_raises (w : World) :
  exists caps,
    fst (BiometricAuth.checkCapabilities w) = Returned caps
    /\ biometricPrompts (snd (BiometricAuth.checkCapabilities w)) = biometricPrompts w
    /\ isAvailable caps = hasHardware caps && isEnrolled caps
    /\ Forall (fun n => In n ["fingerprint"; "face-id"; "iris"; "unknown"])
         (supportedTypes caps)
    /\ (forall h e ts,
          head (probes w) = Some (ProbeResult h e ts) ->
          hasHardware caps = h /\ isEnrolled caps = e
          /\ supportedTypes caps = map BiometricAuth.typeName ts)
    /\ (head (probes w) = Some ProbeRejects ->
        isAvailable caps = false /\ hasHardware caps = false
        /\ isEnrolled caps = false /\ supportedTypes caps = [])
    /\ fst (BiometricAuth.isSupported w) = Returned (hasHardware caps)
    /\ fst (BiometricAuth.isEnrolled w) = Returned (isEnrolled caps)
    /\ fst (BiometricAuth.getSupportedBiometricTypes w) = Returned (supportedTypes caps).
Proof.
  destruct (checkCapabilities_run w) as (w' & Hrun & _ & Hb & _).
  exists (capabilities_of (head (probes w))).
  unfold BiometricAuth.isSupported, BiometricAuth.isEnrolled,
    BiometricAuth.getSupportedBiometricTypes.
  rewrite !(bind_returned _ _ _ _ _ Hrun). rewrite Hrun.
  split; [reflexivity|]. split; [exact Hb|].
  split; [destruct (head (probes w)) as [[|h e ts]|]; reflexivity|].
  split.
  { destruct (head (probes w)) as [[|h e ts]|]; simpl; try constructor.
    clear. induction ts as [|t ts IH]; simpl;
      [constructor|constructor; [apply typeName_known|exact IH]]. }
  split; [intros h e ts ->; repeat split|].
  split; [intros ->; repeat split|].
  repeat split.
Qed.

(** The error [authenticate] throws for the [error] of a failed prompt. *)
Definition prompt_failure (error : string) : JsError :=
  if String.eqb error "user_cancel" then Error "Authentication was cancelled"
  else if String.eqb error "not_enrolled" then Error "No biometric authentication is enrolled"
  else if String.eqb error "not_available"
  then Error "Biometric authentication is not available"
  else Error ("Authentication failed: " +:+ error).

(** X15.  [authenticate] returns only when the device has hardware and an
    enrolment and the prompt then succeeds.  On a device without biometrics
    it throws "not available" and shows no prompt at all.  A prompt that
    fails throws an error that depends on its cause alone, and a prompt that
    is rejected is rethrown as it is. *)
Theorem authenticate_outcomes (promptMessage : option string) (w : World) :
  (forall w',
     BiometricAuth.authenticate promptMessage w = (Returned tt, w') ->
     exists ts l err l',
       probes w = ProbeResult true true ts :: l
       /\ biometricPrompts w = AuthResult true err :: l'
       /\ biometricPrompts w' = l')
  /\ (isAvailable (capabilities_of (head (probes w))) = false ->
      fst (BiometricAuth.authenticate promptMessage w)
      = Thrown (Error "Biometric authentication is not available")
      /\ biometricPrompts (snd (BiometricAuth.authenticate promptMessage w))
         = biometricPrompts w)
  /\ (isAvailable (capabilities_of (head (probes w))) = true ->
      forall err l',
        biometricPrompts w = AuthResult false err :: l' ->
        fst (BiometricAuth.authenticate promptMessage w) = Thrown (prompt_failure err))
  /\ (isAvailable (capabilities_of (head (probes w))) = true ->
      forall e l',
        biometricPrompts w = AuthRejects e :: l' ->
        fst (BiometricAuth.authenticate promptMessage w) = Thrown e).
Proof.
  destruct (checkCapabilities_run w) as (w1 & Hrun & _ & Hb & _).
  unfold BiometricAuth.authenticate, try_catch.
  rewrite (bind_returned _ _ _ _ _ Hrun).
  destruct (isAvailable (capabilities_of (head (probes w)))) eqn:Ha; simpl.
  - unfold bind, BiometricAuth.authenticateAsync. rewrite Hb.
    split; [|split; [discriminate|split; intros _]].
    + intros w' H.
      destruct (probes w) as [|[|h e ts] l]; try discriminate.
      simpl in Ha. apply andb_true_iff in Ha as [-> ->].
      destruct (biometricPrompts w) as [|[e|[|] err] l']; simpl in H; try discriminate.
      * exists ts, l, err, l'. injection H as <-. repeat split.
      * unfold prompt_failure in *.
        destruct (String.eqb err "user_cancel"); [discriminate|].
        destruct (String.eqb err "not_enrolled"); [discriminate|].
        destruct (String.eqb err "not_available"); discriminate.
    + intros err l' ->. simpl. unfold prompt_failure.
      destruct (String.eqb err "user_cancel"); [reflexivity|].
      destruct (String.eqb err "not_enrolled"); [reflexivity|].
      destruct (String.eqb err "not_available"); reflexivity.
    + intros e l' ->. reflexivity.
  - split; [discriminate|]. split; [|split; discriminate].
    intros _. split; [reflexivity|exact Hb].
Qed.

(** ** context.tsx: the login functions *)

(** The error attribute of the state. *)
Definition error_attribute (w : World) : option string := error (state w).

#[export] Instance error_attribute_store : StoreStable (unchanged error_attribute).
Proof. split; reflexivity. Qed.

#[export] Instance error_attribute_device : DeviceStable (unchanged error_attribute).
Proof. split; reflexivity. Qed.

Lemma setTokens_error_attribute t : respects (unchanged error_attribute) (setTokens t).
Proof. intros w. reflexivity. Qed.

Lemma setUser_error_attribute u : respects (unchanged error_attribute) (setUser u).
Proof. intros w. reflexivity. Qed.

(** A function that resets the error at entry and mirrors the error it
    throws: the error attribute at exit says how it went. *)
Definition mirrors_error {A} (fallback : string) (c : Async A) : Prop :=
  forall w,
    match fst (c w) with
    | Returned _ => error (state (snd (c w))) = None
    | Thrown e => error (state (snd (c w))) = Some (message_or e fallback)
    end.

Lemma mirrors_error_bracket {A} (fallback : string) (c : Async A) :
  respects (unchanged error_attribute) c ->
  mirrors_error fallback
    (try_finally
       (try_catch (setIsLoading true ;; setError None ;; c)
          (fun error => setError (Some (message_or error fallback)) ;; throw error))
       (setIsLoading false)).
Proof.
  intros Hc w. unfold try_finally, try_catch.
  change ((setIsLoading true;; setError None;; c) w)
    with (c (snd (setError None (snd (setIsLoading true w))))).
  specialize (Hc (snd (setError None (snd (setIsLoading true w))))).
  destruct (c (snd (setError None (snd (setIsLoading true w))))) as [[a|e] w1];
    simpl in *.
  - exact Hc.
  - reflexivity.
Qed.

Section LoginFunctions.
Context `{!Json AuthTokens, !Json User, !Json BiometricCredentials}.

Lemma adopt_error_attribute r : respects (unchanged error_attribute) (AuthProvider.adopt r).
Proof.
  pose proof setTokens_error_attribute. pose proof setUser_error_attribute.
  unfold AuthProvider.adopt. frame.
Qed.

Lemma login_mirrors credentials :
  mirrors_error "Login failed" (AuthProvider.login credentials).
Proof.
  pose proof adopt_error_attribute.
  unfold AuthProvider.login. apply mirrors_error_bracket. frame.
Qed.

Lemma loginWithBiometrics_mirrors config :
  mirrors_error "Biometric login failed" (AuthProvider.loginWithBiometrics config).
Proof.
  pose proof adopt_error_attribute.
  unfold AuthProvider.loginWithBiometrics. apply mirrors_error_bracket. frame.
Qed.

Lemma loginWithGoogle_mirrors config :
  mirrors_error "Google login failed" (AuthProvider.loginWithGoogle config).
Proof.
  pose proof adopt_error_attribute.
  unfold AuthProvider.loginWithGoogle. apply mirrors_error_bracket. frame.
Qed.

Lemma loginWithMicrosoft_mirrors config :
  mirrors_error "Microsoft login failed" (AuthProvider.loginWithMicrosoft config).
Proof.
  pose proof adopt_error_attribute.
  unfold AuthProvider.loginWithMicrosoft. apply mirrors_error_bracket. frame.
Qed.

(** X16.  The four login functions report through the error attribute:
    when one returns the attribute is empty, and when one throws the
    attribute holds the message of the very error thrown, or the fallback of
    that function when the message is empty; the fallback itself is never
    empty. *)
Theorem login_mirrors_error (config : AuthConfig) :
  (forall credentials, mirrors_error "Login failed" (AuthProvider.login credentials))
  /\ mirrors_error "Biometric login failed" (AuthProvider.loginWithBiometrics config)
  /\ mirrors_error "Google login failed" (AuthProvider.loginWithGoogle config)
  /\ mirrors_error "Microsoft login failed" (AuthProvider.loginWithMicrosoft config)
  /\ (forall e fallback,
        truthy fallback = true -> truthy (message_or e fallback) = true).
Proof.
  split; [|split; [|split; [|split]]].
  - apply login_mirrors.
  - apply loginWithBiometrics_mirrors.
  - apply loginWithGoogle_mirrors.
  - apply loginWithMicrosoft_mirrors.
  - intros e fallback Hf. unfold message_or. apply or_else_truthy. exact Hf.
Qed.

(** X17.  With the gateway configured and answering 2xx, on a store that
    works, [login] returns: the user and the token record of the reply are
    in the state, with no error and [loading] false; the record is written
    to the secure store and the user to AsyncStorage; and the session counts
    as authenticated exactly when the reply gave a positive [expiresIn]. *)
Theorem login_success (credentials : LoginCredentials) (w : World)
    (cfg : AuthConfig) (d : SessionData) :
  reliable w ->
  apiConfig w = Some cfg ->
  next_reply session_replies w = Ok2xx d ->
  let t := tokens_of (now w) (data_accessToken d) (data_refreshToken d)
             (data_expiresIn d) in
  exists w',
    AuthProvider.login credentials w = (Returned tt, w')
    /\ state w' = {| user := Some (data_user d); tokens := Some t;
                     isLoading := false; error := None |}
    /\ secureStore w' = tokens_written t (secureStore w)
    /\ asyncStorage w' = <[USER := stringify (data_user d)]> (asyncStorage w)
    /\ now w' = now w
    /\ (AuthProvider.isAuthenticated (state w') (now w') = true
        <-> 0 < data_expiresIn d).
Proof.
  intros Hw Hc Hr t.
  set (w0 := snd (setError None (snd (setIsLoading true w)))).
  assert (Hc0 : apiConfig w0 = Some cfg) by exact Hc.
  assert (Hr0 : next_reply session_replies w0 = Ok2xx d) by exact Hr.
  set (w1 := snd (AuthAPI.login credentials w0)).
  assert (Hs0 : w1 = after_fetch session_replies with_session_replies
                       {| url := apiBaseUrl cfg +:+ "/auth/login"; method := "POST";
                          bearer := None; body := BodyLogin credentials |} w0).
  { unfold w1. rewrite (api_login_returned credentials w0 cfg Hc0). reflexivity. }
  assert (Hrun : AuthAPI.login credentials w0
                 = (Returned {| response_user := data_user d; response_tokens := t |}, w1)).
  { unfold w1. rewrite (api_login_returned credentials w0 cfg Hc0), Hr0. reflexivity. }
  assert (Hw1r : reliable w1) by (rewrite Hs0; exact Hw).
  eexists. split.
  - unfold AuthProvider.login.
    eapply try_finally_run; [|reflexivity].
    apply try_catch_returned.
    erewrite bind_returned by reflexivity.
    erewrite bind_returned by reflexivity. fold w0.
    rewrite (bind_returned _ _ _ _ _ Hrun).
    unfold AuthProvider.adopt. simpl.
    erewrite bind_returned;
      [|eapply all2_returned;
        [apply storeTokens_reliable; exact Hw1r|apply storeUser_reliable; exact Hw1r]].
    erewrite bind_returned by reflexivity. reflexivity.
  - simpl. rewrite Hs0. simpl. split; [reflexivity|].
    split; [reflexivity|]. split; [reflexivity|]. split; [reflexivity|].
    unfold AuthProvider.isAuthenticated, AuthStorage.isTokenExpired. simpl.
    rewrite negb_true_iff, Z.geb_leb, Z.leb_gt. lia.
Qed.

End LoginFunctions.

(** The gateway accepts the credentials. *)
Definition acceptsLogin : World :=
  with_server
    {| session_replies :=
         [Ok2xx {| data_user := alice; data_accessToken := "at-1";
                   data_refreshToken := Some "rt-1"; data_expiresIn := 3600 |}];
       refresh_replies := []; logout_replies := []; profile_replies := [] |}
    (with_state (fun _ => {| user := None; tokens := None;
                             isLoading := false; error := None |})
       (with_apiConfig (Some defaultConfig) freshInstall)).

Lemma login_success_witness :
  exists w',
    AuthProvider.login {| login_email := "a@b.com"; password := "x" |} acceptsLogin
    = (Returned tt, w')
    /\ state w' = {| user := Some alice; tokens := Some firstSession;
                     isLoading := false; error := None |}
    /\ AuthProvider.isAuthenticated (state w') (now w') = true.
Proof.
  destruct (login_success {| login_email := "a@b.com"; password := "x" |} acceptsLogin
              defaultConfig
              {| data_user := alice; data_accessToken := "at-1";
                 data_refreshToken := Some "rt-1"; data_expiresIn := 3600 |}
              eq_refl eq_refl eq_refl)
    as (w' & Hrun & Hs & _ & _ & _ & Ha).
  exists w'. split; [exact Hrun|]. split; [exact Hs|].
  apply Ha. simpl. lia.
Defined.

(** What lies outside the provider and its stores: the biometric device, the
    OAuth prompt and the gateway. *)
Definition collaborators (w : World)
    : list Probe * list PromptOutcome * list OAuthOutcome * (list Request * Server) :=
  (probes w, biometricPrompts w, oauthPrompts w, traffic w).

Lemma traffic_setError e w : traffic (snd (setError e w)) = traffic w.
Proof. apply (stable_setError (R := unchanged traffic)). Qed.

Lemma traffic_setIsLoading b w : traffic (snd (setIsLoading b w)) = traffic w.
Proof. apply (stable_setIsLoading (R := unchanged traffic)). Qed.

Lemma collaborators_after_fault w : collaborators (after_fault w) = collaborators w.
Proof. unfold after_fault. destruct (storeFaults w); reflexivity. Qed.

#[export] Instance collaborators_store : StoreStable (unchanged collaborators).
Proof. split; reflexivity. Qed.

#[export] Instance collaborators_setter : SetterStable (unchanged collaborators).
Proof.
  split; intros; unfold unchanged, collaborators; f_equal;
    apply (traffic_setter.(stable_setUser) _ _)
    || apply (traffic_setter.(stable_setTokens) _ _)
    || apply (traffic_setter.(stable_setIsLoading) _ _)
    || apply (traffic_setter.(stable_setError) _ _).
Qed.

Lemma collaborators_setError e w : collaborators (snd (setError e w)) = collaborators w.
Proof. apply (stable_setError (R := unchanged collaborators)). Qed.

Lemma collaborators_setIsLoading b w :
  collaborators (snd (setIsLoading b w)) = collaborators w.
Proof. apply (stable_setIsLoading (R := unchanged collaborators)). Qed.

Section Guards.
Context `{!Json AuthTokens, !Json User, !Json BiometricCredentials}.

Lemma loginWithBiometrics_flag_off_run (config : AuthConfig) (w : World) :
  asyncStorage w !! BIOMETRIC_ENABLED <> Some "true" ->
  AuthProvider.loginWithBiometrics config w
  = (Thrown (Error "Biometric authentication is not enabled"),
     snd (setIsLoading false
            (snd (setError (Some "Biometric authentication is not enabled")
                    (after_fault (snd (setError None (snd (setIsLoading true w))))))))).
Proof.
  intros Hflag.
  set (w0 := snd (setError None (snd (setIsLoading true w)))).
  assert (Hread : AuthStorage.isBiometricEnabled w0 = (Returned false, after_fault w0)).
  { destruct (isBiometricEnabled_runs w0) as (b & Hr & Hb & _).
    destruct b; [|exact Hr]. elim Hflag. exact (Hb eq_refl). }
  unfold AuthProvider.loginWithBiometrics.
  eapply try_finally_run; [|reflexivity].
  eapply eq_trans.
  { eapply try_catch_thrown.
    erewrite bind_returned by reflexivity.
    erewrite bind_returned by reflexivity. fold w0.
    rewrite (bind_returned _ _ _ _ _ Hread). reflexivity. }
  reflexivity.
Qed.

Lemma loginWithBiometrics_flag_off (config : AuthConfig) (w : World) :
  asyncStorage w !! BIOMETRIC_ENABLED <> Some "true" ->
  fst (AuthProvider.loginWithBiometrics config w)
  = Thrown (Error "Biometric authentication is not enabled").
Proof. intros Hflag. rewrite (loginWithBiometrics_flag_off_run config w Hflag). reflexivity. Qed.

(** X18.  [loginWithBiometrics] checks the stored flag before anything else:
    unless the flag stored is [true], it throws "not enabled" without probing
    the device, without showing the biometric prompt and without a request to
    the gateway, and it leaves both stores as they were. *)
Theorem loginWithBiometrics_not_enabled (config : AuthConfig) (w : World) :
  asyncStorage w !! BIOMETRIC_ENABLED <> Some "true" ->
  fst (AuthProvider.loginWithBiometrics config w)
  = Thrown (Error "Biometric authentication is not enabled")
  /\ collaborators (snd (AuthProvider.loginWithBiometrics config w)) = collaborators w
  /\ secureStore (snd (AuthProvider.loginWithBiometrics config w)) = secureStore w
  /\ asyncStorage (snd (AuthProvider.loginWithBiometrics config w)) = asyncStorage w
  /\ error (state (snd (AuthProvider.loginWithBiometrics config w)))
     = Some "Biometric authentication is not enabled"
  /\ isLoading (state (snd (AuthProvider.loginWithBiometrics config w))) = false.
Proof.
  intros Hflag.
  set (w0 := snd (setError None (snd (setIsLoading true w)))).
  rewrite (loginWithBiometrics_flag_off_run config w Hflag). fold w0. cbn [fst snd].
  destruct (after_fault_stores w0) as [Hs Ha].
  split; [reflexivity|]. split; [|split; [exact Hs|split; [exact Ha|split; reflexivity]]].
  rewrite collaborators_setIsLoading, collaborators_setError,
    collaborators_after_fault.
  unfold w0. rewrite collaborators_setError, collaborators_setIsLoading. reflexivity.
Qed.

(** X19.  Without a client id for the provider, none configured or an empty
    one, [loginWithGoogle] and [loginWithMicrosoft] throw "not configured"
    before the OAuth prompt is shown and before any request; the error is
    mirrored in the state and the stores are not touched. *)
Theorem oauth_not_configured (config : AuthConfig) (w : World) :
  (AuthProvider.google_configured config = None ->
   fst (AuthProvider.loginWithGoogle config w)
   = Thrown (Error "Google OAuth is not configured")
   /\ collaborators (snd (AuthProvider.loginWithGoogle config w)) = collaborators w
   /\ stores (snd (AuthProvider.loginWithGoogle config w)) = stores w
   /\ error (state (snd (AuthProvider.loginWithGoogle config w)))
      = Some "Google OAuth is not configured")
  /\ (AuthProvider.microsoft_configured config = None ->
      fst (AuthProvider.loginWithMicrosoft config w)
      = Thrown (Error "Microsoft OAuth is not configured")
      /\ collaborators (snd (AuthProvider.loginWithMicrosoft config w)) = collaborators w
      /\ stores (snd (AuthProvider.loginWithMicrosoft config w)) = stores w
      /\ error (state (snd (AuthProvider.loginWithMicrosoft config w)))
         = Some "Microsoft OAuth is not configured")
  /\ (AuthProvider.google_configured config = None
      <-> forall o g, oauth config = Some o -> google o = Some g ->
                      google_clientId g = EmptyString)
  /\ (AuthProvider.microsoft_configured config = None
      <-> forall o m, oauth config = Some o -> microsoft o = Some m ->
                      microsoft_clientId m = EmptyString).
Proof.
  split; [|split; [|split]].
  - intros Hn. unfold AuthProvider.loginWithGoogle. rewrite Hn.
    repeat split.
    change (collaborators
              (snd (setIsLoading false
                 (snd (setError (Some "Google OAuth is not configured")
                    (snd (setError None (snd (setIsLoading true w))))))))
            = collaborators w).
    rewrite collaborators_setIsLoading, !collaborators_setError,
      collaborators_setIsLoading. reflexivity.
  - intros Hn. unfold AuthProvider.loginWithMicrosoft. rewrite Hn.
    repeat split.
    change (collaborators
              (snd (setIsLoading false
                 (snd (setError (Some "Microsoft OAuth is not configured")
                    (snd (setError None (snd (setIsLoading true w))))))))
            = collaborators w).
    rewrite collaborators_setIsLoading, !collaborators_setError,
      collaborators_setIsLoading. reflexivity.
  - unfold AuthProvider.google_configured.
    destruct (oauth config) as [o|]; [|split; [intros; discriminate|reflexivity]].
    destruct (google o) as [g|] eqn:Ho.
    + destruct (google_clientId g) as [|c s] eqn:Hg; simpl.
      * split; [|reflexivity]. intros _ o' g' [= <-] Ho'.
        rewrite Ho in Ho'. injection Ho' as <-. exact Hg.
      * split; [discriminate|]. intros H.
        specialize (H o g eq_refl Ho). rewrite Hg in H. discriminate.
    + split; [|reflexivity]. intros _ o' g' [= <-] Ho'.
      rewrite Ho in Ho'. discriminate.
  - unfold AuthProvider.microsoft_configured.
    destruct (oauth config) as [o|]; [|split; [intros; discriminate|reflexivity]].
    destruct (microsoft o) as [m|] eqn:Ho.
    + destruct (microsoft_clientId m) as [|c s] eqn:Hg; simpl.
      * split; [|reflexivity]. intros _ o' m' [= <-] Ho'.
        rewrite Ho in Ho'. injection Ho' as <-. exact Hg.
      * split; [discriminate|]. intros H.
        specialize (H o m eq_refl Ho). rewrite Hg in H. discriminate.
    + split; [|reflexivity]. intros _ o' m' [= <-] Ho'.
      rewrite Ho in Ho'. discriminate.
Qed.

End Guards.

Lemma loginWithBiometrics_not_enabled_witness :
  fst (AuthProvider.loginWithBiometrics defaultConfig biometricReady)
  = Thrown (Error "Biometric authentication is not enabled")
  /\ collaborators (snd (AuthProvider.loginWithBiometrics defaultConfig biometricReady))
     = collaborators biometricReady.
Proof.
  assert (H : asyncStorage biometricReady !! BIOMETRIC_ENABLED <> Some "true")
    by (vm_compute; discriminate).
  destruct (loginWithBiometrics_not_enabled defaultConfig biometricReady H)
    as (H1 & H2 & _).
  split; [exact H1|exact H2].
Defined.

Lemma oauth_not_configured_witness :
  fst (AuthProvider.loginWithGoogle defaultConfig promptSucceeded)
  = Thrown (Error "Google OAuth is not configured")
  /\ fst (AuthProvider.loginWithMicrosoft defaultConfig promptSucceeded)
     = Thrown (Error "Microsoft OAuth is not configured").
Proof.
  destruct (oauth_not_configured defaultConfig promptSucceeded) as (Hg & Hm & _).
  split; [apply (Hg eq_refl)|apply (Hm eq_refl)].
Defined.

(** ** context.tsx: biometrics and refresh *)

Section EnableAndRefresh.
Context `{!Json AuthTokens, !Json User, !Json BiometricCredentials}.

(** X20.  [enableBiometrics] never raises: it returns true or false.  When
    it returns false the state holds a non-empty error message.  On a device
    without biometrics it returns false with the message "not available",
    shows no prompt and writes to no store. *)
Theorem enableBiometrics_never_raises (render : SessionState) (w : World) :
  (exists b,
     fst (AuthProvider.enableBiometrics render w) = Returned b
     /\ (b = false ->
         exists m,
           error (state (snd (AuthProvider.enableBiometrics render w))) = Some m
           /\ truthy m = true))
  /\ (isAvailable (capabilities_of (head (probes w))) = false ->
      fst (AuthProvider.enableBiometrics render w) = Returned false
      /\ error (state (snd (AuthProvider.enableBiometrics render w)))
         = Some "Biometric authentication is not available"
      /\ biometricPrompts (snd (AuthProvider.enableBiometrics render w))
         = biometricPrompts w
      /\ stores (snd (AuthProvider.enableBiometrics render w)) = stores w).
Proof.
  split.
  - unfold AuthProvider.enableBiometrics, try_catch.
    match goal with |- context [match ?body w with _ => _ end] =>
      destruct (body w) as [[b|e] w1] eqn:Hbody end.
    + exists b. split; [reflexivity|]. intros ->. exfalso.
      destruct (bind_inv_returned _ _ _ _ _ Hbody) as (caps & w2 & _ & H1).
      destruct (negb (isAvailable caps)); [discriminate|].
      destruct (bind_inv_returned _ _ _ _ _ H1) as ([] & w3 & _ & H2).
      destruct (user render) as [u|]; [|discriminate].
      destruct (negb (truthy (email u))); [discriminate|].
      destruct (bind_inv_returned _ _ _ _ _ H2) as ([] & w4 & _ & H3).
      destruct (bind_inv_returned _ _ _ _ _ H3) as ([] & w5 & _ & H4).
      discriminate.
    + exists false. split; [reflexivity|]. intros _.
      exists (message_or e "Failed to enable biometrics").
      split; [reflexivity|]. unfold message_or. apply or_else_truthy. reflexivity.
  - intros Ha. destruct (checkCapabilities_run w) as (w1 & Hrun & _ & Hb & Hs & _).
    unfold AuthProvider.enableBiometrics.
    erewrite try_catch_thrown;
      [|rewrite (bind_returned _ _ _ _ _ Hrun); rewrite Ha; reflexivity].
    repeat split; assumption.
Qed.

Lemma storeTokens_returned t w w' :
  AuthStorage.storeTokens t w = (Returned tt, w') ->
  secureStore w' = tokens_written t (secureStore w)
  /\ asyncStorage w' = asyncStorage w
  /\ state w' = state w /\ traffic w' = traffic w.
Proof.
  unfold AuthStorage.storeTokens, SecureStore.setItemAsync, try_catch, bind,
    next_fault, modify, throw, ret, tokens_written.
  destruct (storeFaults w) as [|[|] fs] eqn:Hf; simpl; try discriminate;
    destruct (refreshToken t) as [r|]; simpl;
    try (destruct (truthy r)); simpl; rewrite ?Hf; simpl;
    try (intros [= <-]; repeat split; fail);
    destruct fs as [|[|] fs']; simpl; try discriminate;
    intros [= <-]; repeat split.
Qed.

Lemma storeUser_returned u w w' :
  AuthStorage.storeUser u w = (Returned tt, w') ->
  asyncStorage w' = <[USER := stringify u]> (asyncStorage w)
  /\ secureStore w' = secureStore w
  /\ state w' = state w /\ traffic w' = traffic w.
Proof.
  unfold AuthStorage.storeUser, AsyncStorage.setItem, try_catch, bind,
    next_fault, modify, throw.
  destruct (storeFaults w) as [|[|] fs]; simpl; intros [= <-]; repeat split.
Qed.

Lemma traffic_after_fetch {A} (replies : Server -> list (Reply A)) rest r w :
  requests (events (after_fetch replies rest r w)) = (requests (events w) ++ [r])%list.
Proof. unfold after_fetch, requests. simpl. rewrite omap_app. reflexivity. Qed.

Lemma requests_setter e l :
  (forall r, e <> Fetch r) -> requests (l ++ [e]) = requests l.
Proof.
  intros He. unfold requests. rewrite omap_app. simpl.
  destruct e; try (rewrite app_nil_r; reflexivity). elim (He r). reflexivity.
Qed.

(** X21.  After a [refreshToken] that returns, the token record in the
    state is the one [getTokens] would read from the secure store, and it
    has a non-empty refresh token: the new one when the reply brought one,
    the one just used otherwise.  The user in the state is replaced only
    when the reply brought a user, and one request left for the gateway,
    carrying the refresh token the render held. *)
Theorem refreshToken_success (render : SessionState) (w w' : World) :
  AuthProvider.refreshToken render w = (Returned tt, w') ->
  exists r cfg d t,
    AuthProvider.current_refreshToken render = Some r
    /\ apiConfig w = Some cfg
    /\ next_reply refresh_replies w = Ok2xx d
    /\ tokens (state w') = Some t
    /\ tokens_read (secureStore w') = Some t
    /\ truthy_opt (refreshToken t) = true
    /\ refreshToken t
       = Some (if truthy_opt (refresh_refreshToken d)
               then default EmptyString (refresh_refreshToken d) else r)
    /\ user (state w')
       = match refresh_user d with Some u => Some u | None => user (state w) end
    /\ requests (events w')
       = (requests (events w)
          ++ [{| url := apiBaseUrl cfg +:+ "/auth/refresh"; method := "POST";
                 bearer := None; body := BodyRefresh r |}])%list.
Proof.
  unfold AuthProvider.refreshToken. intros H.
  destruct (try_catch_inv _ _ _ _ _ H) as [(a & Hbody & _)|(e & w1 & _ & Hh)].
  2:{ destruct (bind_inv _ _ _ _ _ Hh) as [(u & w2 & _ & Ht)|(e' & _ & He)];
        discriminate. }
  clear H. unfold AuthProvider.current_refreshToken in *.
  destruct (tokens render) as [t0|]; [|discriminate].
  destruct (refreshToken t0) as [r|]; [|discriminate].
  destruct (truthy r) eqn:Hr; [|discriminate].
  destruct (bind_inv_returned _ _ _ _ _ Hbody) as (resp & w1 & Hapi & H1).
  destruct (api_refreshToken_returned r w w1 resp Hapi)
    as (cfg & d & Hc & Hd & Hrt & _ & _ & Hu & Hw1).
  destruct (bind_inv_returned _ _ _ _ _ H1) as ([] & w2 & Hst & H2).
  destruct (storeTokens_returned _ _ _ Hst) as (Hsec2 & _ & Hs2 & Ht2).
  destruct (bind_inv_returned _ _ _ _ _ H2) as ([] & w3 & Hset & H3).
  injection Hset as <-.
  assert (Htr : truthy_opt (refreshToken (refreshed_tokens resp)) = true).
  { rewrite Hrt. simpl. destruct (refresh_refreshToken d) as [x|]; simpl; [|exact Hr].
    destruct (truthy x) eqn:Hx; [exact Hx|exact Hr]. }
  assert (Hreq : requests (events w2)
                 = (requests (events w)
                    ++ [{| url := apiBaseUrl cfg +:+ "/auth/refresh"; method := "POST";
                           bearer := None; body := BodyRefresh r |}])%list).
  { injection Ht2 as Ht2 _. rewrite Ht2, Hw1. apply traffic_after_fetch. }
  assert (Hus : user (state w2) = user (state w)).
  { rewrite Hs2, Hw1. reflexivity. }
  exists r, cfg, d, (refreshed_tokens resp).
  split; [reflexivity|]. split; [exact Hc|]. split; [exact Hd|].
  rewrite Hu in H3. destruct (refresh_user d) as [u|].
  - destruct (bind_inv_returned _ _ _ _ _ H3) as ([] & w4 & Hsu & H4).
    destruct (storeUser_returned _ _ _ Hsu) as (_ & Hsec4 & Hs4 & Ht4).
    injection H4 as H4. subst w'. simpl.
    split; [rewrite Hs4; reflexivity|].
    split; [rewrite Hsec4; simpl; rewrite Hsec2; apply tokens_read_written; auto|].
    split; [exact Htr|]. split; [exact Hrt|]. split; [reflexivity|].
    injection Ht4 as Ht4 _. rewrite requests_setter by discriminate.
    rewrite Ht4. simpl. rewrite requests_setter by discriminate. exact Hreq.
  - injection H3 as H3. subst w'. simpl.
    split; [reflexivity|].
    split; [rewrite Hsec2; apply tokens_read_written; auto|].
    split; [exact Htr|]. split; [exact Hrt|]. split; [exact Hus|].
    rewrite requests_setter by discriminate. exact Hreq.
Qed.

End EnableAndRefresh.

Lemma refreshToken_success_witness :
  exists r cfg d t,
    AuthProvider.current_refreshToken signedIn = Some r
    /\ apiConfig refreshAccepted = Some cfg
    /\ next_reply refresh_replies refreshAccepted = Ok2xx d
    /\ tokens (state (snd (AuthProvider.refreshToken signedIn refreshAccepted))) = Some t
    /\ refreshToken t = Some "rt-2".
Proof.
  destruct (refreshToken_success signedIn refreshAccepted
              (snd (AuthProvider.refreshToken signedIn refreshAccepted)))
    as (r & cfg & d & t & Hr & Hc & Hd & Ht & _ & _ & Hrt & _).
  - vm_compute. reflexivity.
  - exists r, cfg, d, t. repeat split; try assumption.
    rewrite Hrt. vm_compute in Hd. injection Hd as <-. reflexivity.
Defined.

(** ** context.tsx: the mount effect and the timer *)

(** What [getUser] reads from an AsyncStorage that answers. *)
Definition user_read `{!Json User} (s : gmap string string) : option User :=
  if truthy_opt (s !! USER) then parse (default EmptyString (s !! USER)) else None.

(** The state of a restored session. *)
Definition restored (u : User) (t : AuthTokens) : SessionState :=
  {| user := Some u; tokens := Some t; isLoading := false; error := None |}.

(** The provider's functions in a render without tokens reach neither the
    gateway nor the device: a frame that the stores and the setters keep is
    enough for them. *)
Section Offline.
Context (R : World -> World -> Prop) `{!Frame R, !StoreStable R, !SetterStable R}.
Context `{!Json AuthTokens, !Json User, !Json BiometricCredentials}.

Lemma logout_offline (render : SessionState) :
  tokens render = None -> respects R (AuthProvider.logout render).
Proof. intros Hn. unfold AuthProvider.logout. rewrite Hn. frame. Qed.

Lemma refreshToken_offline (render : SessionState) :
  tokens render = None -> respects R (AuthProvider.refreshToken render).
Proof.
  intros Hn. pose proof (logout_offline render Hn).
  unfold AuthProvider.refreshToken, AuthProvider.current_refreshToken.
  rewrite Hn. frame.
Qed.

Lemma initializeAuth_offline (render : SessionState) :
  tokens render = None -> respects R (AuthProvider.initializeAuth render).
Proof.
  intros Hn. pose proof (logout_offline render Hn).
  pose proof (refreshToken_offline render Hn).
  unfold AuthProvider.initializeAuth. frame.
Qed.

End Offline.

Section Mount.
Context `{!Json AuthTokens, !Json User, !Json BiometricCredentials}.

Lemma getUser_reads w :
  reliable w -> AuthStorage.getUser w = (Returned (user_read (asyncStorage w)), w).
Proof.
  intros Hw. unfold AuthStorage.getUser, user_read, try_catch.
  rewrite (bind_returned _ _ _ _ _ (getItem_reliable w Hw _)).
  destruct (truthy_opt (asyncStorage w !! USER)); [|reflexivity].
  destruct (parse (default EmptyString (asyncStorage w !! USER))); reflexivity.
Qed.

(** X22.  The mount effect returns in every world, whatever the stores hold
    and whether they answer or fault, and leaves [loading] false.  It
    reaches neither the gateway, the biometric device nor the OAuth
    prompt. *)
Theorem mount_always_settles (config : AuthConfig) (w : World) :
  fst (mount config w) = Returned tt
  /\ isLoading (state (snd (mount config w))) = false
  /\ collaborators (snd (mount config w)) = collaborators w.
Proof.
  set (w0 := with_state (fun _ => initialState) (with_apiConfig (Some config) w)).
  assert (Hm : mount config w = AuthProvider.initializeAuth initialState w0) by reflexivity.
  rewrite Hm. split; [|split].
  - unfold AuthProvider.initializeAuth, try_finally, try_catch.
    match goal with |- context [match ?body w0 with _ => _ end] =>
      destruct (body w0) as [[[]|e] w1] end; reflexivity.
  - unfold AuthProvider.initializeAuth, try_finally.
    match goal with |- context [match ?c w0 with _ => _ end] =>
      destruct (c w0) as [o w1] end; reflexivity.
  - transitivity (collaborators w0); [|reflexivity].
    apply (initializeAuth_offline (unchanged collaborators) initialState eq_refl w0).
Qed.

(** X23.  On a store that works, the mount effect restores the session
    that is stored when its token record has not expired: tokens and user
    go to the state and the session counts as authenticated.  With the
    record present but no user stored, or with no record at all, the state
    ends logged out.  In all these cases both stores are left as they
    were, an orphaned token record included. *)
Theorem mount_restores (config : AuthConfig) (w : World) :
  reliable w ->
  (forall t,
     tokens_read (secureStore w) = Some t ->
     AuthStorage.isTokenExpired (now w) t = false ->
     state (snd (mount config w))
     = match user_read (asyncStorage w) with
       | Some u => restored u t
       | None => loggedOut
       end
     /\ AuthProvider.isAuthenticated (state (snd (mount config w)))
          (now (snd (mount config w)))
        = present (user_read (asyncStorage w)))
  /\ (tokens_read (secureStore w) = None -> state (snd (mount config w)) = loggedOut)
  /\ ((forall t, tokens_read (secureStore w) = Some t ->
                 AuthStorage.isTokenExpired (now w) t = false) ->
      stores (snd (mount config w)) = stores w).
Proof.
  intros Hw.
  set (w0 := with_state (fun _ => initialState) (with_apiConfig (Some config) w)).
  set (w1 := snd (setIsLoading true w0)).
  assert (Hw1 : reliable w1) by exact Hw.
  assert (Hread : all2 AuthStorage.getTokens AuthStorage.getUser w1
                  = (Returned (tokens_read (secureStore w), user_read (asyncStorage w)), w1)).
  { exact (all2_returned _ _ _ _ _ _ _ (getTokens_reliable w1 Hw1)
             (getUser_reads w1 Hw1)). }
  assert (Hvalid : forall t,
            tokens_read (secureStore w) = Some t ->
            AuthStorage.isTokenExpired (now w) t = false ->
            mount config w
            = (Returned tt,
               snd (setIsLoading false
                      match user_read (asyncStorage w) with
                      | Some u => snd (setUser (Some u) (snd (setTokens (Some t) w1)))
                      | None => w1
                      end))).
  { intros t Ht Hexp. unfold mount, AuthAPI.initialize.
    erewrite bind_returned by reflexivity.
    erewrite bind_returned by reflexivity. fold w0.
    unfold AuthProvider.initializeAuth.
    eapply try_finally_run; [|reflexivity].
    apply try_catch_returned.
    erewrite bind_returned by reflexivity. fold w1.
    rewrite (bind_returned _ _ _ _ _ Hread).
    erewrite bind_returned by reflexivity.
    cbn [fst snd]. rewrite Ht. change (now w1) with (now w). rewrite Hexp.
    cbn [present andb negb].
    destruct (user_read (asyncStorage w)) as [u|]; reflexivity. }
  assert (Habsent : tokens_read (secureStore w) = None ->
                    mount config w = (Returned tt, snd (setIsLoading false w1))).
  { intros Ht. unfold mount, AuthAPI.initialize.
    erewrite bind_returned by reflexivity.
    erewrite bind_returned by reflexivity. fold w0.
    unfold AuthProvider.initializeAuth.
    eapply try_finally_run; [|reflexivity].
    apply try_catch_returned.
    erewrite bind_returned by reflexivity. fold w1.
    rewrite (bind_returned _ _ _ _ _ Hread).
    erewrite bind_returned by reflexivity.
    cbn [fst snd]. rewrite Ht. reflexivity. }
  split; [|split].
  - intros t Ht Hexp. rewrite (Hvalid t Ht Hexp). cbn [snd].
    destruct (user_read (asyncStorage w)) as [u|]; (split; [reflexivity|]).
    + unfold AuthProvider.isAuthenticated. simpl.
      change (now w >=? expiresAt t) with (AuthStorage.isTokenExpired (now w) t).
      rewrite Hexp. reflexivity.
    + reflexivity.
  - intros Ht. rewrite (Habsent Ht). reflexivity.
  - intros Hall. destruct (tokens_read (secureStore w)) as [t|] eqn:Ht.
    + rewrite (Hvalid t eq_refl (Hall t eq_refl)).
      destruct (user_read (asyncStorage w)); reflexivity.
    + rewrite (Habsent eq_refl). reflexivity.
Qed.

(** X24.  A tick of the auto-refresh timer never raises.  With no tokens
    in the render, or with more than five minutes left on them, it does
    nothing at all.  Otherwise it ends with the refresh done or, when the
    refresh failed, with the state logged out. *)
Theorem checkTokenExpiry_tick (render : SessionState) (w : World) :
  fst (AuthProvider.checkTokenExpiry render w) = Returned tt
  /\ (tokens render = None -> snd (AuthProvider.checkTokenExpiry render w) = w)
  /\ (forall t,
        tokens render = Some t -> now w < expiresAt t - 300000 ->
        snd (AuthProvider.checkTokenExpiry render w) = w)
  /\ (forall t,
        tokens render = Some t -> expiresAt t - 300000 <= now w ->
        AuthProvider.checkTokenExpiry render w = AuthProvider.refreshToken render w
        \/ (fst (AuthProvider.refreshToken render w) <> Returned tt
            /\ snd (AuthProvider.checkTokenExpiry render w)
               = snd (AuthProvider.refreshToken render w)
            /\ state (snd (AuthProvider.checkTokenExpiry render w)) = loggedOut)).
Proof.
  unfold AuthProvider.checkTokenExpiry, AuthStorage.isTokenExpiringSoon.
  erewrite bind_returned by reflexivity.
  split; [|split; [|split]].
  - destruct (tokens render) as [t|]; [|reflexivity].
    destruct (now w >=? expiresAt t - 5 * 60 * 1000); [|reflexivity].
    destruct (try_catch_swallow (AuthProvider.refreshToken render) w) as [w' H].
    rewrite H. reflexivity.
  - intros ->. reflexivity.
  - intros t -> Hlt.
    destruct (Z.geb_spec (now w) (expiresAt t - 5 * 60 * 1000)); [lia|reflexivity].
  - intros t -> Hle.
    destruct (Z.geb_spec (now w) (expiresAt t - 5 * 60 * 1000)); [|lia].
    unfold try_catch.
    destruct (AuthProvider.refreshToken render w) as [[[]|e] w'] eqn:Hr.
    + left. reflexivity.
    + right. split; [discriminate|]. split; [reflexivity|].
      destruct (refreshToken_thrown render w e w' Hr) as (w1 & _ & Hl).
      destruct (logout_returns render w1) as (w2 & Hl' & Hs).
      rewrite Hl in Hl'. injection Hl' as <-. exact Hs.
Qed.

End Mount.

(** ** context.tsx: the biometric login and its switch *)

(** What the provider reads of the world besides the stores and its own
    state. *)
Definition surroundings (w : World)
    : option AuthConfig * Z
      * (list Probe * list PromptOutcome * list OAuthOutcome * (list Request * Server)) :=
  (apiConfig w, now w, collaborators w).

#[export] Instance surroundings_store : StoreStable (unchanged surroundings).
Proof. split; reflexivity. Qed.

Lemma surroundings_after_fault w : surroundings (after_fault w) = surroundings w.
Proof. unfold after_fault. destruct (storeFaults w); reflexivity. Qed.

Lemma state_after_fault w : state (after_fault w) = state w.
Proof. unfold after_fault. destruct (storeFaults w); reflexivity. Qed.

Lemma surroundings_setError e w : surroundings (snd (setError e w)) = surroundings w.
Proof. unfold surroundings. rewrite collaborators_setError. reflexivity. Qed.

Lemma surroundings_setIsLoading b w :
  surroundings (snd (setIsLoading b w)) = surroundings w.
Proof. unfold surroundings. rewrite collaborators_setIsLoading. reflexivity. Qed.

Lemma all2_inv_returned {A B} (a : Async A) (b : Async B) w x w' :
  all2 a b w = (Returned x, w') ->
  exists w1, a w = (Returned (fst x), w1) /\ b w1 = (Returned (snd x), w').
Proof.
  unfold all2. destruct (a w) as [[xa|e] w1] eqn:Ha;
    destruct (b w1) as [[xb|e'] w2] eqn:Hb; intros H; try discriminate.
  injection H as <- <-. exists w1. split; [reflexivity|exact Hb].
Qed.

Lemma authenticate_returned (promptMessage : option string) (w w' : World) :
  BiometricAuth.authenticate promptMessage w = (Returned tt, w') ->
  exists ts l err l',
    probes w = ProbeResult true true ts :: l
    /\ biometricPrompts w = AuthResult true err :: l'
    /\ w' = with_biometricPrompts l' (with_probes l w).
Proof.
  unfold BiometricAuth.authenticate, BiometricAuth.checkCapabilities,
    BiometricAuth.probe, BiometricAuth.authenticateAsync, try_catch, bind.
  destruct (probes w) as [|[|h e ts] l] eqn:Hp; simpl; try discriminate.
  destruct h, e; simpl; try discriminate.
  destruct (biometricPrompts w) as [|[e|[|] err] l'] eqn:Hb; simpl;
    try discriminate.
  - intros [= <-]. exists ts, l, err, l'. repeat split.
  - destruct (String.eqb err "user_cancel"); [discriminate|].
    destruct (String.eqb err "not_enrolled"); [discriminate|].
    destruct (String.eqb err "not_available"); discriminate.
Qed.

Section BiometricLogin.
Context `{!Json AuthTokens, !Json User, !Json BiometricCredentials}.

Lemma getBiometricCredentials_runs w :
  exists v,
    AuthStorage.getBiometricCredentials w = (Returned v, after_fault w)
    /\ (v <> None ->
        parse (default EmptyString (secureStore w !! BIOMETRIC_CREDENTIALS)) = v).
Proof.
  unfold AuthStorage.getBiometricCredentials, try_catch.
  destruct (getItemAsync_runs BIOMETRIC_CREDENTIALS w) as [Hr|Hr].
  - rewrite (bind_returned _ _ _ _ _ Hr).
    destruct (truthy_opt (secureStore w !! BIOMETRIC_CREDENTIALS));
      [|eexists; split; [reflexivity|congruence]].
    destruct (parse (default EmptyString (secureStore w !! BIOMETRIC_CREDENTIALS)))
      as [c|]; eexists; (split; [reflexivity|]); [auto|congruence].
  - rewrite (bind_thrown _ _ _ _ _ Hr). eexists. split; [reflexivity|congruence].
Qed.

Lemma api_loginWithHash_inv c w response w' :
  AuthAPI.loginWithHash c w = (Returned response, w') ->
  exists cfg d,
    apiConfig w = Some cfg
    /\ next_reply session_replies w = Ok2xx d
    /\ response = {| response_user := data_user d;
                     response_tokens :=
                       tokens_of (now w) (data_accessToken d)
                         (data_refreshToken d) (data_expiresIn d) |}
    /\ w' = after_fetch session_replies with_session_replies
              {| url := apiBaseUrl cfg +:+ "/auth/login-hash"; method := "POST";
                 bearer := None; body := BodyHash c |} w.
Proof.
  intros H. destruct (apiConfig w) as [cfg|] eqn:Hc.
  - rewrite (api_loginWithHash_returned c w cfg Hc) in H.
    destruct (next_reply session_replies w) as [e|m|d] eqn:Hr; try discriminate.
    injection H as <- <-. exists cfg, d. repeat split.
  - unfold AuthAPI.loginWithHash, try_catch, AuthAPI.config_apiBaseUrl, bind,
      get_world in H. simpl in H. rewrite Hc in H. discriminate.
Qed.

Lemma adopt_returned response w w' :
  AuthProvider.adopt response w = (Returned tt, w') ->
  state w' = {| user := Some (response_user response);
                tokens := Some (response_tokens response);
                isLoading := isLoading (state w); error := error (state w) |}
  /\ surroundings w' = surroundings w.
Proof.
  unfold AuthProvider.adopt. intros H.
  destruct (bind_inv_returned _ _ _ _ _ H) as (x & w1 & Hall & H1). clear H.
  destruct (all2_inv_returned _ _ _ _ _ Hall) as (w0 & Ht & Hu).
  assert (H01 : state w1 = state w /\ surroundings w1 = surroundings w).
  { split.
    - transitivity (state w0).
      + apply (respects_run (unchanged state) _ _ _ _
                 (storeUser_respects (unchanged state) _) Hu).
      + apply (respects_run (unchanged state) _ _ _ _
                 (storeTokens_respects (unchanged state) _) Ht).
    - transitivity (surroundings w0).
      + apply (respects_run (unchanged surroundings) _ _ _ _
                 (storeUser_respects (unchanged surroundings) _) Hu).
      + apply (respects_run (unchanged surroundings) _ _ _ _
                 (storeTokens_respects (unchanged surroundings) _) Ht). }
  destruct H01 as [Hs Hsur].
  destruct (bind_inv_returned _ _ _ _ _ H1) as ([] & w2 & H2 & H3).
  injection H2 as H2. injection H3 as H3. subst w2 w'. split.
  - simpl. rewrite Hs. reflexivity.
  - unfold setUser, setTokens, modify. cbn [snd].
    rewrite <- Hsur. unfold surroundings, collaborators, traffic. simpl.
    rewrite !requests_setter by discriminate. reflexivity.
Qed.

(** X25.  A [loginWithBiometrics] that returns found the flag stored as
    [true] and a credential that decodes, showed one biometric prompt, which
    succeeded, on a device with hardware and an enrolment, and sent one
    request: a POST to [/auth/login-hash] carrying that stored credential.
    The user and tokens of the 2xx reply are in the state, with no error and
    [loading] false. *)
Theorem loginWithBiometrics_returned (config : AuthConfig) (w w' : World) :
  AuthProvider.loginWithBiometrics config w = (Returned tt, w') ->
  exists c cfg d ts l err l',
    asyncStorage w !! BIOMETRIC_ENABLED = Some "true"
    /\ parse (default EmptyString (secureStore w !! BIOMETRIC_CREDENTIALS)) = Some c
    /\ probes w = ProbeResult true true ts :: l
    /\ biometricPrompts w = AuthResult true err :: l'
    /\ biometricPrompts w' = l'
    /\ apiConfig w = Some cfg
    /\ next_reply session_replies w = Ok2xx d
    /\ requests (events w')
       = (requests (events w)
          ++ [{| url := apiBaseUrl cfg +:+ "/auth/login-hash"; method := "POST";
                 bearer := None; body := BodyHash c |}])%list
    /\ state w'
       = {| user := Some (data_user d);
            tokens := Some (tokens_of (now w) (data_accessToken d)
                              (data_refreshToken d) (data_expiresIn d));
            isLoading := false; error := None |}.
Proof.
  unfold AuthProvider.loginWithBiometrics, try_finally. intros H.
  match type of H with context [match ?c w with _ => _ end] =>
    destruct (c w) as [o wa] eqn:Htc end.
  cbn in H. injection H as -> <-.
  destruct (try_catch_inv _ _ _ _ _ Htc) as [(a & Hbody & _)|(e & w1 & _ & Hh)].
  2:{ destruct (bind_inv _ _ _ _ _ Hh) as [(u & w2 & _ & Ht)|(e' & _ & He)];
        discriminate. }
  clear Htc.
  destruct (bind_inv_returned _ _ _ _ _ Hbody) as ([] & w1 & H1 & Hb1). clear Hbody.
  assert (E1 : w1 = snd (setIsLoading true w)) by (rewrite H1; reflexivity).
  destruct (bind_inv_returned _ _ _ _ _ Hb1) as ([] & w2 & H2 & Hb2). clear Hb1.
  assert (E2 : w2 = snd (setError None w1)) by (rewrite H2; reflexivity).
  clear H1 H2.
  assert (Hsur2 : surroundings w2 = surroundings w).
  { subst w2 w1. rewrite surroundings_setError, surroundings_setIsLoading. reflexivity. }
  assert (Hst2 : stores w2 = stores w) by (subst w2 w1; reflexivity).
  assert (Hs2 : isLoading (state w2) = true /\ error (state w2) = None)
    by (subst w2 w1; split; reflexivity).
  clear E1 E2 w1.
  destruct (bind_inv_returned _ _ _ _ _ Hb2) as (b & w3 & H3 & Hb3). clear Hb2.
  destruct (isBiometricEnabled_runs w2) as (b' & Hr3 & Hflag & _).
  rewrite Hr3 in H3. injection H3 as -> <-.
  destruct b; [|discriminate]. simpl in Hb3. specialize (Hflag eq_refl).
  destruct (bind_inv_returned _ _ _ _ _ Hb3) as (sc & w4 & H4 & Hb4). clear Hb3.
  destruct (getBiometricCredentials_runs (after_fault w2)) as (v & Hr4 & Hcred).
  rewrite Hr4 in H4. injection H4 as -> <-.
  destruct sc as [stored|]; [|discriminate].
  specialize (Hcred ltac:(discriminate)).
  set (w4 := after_fault (after_fault w2)) in *.
  assert (Hsur4 : surroundings w4 = surroundings w).
  { unfold w4. rewrite !surroundings_after_fault. exact Hsur2. }
  assert (Hs4 : state w4 = state w2).
  { unfold w4. rewrite !state_after_fault. reflexivity. }
  destruct (bind_inv_returned _ _ _ _ _ Hb4) as ([] & w5 & H5 & Hb5). clear Hb4.
  destruct (authenticate_returned _ _ _ H5) as (ts & l & err & l' & Hp & Hpr & Hw5).
  destruct (bind_inv_returned _ _ _ _ _ Hb5) as (response & w6 & H6 & Hb6). clear Hb5.
  destruct (api_loginWithHash_inv _ _ _ _ H6) as (cfg & d & Hc & Hd & Hresp & Hw6).
  destruct a. destruct (adopt_returned _ _ _ Hb6) as [Hs7 Hsur7].
  assert (Hstored : {| credential_email := credential_email stored;
                       hashedPassword := hashedPassword stored |} = stored)
    by (destruct stored; reflexivity).
  rewrite Hstored in Hw6.
  injection Hsur4 as Hc4 Hn4 Hpb4 Hbp4 Ho4 Hreq4 Hsrv4.
  injection Hst2 as Hsec2 Hasy2 _.
  exists stored, cfg, d, ts, l, err, l'.
  split; [rewrite <- Hasy2; exact Hflag|].
  split.
  { destruct (after_fault_stores w2) as [Hsec _].
    rewrite Hsec, Hsec2 in Hcred. exact Hcred. }
  split; [rewrite <- Hpb4; exact Hp|].
  split; [rewrite <- Hbp4; exact Hpr|].
  injection Hsur7 as _ _ _ Hbp7 _ Hreq7 _.
  change (biometricPrompts wa = l'
          /\ apiConfig w = Some cfg
          /\ next_reply session_replies w = Ok2xx d
          /\ requests (events wa ++ [SetIsLoading false])
             = (requests (events w)
                ++ [{| url := apiBaseUrl cfg +:+ "/auth/login-hash"; method := "POST";
                       bearer := None; body := BodyHash stored |}])%list
          /\ {| user := user (state wa); tokens := tokens (state wa);
                isLoading := false; error := error (state wa) |}
             = {| user := Some (data_user d);
                  tokens := Some (tokens_of (now w) (data_accessToken d)
                                    (data_refreshToken d) (data_expiresIn d));
                  isLoading := false; error := None |}).
  rewrite requests_setter by discriminate.
  split; [rewrite Hbp7, Hw6, Hw5; reflexivity|].
  split; [rewrite <- Hc4, <- Hc, Hw5; reflexivity|].
  split; [rewrite <- Hd, Hw5; unfold next_reply; simpl; rewrite Hsrv4; reflexivity|].
  split.
  - rewrite Hreq7, Hw6, traffic_after_fetch, Hw5. simpl. rewrite Hreq4. reflexivity.
  - rewrite Hs7, Hresp, Hw6, Hw5. simpl. rewrite Hs4.
    destruct Hs2 as [_ ->]. rewrite Hn4. reflexivity.
Qed.

(** X26.  [disableBiometrics] writes the flag once.  When AsyncStorage
    takes the write it returns, with [false] stored under the flag and the
    error attribute untouched.  When the write faults it throws "Failed to
    update biometric preference", that message is the error attribute, and
    both stores hold what they held.  After a [disableBiometrics] that
    returned, [loginWithBiometrics] throws "not enabled". *)
Theorem disableBiometrics_outcomes (w : World) :
  (pending 0 w = false ->
   fst (AuthProvider.disableBiometrics w) = Returned tt
   /\ asyncStorage (snd (AuthProvider.disableBiometrics w))
      = <[BIOMETRIC_ENABLED := "false"]> (asyncStorage w)
   /\ state (snd (AuthProvider.disableBiometrics w)) = state w)
  /\ (pending 0 w = true ->
      fst (AuthProvider.disableBiometrics w)
      = Thrown (Error "Failed to update biometric preference")
      /\ error (state (snd (AuthProvider.disableBiometrics w)))
         = Some "Failed to update biometric preference"
      /\ secureStore (snd (AuthProvider.disableBiometrics w)) = secureStore w
      /\ asyncStorage (snd (AuthProvider.disableBiometrics w)) = asyncStorage w)
  /\ (forall config,
        fst (AuthProvider.disableBiometrics w) = Returned tt ->
        fst (AuthProvider.loginWithBiometrics config
               (snd (AuthProvider.disableBiometrics w)))
        = Thrown (Error "Biometric authentication is not enabled")).
Proof.
  split; [|split].
  - unfold pending, AuthProvider.disableBiometrics, AuthStorage.setBiometricEnabled,
      AsyncStorage.setItem, try_catch, bind, next_fault, modify, throw.
    destruct (storeFaults w) as [|[|] fs]; simpl; try discriminate;
      intros _; repeat split.
  - unfold pending, AuthProvider.disableBiometrics, AuthStorage.setBiometricEnabled,
      AsyncStorage.setItem, try_catch, bind, next_fault, modify, throw.
    destruct (storeFaults w) as [|[|] fs]; simpl; try discriminate;
      intros _; repeat split.
  - intros config Hret.
    destruct (AuthProvider.disableBiometrics w) as [o w'] eqn:Hrun.
    simpl in Hret. subst o. cbn [snd].
    destruct (disableBiometrics_returned w w' Hrun) as [Ha _].
    apply loginWithBiometrics_flag_off.
    rewrite Ha, lookup_insert_eq. discriminate.
Qed.

End BiometricLogin.

Lemma mount_restores_witness :
  state (snd (mount defaultConfig inSession)) = restored alice firstSession
  /\ AuthProvider.isAuthenticated (state (snd (mount defaultConfig inSession)))
       (now (snd (mount defaultConfig inSession))) = true.
Proof.
  destruct (mount_restores defaultConfig inSession eq_refl) as (H & _ & _).
  destruct (H firstSession) as [Hs Ha];
    [vm_compute; reflexivity|vm_compute; reflexivity|].
  split; [rewrite Hs|rewrite Ha]; vm_compute; reflexivity.
Defined.

(** The device holds an enabled biometric login, the prompt will succeed
    and the gateway will accept the stored credential. *)
Definition readyForBiometricLogin : World :=
  with_server (server acceptsLogin)
    (with_probes [ProbeResult true true [1]]
       (with_biometricPrompts [AuthResult true EmptyString] biometricEnabled)).

Lemma loginWithBiometrics_returned_witness :
  exists c cfg,
    parse (default EmptyString
             (secureStore readyForBiometricLogin !! BIOMETRIC_CREDENTIALS)) = Some c
    /\ requests (events (snd (AuthProvider.loginWithBiometrics defaultConfig
                                readyForBiometricLogin)))
       = (requests (events readyForBiometricLogin)
          ++ [{| url := apiBaseUrl cfg +:+ "/auth/login-hash"; method := "POST";
                 bearer := None; body := BodyHash c |}])%list.
Proof.
  destruct (loginWithBiometrics_returned defaultConfig readyForBiometricLogin
              (snd (AuthProvider.loginWithBiometrics defaultConfig
                      readyForBiometricLogin)))
    as (c & cfg & d & ts & l & err & l' & _ & Hc & _ & _ & _ & _ & _ & Hreq & _).
  - vm_compute. reflexivity.
  - exists c, cfg. split; [exact Hc|exact Hreq].
Defined.

(** X27.  With the gateway configured, [getProfile] sends one GET to
    [/auth/profile] under the base URL, with the access token as bearer and
    no body.  A 2xx reply gives the user of the body; any other reply throws
    the message of the body, or "Failed to get profile" when the body has
    none or an empty one; a request that fails is rethrown as it is.  The
    replies waiting for the other requests are not touched. *)
Theorem api_getProfile_run (accessToken : string) (w : World) (cfg : AuthConfig) :
  apiConfig w = Some cfg ->
  fst (AuthAPI.getProfile accessToken w)
  = match next_reply profile_replies w with
    | NetworkDown e => Thrown e
    | NotOk m => Thrown (Error (or_else m "Failed to get profile"))
    | Ok2xx u => Returned u
    end
  /\ requests (events (snd (AuthAPI.getProfile accessToken w)))
     = (requests (events w)
        ++ [{| url := apiBaseUrl cfg +:+ "/auth/profile"; method := "GET";
               bearer := Some accessToken; body := NoBody |}])%list
  /\ profile_replies (server (snd (AuthAPI.getProfile accessToken w)))
     = tail (profile_replies (server w))
  /\ session_replies (server (snd (AuthAPI.getProfile accessToken w)))
     = session_replies (server w)
  /\ refresh_replies (server (snd (AuthAPI.getProfile accessToken w)))
     = refresh_replies (server w)
  /\ logout_replies (server (snd (AuthAPI.getProfile accessToken w)))
     = logout_replies (server w)
  /\ (forall m, truthy (or_else m "Failed to get profile") = true).
Proof.
  intros Hc.
  assert (Hrun : AuthAPI.getProfile accessToken w
                 = (match next_reply profile_replies w with
                    | NetworkDown e => Thrown e
                    | NotOk m => Thrown (Error (or_else m "Failed to get profile"))
                    | Ok2xx u => Returned u
                    end,
                    after_fetch profile_replies with_profile_replies
                      {| url := apiBaseUrl cfg +:+ "/auth/profile"; method := "GET";
                         bearer := Some accessToken; body := NoBody |} w)).
  { unfold AuthAPI.getProfile, try_catch.
    rewrite (bind_returned _ _ _ _ _ (config_apiBaseUrl_run w cfg Hc)).
    unfold bind. rewrite fetch_run.
    destruct (next_reply profile_replies w) as [e|m|u]; reflexivity. }
  rewrite Hrun. cbn [fst snd].
  split; [reflexivity|]. split; [apply traffic_after_fetch|].
  split; [|split; [reflexivity|split; [reflexivity|split; [reflexivity|]]]].
  - unfold after_fetch. simpl. destruct (profile_replies (server w)); reflexivity.
  - intros m. apply or_else_truthy. reflexivity.
Qed.

(** The gateway knows the bearer of the access token. *)
Definition profileKnown : World :=
  with_server
    {| session_replies := []; refresh_replies := []; logout_replies := [];
       profile_replies := [Ok2xx alice] |}
    (with_apiConfig (Some defaultConfig) freshInstall).

Lemma api_getProfile_run_witness :
  fst (AuthAPI.getProfile "at-1" profileKnown) = Returned alice
  /\ profile_replies (server (snd (AuthAPI.getProfile "at-1" profileKnown))) = [].
Proof.
  destruct (api_getProfile_run "at-1" profileKnown defaultConfig eq_refl)
    as (Ho & _ & Hp & _).
  split; [rewrite Ho; reflexivity|rewrite Hp; reflexivity].
Defined.

(** ** EmailPasswordLogin.tsx *)

(** The code units below 256 that [\s] and [trim] take for white space:
    TAB, LF, VT, FF, CR, SP and NBSP. *)
Definition isWhiteSpace (c : ascii) : bool :=
  let n := nat_of_ascii c in
  ((9 <=? n)%nat && (n <=? 13)%nat) || (n =? 32)%nat || (n =? 160)%nat.

Fixpoint trimStart (s : string) : string :=
  match s with
  | EmptyString => EmptyString
  | String c s' => if isWhiteSpace c then trimStart s' else s
  end.

Fixpoint trimEnd (s : string) : string :=
  match s with
  | EmptyString => EmptyString
  | String c s' =>
      match trimEnd s' with
      | EmptyString => if isWhiteSpace c then EmptyString else String c EmptyString
      | t => String c t
      end
  end.

(** [s.trim()] *)
Definition trim (s : string) : string := trimEnd (trimStart s).

(** A regular expression of the kind [isValidEmail] uses: a sequence of
    items, each a set of characters to take once, or once or more.  The
    expression is anchored at both ends. *)
Inductive Quantifier := Once | OneOrMore.

Record Item := { accepts : ascii -> bool; quantifier : Quantifier }.

(** [p+] followed by [k]: as many characters as possible first, fewer on
    backtracking. *)
Fixpoint oneOrMore (p : ascii -> bool) (k : string -> bool) (s : string) : bool :=
  match s with
  | EmptyString => false
  | String c s' => p c && (oneOrMore p k s' || k s')
  end.

Definition once (p : ascii -> bool) (k : string -> bool) (s : string) : bool :=
  match s with
  | EmptyString => false
  | String c s' => p c && k s'
  end.

(** [/^...$/.test(s)] *)
Fixpoint test (regex : list Item) : string -> bool :=
  match regex with
  | [] => fun s => negb (truthy s)
  | i :: regex' =>
      match quantifier i with
      | Once => once (accepts i) (test regex')
      | OneOrMore => oneOrMore (accepts i) (test regex')
      end
  end.

(** [[^\s@]] *)
Definition notSpaceNorAt (c : ascii) : bool :=
  negb (isWhiteSpace c) && negb (Ascii.eqb c "@"%char).

Definition only (x c : ascii) : bool := Ascii.eqb c x.

(** [/^[^\s@]+@[^\s@]+\.[^\s@]+$/] *)
Definition emailRegex : list Item :=
  [ {| accepts := notSpaceNorAt; quantifier := OneOrMore |};
    {| accepts := only "@"%char; quantifier := Once |};
    {| accepts := notSpaceNorAt; quantifier := OneOrMore |};
    {| accepts := only "."%char; quantifier := Once |};
    {| accepts := notSpaceNorAt; quantifier := OneOrMore |} ].

Definition isValidEmail (email : string) : bool := test emailRegex email.

(** Every character of [s] is in [p]. *)
Fixpoint every (p : ascii -> bool) (s : string) : bool :=
  match s with
  | EmptyString => true
  | String c s' => p c && every p s'
  end.

(** A non-empty run of characters that are neither white space nor [@]. *)
Definition word (s : string) : Prop := s <> EmptyString /\ every notSpaceNorAt s = true.

Lemma oneOrMore_spec p k s :
  oneOrMore p k s = true
  <-> exists a r, s = a +:+ r /\ a <> EmptyString /\ every p a = true /\ k r = true.
Proof.
  induction s as [|c s IH]; simpl.
  - split; [discriminate|].
    intros (a & r & Hs & Ha & _). destruct a; [congruence|discriminate].
  - rewrite andb_true_iff, orb_true_iff, IH. split.
    + intros [Hc [(a & r & -> & Ha & Hp & Hk)|Hk]].
      * exists (String c a), r. simpl. rewrite Hc, Hp. repeat split; try discriminate.
        exact Hk.
      * exists (String c EmptyString), s. simpl. rewrite Hc.
        repeat split; try discriminate. exact Hk.
    + intros (a & r & Hs & Ha & Hp & Hk).
      destruct a as [|c' a]; [congruence|]. simpl in Hs, Hp.
      injection Hs as <- ->. apply andb_true_iff in Hp as [Hc Hp].
      split; [exact Hc|]. destruct a as [|c'' a].
      * right. exact Hk.
      * left. exists (String c'' a), r. repeat split; try discriminate; assumption.
Qed.

Lemma once_only_spec x k s :
  once (only x) k s = true <-> exists r, s = String x r /\ k r = true.
Proof.
  destruct s as [|c s]; simpl.
  - split; [discriminate|]. intros (r & Hs & _). discriminate.
  - unfold only. rewrite andb_true_iff, Ascii.eqb_eq. split.
    + intros [-> Hk]. eauto.
    + intros (r & [= -> ->] & Hk). auto.
Qed.

Lemma append_empty (s : string) : s +:+ EmptyString = s.
Proof.
  induction s as [|c s IH]; [reflexivity|].
  change (String c (s +:+ EmptyString) = String c s). rewrite IH. reflexivity.
Qed.

Lemma isValidEmail_spec email :
  isValidEmail email = true
  <-> exists a b c,
        email = a +:+ "@" +:+ b +:+ "." +:+ c /\ word a /\ word b /\ word c.
Proof.
  unfold isValidEmail, emailRegex, word. cbn [test quantifier accepts].
  rewrite oneOrMore_spec. split.
  - intros (a & r & -> & Ha & Hpa & Hk).
    apply once_only_spec in Hk as (r1 & -> & Hk).
    apply oneOrMore_spec in Hk as (b & r2 & -> & Hb & Hpb & Hk).
    apply once_only_spec in Hk as (r3 & -> & Hk).
    apply oneOrMore_spec in Hk as (c & r4 & -> & Hc & Hpc & Hk).
    destruct r4; [|discriminate].
    exists a, b, c. split; [|auto].
    change (a +:+ String "@" (b +:+ String "." (c +:+ EmptyString))
            = a +:+ String "@" (b +:+ String "." c)).
    rewrite append_empty. reflexivity.
  - intros (a & b & c & -> & [Ha Hpa] & [Hb Hpb] & [Hc Hpc]).
    exists a, ("@" +:+ b +:+ "." +:+ c). repeat split; try assumption.
    apply once_only_spec. exists (b +:+ "." +:+ c). split; [reflexivity|].
    apply oneOrMore_spec. exists b, ("." +:+ c). repeat split; try assumption.
    apply once_only_spec. exists c. split; [reflexivity|].
    apply oneOrMore_spec. exists c, EmptyString. repeat split; try assumption.
    symmetry. apply append_empty.
Qed.

Lemma every_append p a b : every p (a +:+ b) = every p a && every p b.
Proof.
  induction a as [|c a IH]; [reflexivity|].
  change (p c && every p (a +:+ b) = p c && every p a && every p b).
  rewrite IH. apply andb_assoc.
Qed.

Definition notSpace (c : ascii) : bool := negb (isWhiteSpace c).

Lemma word_notSpace a : every notSpaceNorAt a = true -> every notSpace a = true.
Proof.
  induction a as [|c a IH]; [reflexivity|]. simpl.
  unfold notSpaceNorAt at 1. rewrite !andb_true_iff. intros [[Hc _] Ha].
  split; [exact Hc|apply IH; exact Ha].
Qed.

Lemma isValidEmail_notSpace email :
  isValidEmail email = true -> every notSpace email = true.
Proof.
  intros H. apply isValidEmail_spec in H as (a & b & c & -> & [_ Ha] & [_ Hb] & [_ Hc]).
  rewrite !every_append.
  rewrite (word_notSpace a Ha), (word_notSpace b Hb), (word_notSpace c Hc).
  reflexivity.
Qed.

Lemma trimEnd_notSpace s : every notSpace s = true -> trimEnd s = s.
Proof.
  induction s as [|c s IH]; [reflexivity|]. simpl.
  rewrite andb_true_iff. intros [Hc Hs]. rewrite (IH Hs).
  unfold notSpace in Hc. apply negb_true_iff in Hc. rewrite Hc.
  destruct s; reflexivity.
Qed.

Lemma trim_notSpace s : every notSpace s = true -> trim s = s.
Proof.
  intros H. unfold trim.
  assert (Hs : trimStart s = s).
  { destruct s as [|c s]; [reflexivity|]. simpl in *.
    apply andb_true_iff in H as [Hc _].
    unfold notSpace in Hc. apply negb_true_iff in Hc. rewrite Hc. reflexivity. }
  rewrite Hs. apply trimEnd_notSpace. exact H.
Qed.

Lemma trimEnd_space s c :
  isWhiteSpace c = true -> trimEnd (s +:+ String c EmptyString) = trimEnd s.
Proof.
  intros Hc. induction s as [|x s IH].
  - simpl. rewrite Hc. reflexivity.
  - change (trimEnd (String x (s +:+ String c EmptyString)) = trimEnd (String x s)).
    simpl. rewrite IH. reflexivity.
Qed.

(** X28.  [isValidEmail] accepts a text exactly when it is three non-empty
    runs of characters, none of them white space or [@], joined by one [@]
    and, after it, one dot.  An accepted text holds no white space, so
    [trim] leaves it as it is, and the same text with a white space before
    or after it is refused. *)
Theorem isValidEmail_shape (email : string) :
  (isValidEmail email = true
   <-> exists a b c,
         email = a +:+ "@" +:+ b +:+ "." +:+ c /\ word a /\ word b /\ word c)
  /\ (isValidEmail email = true ->
      every notSpace email = true /\ trim email = email /\ truthy email = true)
  /\ (forall c,
        isWhiteSpace c = true ->
        isValidEmail (String c email) = false
        /\ isValidEmail (email +:+ String c EmptyString) = false
        /\ (isValidEmail email = true ->
            trim (String c email) = email
            /\ trim (email +:+ String c EmptyString) = email)).
Proof.
  split; [apply isValidEmail_spec|]. split.
  - intros H. pose proof (isValidEmail_notSpace email H) as Hn.
    split; [exact Hn|]. split; [apply trim_notSpace; exact Hn|].
    destruct email; [discriminate H|reflexivity].
  - intros c Hc. split; [|split].
    + unfold isValidEmail. simpl. unfold notSpaceNorAt. rewrite Hc. reflexivity.
    + destruct (isValidEmail (email +:+ String c EmptyString)) eqn:H; [|reflexivity].
      apply isValidEmail_notSpace in H. rewrite every_append in H.
      apply andb_true_iff in H as [_ H]. simpl in H. unfold notSpace in H.
      rewrite Hc in H. discriminate.
    + intros H. pose proof (isValidEmail_notSpace email H) as Hn. split.
      * unfold trim. simpl. rewrite Hc. apply (trim_notSpace email Hn).
      * unfold trim.
        assert (Hs : trimStart (email +:+ String c EmptyString)
                     = email +:+ String c EmptyString).
        { destruct email as [|x s]; [discriminate H|].
          change (trimStart (String x (s +:+ String c EmptyString))
                  = String x (s +:+ String c EmptyString)).
          simpl in *. apply andb_true_iff in Hn as [Hx _].
          unfold notSpace in Hx. apply negb_true_iff in Hx. rewrite Hx. reflexivity. }
        rewrite Hs, (trimEnd_space email c Hc). apply trimEnd_notSpace. exact Hn.
Qed.

(** The login form.  [Alert.alert] and the callbacks of the props belong to
    the application: they are parameters here, computations of which nothing
    is known. *)
Module EmailPasswordLogin.
Section Component.
Context `{!Json AuthTokens, !Json User, !Json BiometricCredentials}.

(** [Alert.alert(title, message)]; the buttons are left out. *)
Variable alert : string -> string -> Async unit.

(** The [onSuccess] prop, called as [onSuccess?.()]. *)
Variable onSuccess : option (Async unit).

(** The [enableBiometrics] prop. *)
Variable offerBiometrics : bool.

(** The render of the provider that [useAuth] read. *)
Variable render : SessionState.

Definition handleLogin (email password : string) : Async unit :=
  if negb (truthy (trim email)) || negb (truthy (trim password)) then
    alert "Error" "Please enter both email and password"
  else if negb (isValidEmail email) then
    alert "Error" "Please enter a valid email address"
  else
    try_catch
      (AuthProvider.login {| login_email := trim email; password := password |} ;;
       (* Ask user if they want to enable biometrics after successful login *)
       (if offerBiometrics
        then alert "Enable Biometric Authentication"
               "Would you like to enable biometric authentication for faster login?"
        else ret tt) ;;
       match onSuccess with
       | Some callback => callback
       | None => ret tt
       end)
      (fun _ =>
         (* Error is already handled by the auth context *)
         ret tt).

(** [onPress] of the Enable button of that alert. *)
Definition onPressEnable : Async unit :=
  try_catch
    (AuthProvider.enableBiometrics render ;;
     alert "Success" "Biometric authentication enabled!")
    (fun _ => ret tt).

End Component.
End EmailPasswordLogin.

Section LoginForm.
Context `{!Json AuthTokens, !Json User, !Json BiometricCredentials}.
Variable alert : string -> string -> Async unit.
Variable onSuccess : option (Async unit).
Variable offerBiometrics : bool.
Variable render : SessionState.

(** X29.  [handleLogin] validates what was typed, not what it would send.
    With a blank email or password, or an email that [isValidEmail]
    refuses, it shows its alert and does nothing else.  A valid address
    typed with a white space before or after it is refused, although the
    trimmed text, which is the one [login] would be given, is valid.  With
    a valid email and a password that is not blank it never raises,
    whatever [login], the alert and [onSuccess] do.  Pressing Enable shows
    the success alert also when [enableBiometrics] returned false, as on a
    device without biometrics, where nothing was stored. *)
Theorem handleLogin_validation (email password : string) (w : World) :
  (truthy (trim email) = false \/ truthy (trim password) = false ->
   EmailPasswordLogin.handleLogin alert onSuccess offerBiometrics email password w
   = alert "Error" "Please enter both email and password" w)
  /\ (truthy (trim email) = true -> truthy (trim password) = true ->
      isValidEmail email = false ->
      EmailPasswordLogin.handleLogin alert onSuccess offerBiometrics email password w
      = alert "Error" "Please enter a valid email address" w)
  /\ (forall c,
        isWhiteSpace c = true -> isValidEmail email = true ->
        truthy (trim password) = true ->
        isValidEmail (trim (String c email)) = true
        /\ EmailPasswordLogin.handleLogin alert onSuccess offerBiometrics
             (String c email) password w
           = alert "Error" "Please enter a valid email address" w
        /\ EmailPasswordLogin.handleLogin alert onSuccess offerBiometrics
             (email +:+ String c EmptyString) password w
           = alert "Error" "Please enter a valid email address" w)
  /\ (isValidEmail email = true -> truthy (trim password) = true ->
      fst (EmailPasswordLogin.handleLogin alert onSuccess offerBiometrics
             email password w) = Returned tt)
  /\ (exists b,
        AuthProvider.enableBiometrics render w
        = (Returned b, snd (AuthProvider.enableBiometrics render w))
        /\ EmailPasswordLogin.onPressEnable alert render w
           = try_catch (alert "Success" "Biometric authentication enabled!")
               (fun _ => ret tt) (snd (AuthProvider.enableBiometrics render w)))
  /\ (isAvailable (capabilities_of (head (probes w))) = false ->
      fst (AuthProvider.enableBiometrics render w) = Returned false
      /\ stores (snd (AuthProvider.enableBiometrics render w)) = stores w).
Proof.
  split; [|split; [|split; [|split; [|split]]]].
  - unfold EmailPasswordLogin.handleLogin. intros [-> | ->]; [reflexivity|].
    rewrite orb_true_r. reflexivity.
  - unfold EmailPasswordLogin.handleLogin. intros -> -> ->. reflexivity.
  - intros c Hc Hv Hp.
    destruct (isValidEmail_spec email) as [Hspec _].
    pose proof (isValidEmail_notSpace email Hv) as Hn.
    pose proof (trim_notSpace email Hn) as Ht.
    assert (Hne : truthy email = true) by (destruct email; [discriminate Hv|reflexivity]).
    assert (Ht1 : trim (String c email) = email).
    { unfold trim. simpl. rewrite Hc. exact Ht. }
    assert (Ht2 : trim (email +:+ String c EmptyString) = email).
    { unfold trim.
      assert (Hs : trimStart (email +:+ String c EmptyString)
                   = email +:+ String c EmptyString).
      { destruct email as [|x s]; [discriminate Hv|].
        change (trimStart (String x (s +:+ String c EmptyString))
                = String x (s +:+ String c EmptyString)).
        simpl in *. apply andb_true_iff in Hn as [Hx _].
        unfold notSpace in Hx. apply negb_true_iff in Hx. rewrite Hx. reflexivity. }
      rewrite Hs, (trimEnd_space email c Hc). apply trimEnd_notSpace. exact Hn. }
    assert (Hv1 : isValidEmail (String c email) = false).
    { unfold isValidEmail. simpl. unfold notSpaceNorAt. rewrite Hc. reflexivity. }
    assert (Hv2 : isValidEmail (email +:+ String c EmptyString) = false).
    { destruct (isValidEmail (email +:+ String c EmptyString)) eqn:H; [|reflexivity].
      apply isValidEmail_notSpace in H. rewrite every_append in H.
      apply andb_true_iff in H as [_ H]. simpl in H. unfold notSpace in H.
      rewrite Hc in H. discriminate. }
    split; [rewrite Ht1; exact Hv|].
    unfold EmailPasswordLogin.handleLogin.
    rewrite Ht1, Ht2, Hne, Hp, Hv1, Hv2. split; reflexivity.
  - intros Hv Hp.
    pose proof (trim_notSpace email (isValidEmail_notSpace email Hv)) as Ht.
    assert (Hne : truthy email = true) by (destruct email; [discriminate Hv|reflexivity]).
    unfold EmailPasswordLogin.handleLogin. rewrite Ht, Hne, Hp, Hv. cbn [negb orb].
    unfold try_catch.
    match goal with |- context [match ?body w with _ => _ end] =>
      destruct (body w) as [[[]|e] w1] end; reflexivity.
  - unfold EmailPasswordLogin.onPressEnable.
    assert (Hr : exists b, AuthProvider.enableBiometrics render w
                           = (Returned b, snd (AuthProvider.enableBiometrics render w))).
    { unfold AuthProvider.enableBiometrics, try_catch.
      match goal with |- context [match ?body w with _ => _ end] =>
        destruct (body w) as [[b|e] w1] end; eexists; reflexivity. }
    destruct Hr as [b Hr]. exists b. split; [exact Hr|].
    unfold try_catch at 1. rewrite (bind_returned _ _ _ _ _ Hr). reflexivity.
  - intros Ha. destruct (checkCapabilities_run w) as (w1 & Hrun & _ & _ & Hs & _).
    unfold AuthProvider.enableBiometrics.
    erewrite try_catch_thrown;
      [|rewrite (bind_returned _ _ _ _ _ Hrun); rewrite Ha; reflexivity].
    split; [reflexivity|exact Hs].
Qed.

End LoginForm.

(** ** The login buttons *)

(** The handlers of the three buttons.  [Alert.alert] and the callbacks of
    the props are parameters, as for the form. *)
Module BiometricLogin.
Section Component.
Context `{!Json AuthTokens, !Json User, !Json BiometricCredentials}.
Variable alert : string -> string -> Async unit.
Variable onSuccess : option (Async unit).
Variable onError : option (string -> Async unit).
Variable config : AuthConfig.

Definition handleBiometricLogin : Async unit :=
  try_catch
    (AuthProvider.loginWithBiometrics config ;;
     match onSuccess with
     | Some callback => callback
     | None => ret tt
     end)
    (fun error =>
       let errorMessage := message_or error "Biometric authentication failed" in
       match onError with
       | Some callback => callback errorMessage
       | None => ret tt
       end ;;
       alert "Authentication Failed" errorMessage).

End Component.
End BiometricLogin.

Module GoogleLogin.
Section Component.
Context `{!Json AuthTokens, !Json User, !Json BiometricCredentials}.
Variable alert : string -> string -> Async unit.
Variable onSuccess : option (Async unit).
Variable onError : option (string -> Async unit).
Variable config : AuthConfig.

Definition handleGoogleLogin : Async unit :=
  try_catch
    (AuthProvider.loginWithGoogle config ;;
     match onSuccess with
     | Some callback => callback
     | None => ret tt
     end)
    (fun error =>
       let errorMessage := message_or error "Google login failed" in
       match onError with
       | Some callback => callback errorMessage
       | None => ret tt
       end ;;
       alert "Login Failed" errorMessage).

End Component.
End GoogleLogin.

Module MicrosoftLogin.
Section Component.
Context `{!Json AuthTokens, !Json User, !Json BiometricCredentials}.
Variable alert : string -> string -> Async unit.
Variable onSuccess : option (Async unit).
Variable onError : option (string -> Async unit).
Variable config : AuthConfig.

Definition handleMicrosoftLogin : Async unit :=
  try_catch
    (AuthProvider.loginWithMicrosoft config ;;
     match onSuccess with
     | Some callback => callback
     | None => ret tt
     end)
    (fun error =>
       let errorMessage := message_or error "Microsoft login failed" in
       match onError with
       | Some callback => callback errorMessage
       | None => ret tt
       end ;;
       alert "Login Failed" errorMessage).

End Component.
End MicrosoftLogin.

(** What a handler does with a failure: the message goes to [onError], when
    there is one, and then to an alert. *)
Definition told (alert : string -> string -> Async unit)
    (onError : option (string -> Async unit)) (title errorMessage : string)
    : Async unit :=
  match onError with
  | Some callback => callback errorMessage
  | None => ret tt
  end ;;
  alert title errorMessage.

Lemma mirrors_error_thrown {A} fallback (c : Async A) w e w1 :
  mirrors_error fallback c -> c w = (Thrown e, w1) ->
  error (state w1) = Some (message_or e fallback).
Proof. intros H Hrun. specialize (H w). rewrite Hrun in H. exact H. Qed.

Section LoginButtons.
Context `{!Json AuthTokens, !Json User, !Json BiometricCredentials}.
Variable alert : string -> string -> Async unit.
Variable onSuccess : option (Async unit).
Variable onError : option (string -> Async unit).
Variable config : AuthConfig.

(** X30.  When the login function of the provider throws, the handler of
    the button gives the message of the error to [onError] and to an alert,
    and nothing else happens.  For Google and Microsoft that message is the
    one in the error attribute of the provider.  For the biometric button
    it is too when the error has a message; for an error without one the
    alert says "Biometric authentication failed" while the attribute says
    "Biometric login failed".  An [onSuccess] that throws after a login that
    succeeded is reported in the same way, as a failed login. *)
Theorem handlers_report (w : World) :
  (forall e w1,
     AuthProvider.loginWithGoogle config w = (Thrown e, w1) ->
     GoogleLogin.handleGoogleLogin alert onSuccess onError config w
     = told alert onError "Login Failed" (message_or e "Google login failed") w1
     /\ error (state w1) = Some (message_or e "Google login failed"))
  /\ (forall e w1,
        AuthProvider.loginWithMicrosoft config w = (Thrown e, w1) ->
        MicrosoftLogin.handleMicrosoftLogin alert onSuccess onError config w
        = told alert onError "Login Failed" (message_or e "Microsoft login failed") w1
        /\ error (state w1) = Some (message_or e "Microsoft login failed"))
  /\ (forall e w1,
        AuthProvider.loginWithBiometrics config w = (Thrown e, w1) ->
        BiometricLogin.handleBiometricLogin alert onSuccess onError config w
        = told alert onError "Authentication Failed"
            (message_or e "Biometric authentication failed") w1
        /\ (truthy (message e) = true ->
            error (state w1) = Some (message_or e "Biometric authentication failed"))
        /\ (truthy (message e) = false ->
            message_or e "Biometric authentication failed"
            = "Biometric authentication failed"
            /\ error (state w1) = Some "Biometric login failed"))
  /\ (forall callback w1 e w2,
        onSuccess = Some callback ->
        callback w1 = (Thrown e, w2) ->
        (AuthProvider.loginWithGoogle config w = (Returned tt, w1) ->
         GoogleLogin.handleGoogleLogin alert onSuccess onError config w
         = told alert onError "Login Failed" (message_or e "Google login failed") w2)
        /\ (AuthProvider.loginWithMicrosoft config w = (Returned tt, w1) ->
            MicrosoftLogin.handleMicrosoftLogin alert onSuccess onError config w
            = told alert onError "Login Failed"
                (message_or e "Microsoft login failed") w2)
        /\ (AuthProvider.loginWithBiometrics config w = (Returned tt, w1) ->
            BiometricLogin.handleBiometricLogin alert onSuccess onError config w
            = told alert onError "Authentication Failed"
                (message_or e "Biometric authentication failed") w2)).
Proof.
  split; [|split; [|split]].
  - intros e w1 Hrun. split.
    + unfold GoogleLogin.handleGoogleLogin.
      erewrite try_catch_thrown by (rewrite (bind_thrown _ _ _ _ _ Hrun); reflexivity).
      reflexivity.
    + exact (mirrors_error_thrown _ _ _ _ _ (loginWithGoogle_mirrors config) Hrun).
  - intros e w1 Hrun. split.
    + unfold MicrosoftLogin.handleMicrosoftLogin.
      erewrite try_catch_thrown by (rewrite (bind_thrown _ _ _ _ _ Hrun); reflexivity).
      reflexivity.
    + exact (mirrors_error_thrown _ _ _ _ _ (loginWithMicrosoft_mirrors config) Hrun).
  - intros e w1 Hrun.
    pose proof (mirrors_error_thrown _ _ _ _ _ (loginWithBiometrics_mirrors config) Hrun)
      as Herr.
    split; [|split].
    + unfold BiometricLogin.handleBiometricLogin.
      erewrite try_catch_thrown by (rewrite (bind_thrown _ _ _ _ _ Hrun); reflexivity).
      reflexivity.
    + intros Hm. rewrite Herr. unfold message_or, or_else. rewrite Hm. reflexivity.
    + intros Hm. rewrite Herr. unfold message_or, or_else. rewrite Hm.
      split; reflexivity.
  - intros callback w1 e w2 -> Hcb. split; [|split]; intros Hrun.
    + unfold GoogleLogin.handleGoogleLogin.
      erewrite try_catch_thrown
        by (rewrite (bind_returned _ _ _ _ _ Hrun); exact Hcb).
      reflexivity.
    + unfold MicrosoftLogin.handleMicrosoftLogin.
      erewrite try_catch_thrown
        by (rewrite (bind_returned _ _ _ _ _ Hrun); exact Hcb).
      reflexivity.
    + unfold BiometricLogin.handleBiometricLogin.
      erewrite try_catch_thrown
        by (rewrite (bind_returned _ _ _ _ _ Hrun); exact Hcb).
      reflexivity.
Qed.

End LoginButtons.

Lemma handlers_report_witness :
  fst (GoogleLogin.handleGoogleLogin (fun _ _ => ret tt) None None defaultConfig
         freshInstall) = Returned tt
  /\ error (state (snd (AuthProvider.loginWithGoogle defaultConfig freshInstall)))
     = Some "Google OAuth is not configured".
Proof.
  destruct (handlers_report (fun _ _ => ret tt) None None defaultConfig freshInstall)
    as (Hg & _).
  destruct (Hg (Error "Google OAuth is not configured")
              (snd (AuthProvider.loginWithGoogle defaultConfig freshInstall)))
    as [Hh He]; [vm_compute; reflexivity|].
  split; [rewrite Hh; reflexivity|exact He].
Defined.

Lemma handleLogin_validation_witness :
  isValidEmail "a@b.co" = true
  /\ isValidEmail (trim " a@b.co") = true
  /\ EmailPasswordLogin.handleLogin (fun _ _ => ret tt) None true " a@b.co" "pw"
       freshInstall
     = (Returned tt, freshInstall).
Proof.
  destruct (handleLogin_validation (fun _ _ => ret tt) None true initialState
              "a@b.co" "pw" freshInstall) as (_ & _ & H & _).
  destruct (H " "%char eq_refl eq_refl eq_refl) as (Ht & Hl & _).
  split; [reflexivity|]. split; [exact Ht|]. rewrite Hl. reflexivity.
Defined.
